(** * CraneFlyOS: the two-button gesture decoder, the file browser, the
      subprocess manager and the file-browser mode handler of [main.py]

    A shallow embedding of the interaction core of [main.py].

    - Time is the millisecond clock of the board, a [Z].  Only the
      [time.sleep_ms] calls advance it; reading a pin or the tick counter
      takes no time.  The tick counter wraps as MicroPython's does.
    - The two button lines are signals over that clock: what [Pin.value()]
      reads at each instant.
    - The wait loops of the decoder block for as long as a button is held,
      so each takes a fuel argument that bounds its number of polls; [None]
      is "fuel exhausted", never a result of the program.
    - [os.listdir] and the script handed to [exec] are oracles.
    - Drawing on the panel changes nothing the handlers read back, so the
      display calls are not part of the state.
    - The monitor thread is seen through what it does to the exit flag:
      while the script runs, inside [execute_file]; after the script has
      ended, as [MainLoop.late_request_exit].  Its own loop is
      [SubprocessManager.monitor_exit_buttons]. *)

From Stdlib Require Import ZArith List String Ascii Bool Lia.
From Stdlib Require Import DecimalString Sorted Permutation.
Import ListNotations.

Local Open Scope string_scope.
Local Open Scope Z_scope.

(** ** Option sequencing for the fuel-bounded loops *)

Notation "x <- a ;; b" :=
  (match a with
   | None => None
   | Some x => b
   end) (at level 60, a at next level, right associativity).

(** ** The Python string operations the source calls *)

Module Py.

(** [s[lo:hi]] for indices [0 <= lo <= hi]; out-of-range indices clip. *)
Definition slice (lo hi : nat) (s : string) : string :=
  substring lo (hi - lo) s.

(** [s.endswith(suffix)] *)
Definition endswith (s suffix : string) : bool :=
  (String.length suffix <=? String.length s)%nat &&
  String.eqb
    (substring (String.length s - String.length suffix)
               (String.length suffix) s)
    suffix.

(** [s.rstrip(c)] for a one-character argument. *)
Fixpoint rstrip (c : ascii) (s : string) : string :=
  match s with
  | EmptyString => EmptyString
  | String a s' =>
      match rstrip c s' with
      | EmptyString =>
          if Ascii.eqb a c then EmptyString else String a EmptyString
      | r => String a r
      end
  end.

(** [s.split(c)] for a one-character separator: never the empty list. *)
Fixpoint split (c : ascii) (s : string) : list string :=
  match s with
  | EmptyString => [EmptyString]
  | String a s' =>
      if Ascii.eqb a c then EmptyString :: split c s'
      else
        match split c s' with
        | [] => [String a EmptyString]
        | w :: ws => String a w :: ws
        end
  end.

(** [sep.join(parts)] *)
Definition join (sep : string) (parts : list string) : string :=
  String.concat sep parts.

(** [parts[:-1]] *)
Definition drop_last {A} (l : list A) : list A := removelast l.

(** [x or y] on strings: the empty string is falsy. *)
Definition str_or (x y : string) : string :=
  match x with
  | EmptyString => y
  | _ => x
  end.

(** [sorted(entries)]: ascending by code point; insertion sort. *)
Fixpoint insert (x : string) (l : list string) : list string :=
  match l with
  | [] => [x]
  | y :: l' => if String.leb x y then x :: l else y :: insert x l'
  end.

Definition sorted (l : list string) : list string :=
  fold_right insert [] l.

(** [l[i]]: a negative index counts from the end; [None] is
    [IndexError]. *)
Definition index {A} (l : list A) (i : Z) : option A :=
  let n := Z.of_nat (List.length l) in
  if (0 <=? i) && (i <? n) then nth_error l (Z.to_nat i)
  else if (- n <=? i) && (i <? 0) then nth_error l (Z.to_nat (n + i))
  else None.

(** [str(n)] of an integer: its decimal digits. *)
Definition str (n : Z) : string := NilZero.string_of_int (Z.to_int n).

(** The characters MicroPython's [strip()] removes. *)
Definition is_space (c : ascii) : bool :=
  match Ascii.N_of_ascii c with
  | 9%N | 10%N | 11%N | 12%N | 13%N | 32%N => true
  | _ => false
  end.

Fixpoint lstrip_ws (s : string) : string :=
  match s with
  | EmptyString => EmptyString
  | String a s' => if is_space a then lstrip_ws s' else s
  end.

Fixpoint rstrip_ws (s : string) : string :=
  match s with
  | EmptyString => EmptyString
  | String a s' =>
      match rstrip_ws s' with
      | EmptyString => if is_space a then EmptyString else String a EmptyString
      | r => String a r
      end
  end.

(** [s.strip()] *)
Definition strip (s : string) : string := rstrip_ws (lstrip_ws s).

(** [range(0, stop, step)] for a positive step. *)
Definition range_step (stop step : nat) : list nat :=
  map (fun k => (k * step)%nat) (seq 0 ((stop + step - 1) / step)).

(** [enumerate(l)], counting from [i]. *)
Fixpoint enumerate_from {A} (i : Z) (l : list A) : list (Z * A) :=
  match l with
  | [] => []
  | a :: l' => (i, a) :: enumerate_from (i + 1) l'
  end.

(** A loop that collects one result per element and stops at the first
    exception. *)
Fixpoint collect {A B} (f : A -> option B) (l : list A) : option (list B) :=
  match l with
  | [] => Some []
  | a :: l' =>
      b <- f a ;;
      bs <- collect f l' ;;
      Some (b :: bs)
  end.

(** [range(0, n)] *)
Definition range (n : nat) : list Z := map Z.of_nat (seq 0 n).

End Py.

(** ** [time.ticks_ms], [time.ticks_diff], [time.sleep_ms] *)

Module Time.

(** MicroPython's tick counter wraps at [TICKS_PERIOD]. *)
Definition TICKS_PERIOD : Z := 2 ^ 30.

(** [time.ticks_ms()] when the hardware clock reads [now]. *)
Definition ticks_ms (now : Z) : Z := now mod TICKS_PERIOD.

(** [time.ticks_diff(a, b)]: signed difference modulo the period. *)
Definition ticks_diff (a b : Z) : Z :=
  (a - b + TICKS_PERIOD / 2) mod TICKS_PERIOD - TICKS_PERIOD / 2.

(** [time.sleep_ms(n)] advances the clock by [n]. *)
Definition sleep_ms (n : Z) (now : Z) : Z := now + n.

End Time.

(** ** [class ButtonHandler] *)

Module ButtonHandler.

(** What [get_input] returns besides [None]. *)
Inductive Action : Type :=
| btn1_short
| btn2_short
| btn1_hold_btn2_tap
| btn2_hold_btn1_tap
| both_short
| both_long.

Definition long_press_ms : Z := 800.
Definition debounce_ms : Z := 50.

(** The two input lines.  [btnN_value p t] is what [self.btnN.value()]
    reads at time [t]; the pins are pulled up, so [true] is released and
    [false] is pressed. *)
Record Pins : Type := {
  btn1_value : Z -> bool;
  btn2_value : Z -> bool
}.

(** [not self.btn1.value()] and [not self.btn2.value()] *)
Definition pressed1 (p : Pins) (t : Z) : bool := negb (btn1_value p t).
Definition pressed2 (p : Pins) (t : Z) : bool := negb (btn2_value p t).

(** [not self.btn1.value() or not self.btn2.value()] *)
Definition either_pressed (p : Pins) (t : Z) : bool :=
  pressed1 p t || pressed2 p t.

(** [time.ticks_diff(time.ticks_ms(), press_start) > self.long_press_ms] *)
Definition timed_out (press_start now : Z) : bool :=
  Time.ticks_diff (Time.ticks_ms now) press_start >? long_press_ms.

(** [while not line.value(): time.sleep_ms(10)]; returns the time at
    which the loop is left. *)
Fixpoint wait_release (fuel : nat) (line : Z -> bool) (t : Z) : option Z :=
  match fuel with
  | O => None
  | S f =>
      if negb (line t) then wait_release f line (Time.sleep_ms 10 t)
      else Some t
  end.

(** [while not self.btn1.value() or not self.btn2.value():
       time.sleep_ms(10)] *)
Fixpoint wait_release_both (fuel : nat) (p : Pins) (t : Z) : option Z :=
  match fuel with
  | O => None
  | S f =>
      if either_pressed p t then wait_release_both f p (Time.sleep_ms 10 t)
      else Some t
  end.

(** The loop of the both-pressed branch (lines 129-137). *)
Fixpoint both_loop (fuel : nat) (p : Pins) (press_start t : Z)
  : option (Action * Z) :=
  match fuel with
  | O => None
  | S f =>
      if either_pressed p t then
        if timed_out press_start t then
          t' <- wait_release_both f p t ;;
          Some (both_long, t')
        else both_loop f p press_start (Time.sleep_ms 10 t)
      else Some (both_short, t)
  end.

(** How a hold-detection loop is left: by [return] of the combination,
    or by falling out of the loop (condition false, or [break]). *)
Inductive HoldExit : Type :=
| Combo (t : Z)
| LoopLeft (t : Z).

(** The hold-detection loop of a single-button branch (lines 143-157 for
    [held] = btn1, lines 167-181 for [held] = btn2). *)
Fixpoint hold_loop (fuel : nat) (held other : Z -> bool)
         (press_start t : Z) : option HoldExit :=
  match fuel with
  | O => None
  | S f =>
      if negb (held t) then
        if negb (other t) then
          t1 <- wait_release f other (Time.sleep_ms debounce_ms t) ;;
          t2 <- wait_release f held t1 ;;
          Some (Combo t2)
        else if timed_out press_start t then Some (LoopLeft t)
        else hold_loop f held other press_start (Time.sleep_ms 10 t)
      else Some (LoopLeft t)
  end.

(** A whole single-button branch: the hold loop, then the wait for the
    release of the held line and the plain tap. *)
Definition single_branch (fuel : nat) (held other : Z -> bool)
           (combo tap : Action) (t : Z) : option (Action * Z) :=
  e <- hold_loop fuel held other (Time.ticks_ms t) t ;;
  match e with
  | Combo t' => Some (combo, t')
  | LoopLeft t1 =>
      t2 <- wait_release fuel held t1 ;;
      Some (tap, t2)
  end.

(** [get_input] called at time [t].  The outer [option] is [None] when
    the fuel runs out inside a wait loop; the inner one is Python's
    [None]. *)
Definition get_input (fuel : nat) (p : Pins) (t : Z)
  : option (option Action * Z) :=
  let btn1_pressed := negb (btn1_value p t) in
  let btn2_pressed := negb (btn2_value p t) in
  if negb btn1_pressed && negb btn2_pressed then Some (None, t)
  else
    let t := Time.sleep_ms debounce_ms t in
    if btn1_pressed && btn2_pressed then
      r <- both_loop fuel p (Time.ticks_ms t) t ;;
      Some (Some (fst r), snd r)
    else if btn1_pressed then
      r <- single_branch fuel (btn1_value p) (btn2_value p)
             btn1_hold_btn2_tap btn1_short t ;;
      Some (Some (fst r), snd r)
    else if btn2_pressed then
      r <- single_branch fuel (btn2_value p) (btn1_value p)
             btn2_hold_btn1_tap btn2_short t ;;
      Some (Some (fst r), snd r)
    else Some (None, t).

End ButtonHandler.

(** ** [class Display]: the geometry the other classes read *)

Module Display.

Definition line_height : Z := 10.
Definition max_lines : Z := 6.
Definition char_width : Z := 8.
(** 128 pixels / 8 pixels per char *)
Definition max_chars : Z := 16.

(** The text [draw_lines(lines, scroll_offset)] puts on the panel:
    [lines[start:start + max_lines]], each cut to [line[:max_chars]]; the
    selection mark is left out. *)
Definition draw_lines (lines : list string) (scroll_offset : Z)
  : list string :=
  map (Py.slice 0 (Z.to_nat max_chars))
      (firstn (Z.to_nat max_lines) (skipn (Z.to_nat scroll_offset) lines)).

(** [wrap_text]: the state of the loop over the words is the list of
    finished lines and [current_line]. *)
Definition wrap_word (st : list string * string) (word : string)
  : list string * string :=
  let '(lines, current_line) := st in
  if Z.of_nat (String.length word) >? max_chars then
    let lines :=
      match current_line with
      | EmptyString => lines
      | _ => (lines ++ [Py.strip current_line])%list
      end in
    ((lines ++ map (fun i => Py.slice i (i + Z.to_nat max_chars) word)
                   (Py.range_step (String.length word)
                      (Z.to_nat max_chars)))%list,
     "")
  else if Z.of_nat (String.length current_line)
          + Z.of_nat (String.length word) + 1 <=? max_chars then
    (lines, current_line ++ word ++ " ")
  else ((lines ++ [Py.strip current_line])%list, word ++ " ").

Definition wrap_text (text : string) : list string :=
  let '(lines, current_line) :=
    fold_left wrap_word (Py.split " "%char text) ([], "") in
  match current_line with
  | EmptyString => lines
  | _ => (lines ++ [Py.strip current_line])%list
  end.

(** One [self.oled.text(text, x, y, 1)] call. *)
Record TextCall : Type := {
  text : string;
  x : Z;
  y : Z
}.

(** The [oled.text] calls of [draw_lines(lines, scroll_offset,
    highlight_index)], in order, for a scroll offset that is not
    negative. *)
Definition draw_calls (lines : list string) (scroll_offset : Z)
           (highlight_index : Z) : list TextCall :=
  let start_line := scroll_offset in
  let visible_lines :=
    firstn (Z.to_nat max_lines) (skipn (Z.to_nat start_line) lines) in
  flat_map
    (fun '(i, line) =>
       let display_line := Py.slice 0 (Z.to_nat max_chars) line in
       let y_pos := i * line_height in
       if i + start_line =? highlight_index then
         [ {| text := ">"; x := 0; y := y_pos |};
           {| text := display_line; x := 10; y := y_pos |} ]
       else [ {| text := display_line; x := 0; y := y_pos |} ])
    (Py.enumerate_from 0 visible_lines).

End Display.

(** ** What a call can do instead of returning *)

Inductive Outcome (A : Type) : Type :=
| Returns (a : A)
| Propagates   (* an exception no handler of the callee catches *)
| Resets.      (* [machine.reset()]: no further code runs *)

Arguments Returns {A} a.
Arguments Propagates {A}.
Arguments Resets {A}.

(** ** [class ProcessControl] *)

Module ProcessControl.

(** The class attribute [should_exit]; the lock serialises the three
    methods, each of which is one step here. *)
Record t : Type := { should_exit : bool }.

(** The value of the class body: [should_exit = False]. *)
Definition init : t := {| should_exit := false |}.

Definition request_exit (c : t) : t := {| should_exit := true |}.

Definition clear_exit (c : t) : t := {| should_exit := false |}.

Definition check_exit (c : t) : bool := should_exit c.

End ProcessControl.

(** ** [class SubprocessManager] *)

Module SubprocessManager.

(** The state [execute_file] works on: the process-wide exit flag and
    [self.running]. *)
Record Proc : Type := {
  control : ProcessControl.t;
  running : bool
}.

Definition request_exit (s : Proc) : Proc :=
  {| control := ProcessControl.request_exit (control s);
     running := running s |}.

Definition clear_exit (s : Proc) : Proc :=
  {| control := ProcessControl.clear_exit (control s);
     running := running s |}.

(** [self.running = b] *)
Definition set_running (b : bool) (s : Proc) : Proc :=
  {| control := control s; running := b |}.

(** The exit flag as [check_exit] reads it. *)
Definition should_exit (s : Proc) : bool :=
  ProcessControl.check_exit (control s).

(** How the body of the [try] block (splash screen, monitor start,
    [open], [exec]) ends. *)
Inductive Ending : Type :=
| Completes
| RaisesKeyboardInterrupt
| RaisesException (msg : string)   (* [str(e)] of an [Exception] *)
| RaisesOther                      (* e.g. [SystemExit] *)
| ResetsMachine.                   (* the monitor saw [both_long] *)

(** One run of a script: whether the monitor thread called
    [request_exit] while it ran, and how it ended. *)
Record Run : Type := {
  exit_requested : bool;
  ending : Ending
}.

(** [execute_file(filepath, display, oled)], up to the instant it
    returns.  A monitor thread that outlives the script writes the flag
    after that instant: see [MainLoop.late_request_exit]. *)
Definition execute_file (run : string -> Run) (filepath : string)
           (s : Proc) : Outcome (list string) * Proc :=
  if negb (Py.endswith filepath ".py") then
    (Returns ["Error:"; "Not a .py file"], s)
  else
    let s := set_running true (clear_exit s) in
    let r := run filepath in
    let s := if exit_requested r then request_exit s else s in
    match ending r with
    | Completes =>
        let s := clear_exit (set_running false s) in
        (Returns ["Process exited"; "normally"], s)
    | RaisesKeyboardInterrupt =>
        let s := clear_exit (set_running false s) in
        (Returns ["Process"; "interrupted"], s)
    | RaisesException error_msg =>
        let s := clear_exit (set_running false s) in
        (Returns ["Exec Error:";
                  Py.slice 0 40 error_msg;
                  if (40 <? String.length error_msg)%nat
                  then Py.slice 40 80 error_msg else ""], s)
    | RaisesOther => (Propagates, s)
    | ResetsMachine => (Resets, s)
    end.

(** How [monitor_exit_buttons] ends. *)
Inductive MonitorExit : Type :=
| ExitRequested (t : Z)   (* [request_exit()], then [break] *)
| MachineReset (t : Z)    (* [machine.reset()] *)
| NotRunning (t : Z).     (* [self.running] read false *)

(** [monitor_exit_buttons], started at [t].  [running_at u] is what the
    thread reads in [self.running] at time [u]; [rounds] bounds the turns
    of the loop and [fuel] the polls of each [get_input]. *)
Fixpoint monitor_exit_buttons (rounds fuel : nat) (p : ButtonHandler.Pins)
         (running_at : Z -> bool) (t : Z) : option MonitorExit :=
  match rounds with
  | O => None
  | S r =>
      if running_at t then
        g <- ButtonHandler.get_input fuel p t ;;
        match g with
        | (Some ButtonHandler.both_short, t') => Some (ExitRequested t')
        | (Some ButtonHandler.both_long, t') => Some (MachineReset t')
        | (_, t') =>
            monitor_exit_buttons r fuel p running_at (Time.sleep_ms 50 t')
        end
      else Some (NotRunning t)
  end.

End SubprocessManager.

(** ** [class OLED_1inch3]: what [show] writes on the SPI bus *)

Module OLED_1inch3.

Definition width : Z := 128.
Definition height : Z := 64.

(** One [write_cmd(b)] or [write_data(b)]: the byte and the level of the
    data/command line. *)
Inductive Spi : Type :=
| Cmd (b : Z)
| Data (b : Z).

(** The frame buffer [__init__] allocates holds this many bytes. *)
Definition buffer_size : Z := height * width / 8.

(** One turn of the [for page in range(0, 64)] loop of [show]; [None] is
    [IndexError]. *)
Definition show_page (rotate : Z) (buffer : list Z) (page : Z)
  : option (list Spi) :=
  let column := if rotate =? 180 then page else 63 - page in
  row <- Py.collect (fun num => Py.index buffer (page * 16 + num))
           (Py.range 16) ;;
  Some (Cmd (0x00 + Z.land column 0x0F)
          :: Cmd (0x10 + Z.shiftr column 4)
          :: map Data row).

Definition show (rotate : Z) (buffer : list Z) : option (list Spi) :=
  pages <- Py.collect (show_page rotate buffer) (Py.range 64) ;;
  Some (Cmd 0xB0 :: List.concat pages).

End OLED_1inch3.

(** ** [class Screensaver] *)

Module Screensaver.

Record t : Type := {
  current_frame : Z;
  x : Z;
  y : Z;
  dx : Z;
  dy : Z
}.

Definition frames : list (list string) :=
  [ [" (o)"; " (|)"]; ["(\o/)"; "(/|\)"] ].

Definition init : t :=
  {| current_frame := 0; x := 64; y := 32; dx := 1; dy := 1 |}.

(** [max(len(line) for line in frame)] *)
Definition longest (frame : list string) : Z :=
  fold_right (fun line m => Z.max (Z.of_nat (String.length line)) m) 0 frame.

(** The speed after a bounce; [r] is what [get_random_direction()]
    returns. *)
Definition bounce (d r : Z) : Z :=
  let d := - d in
  let d := d + r in
  let d := Z.max (-2) (Z.min 2 d) in
  if d =? 0 then 1 else d.

(** [update]; [rx] and [ry] are the random directions drawn when the
    sprite bounces off a vertical or a horizontal edge; [None] is
    [IndexError]. *)
Definition update (rx ry : Z) (s : t) : option t :=
  frame <- Py.index frames (current_frame s) ;;
  let x := x s + dx s in
  let y := y s + dy s in
  let max_width := longest frame * 8 in
  let max_height := Z.of_nat (List.length frame) * 8 in
  let dx :=
    if (x <=? 0) || (x + max_width >=? 128) then bounce (dx s) rx
    else dx s in
  let dy :=
    if (y <=? 0) || (y + max_height >=? 64) then bounce (dy s) ry
    else dy s in
  let x := Z.max 0 (Z.min (128 - max_width) x) in
  let y := Z.max 0 (Z.min (64 - max_height) y) in
  Some {| current_frame :=
            (current_frame s + 1) mod Z.of_nat (List.length frames);
          x := x; y := y; dx := dx; dy := dy |}.

End Screensaver.

(** ** [class FileBrowser] *)

Module FileBrowser.

(** The ["type"] key of an item. *)
Inductive ItemType : Type := dir | file | parent | error.

Definition ItemType_eqb (a b : ItemType) : bool :=
  match a, b with
  | dir, dir | file, file | parent, parent | error, error => true
  | _, _ => false
  end.

(** The dictionaries of [self.items]. *)
Record Item : Type := {
  name : string;
  type : ItemType;
  path : string
}.

(** What [os.listdir(path)] does: the entry names, or an exception whose
    [str] is [msg]. *)
Inductive Listing : Type :=
| Entries (names : list string)
| OSError (msg : string).

Record t : Type := {
  current_path : string;
  items : list Item;
  selected_index : Z;
  scroll_offset : Z
}.

(** [_get_parent_path] reads only [self.current_path]. *)
Definition _get_parent_path (current_path : string) : string :=
  if String.eqb current_path "/" then "/"
  else
    let parts := Py.split "/"%char (Py.rstrip "/"%char current_path) in
    if (List.length parts <=? 1)%nat then "/"
    else Py.str_or (Py.join "/" (Py.drop_last parts)) "/".

(** [self.current_path + ("" if self.current_path == "/" else "/") + entry] *)
Definition full_path (current_path entry : string) : string :=
  current_path ++ (if String.eqb current_path "/" then "" else "/") ++ entry.

(** The [try: os.listdir(full_path)] probe. *)
Definition is_dir (listdir : string -> Listing) (p : string) : bool :=
  match listdir p with
  | Entries _ => true
  | OSError _ => false
  end.

(** One turn of the [for entry in sorted(entries)] loop: the items it
    appends. *)
Definition scan_entry (listdir : string -> Listing) (current_path : string)
           (entry : string) : list Item :=
  if String.eqb entry "main.py" then []
  else
    let fp := full_path current_path entry in
    [ {| name := entry;
         type := if is_dir listdir fp then dir else file;
         path := fp |} ].

Definition refresh_items (listdir : string -> Listing) (b : t) : t :=
  let cp := current_path b in
  let its :=
    match listdir cp with
    | Entries entries =>
        let scanned := flat_map (scan_entry listdir cp) (Py.sorted entries) in
        if negb (String.eqb cp "/") then
          {| name := ".."; type := parent; path := _get_parent_path cp |}
            :: scanned
        else scanned
    | OSError e =>
        [ {| name := "Error: " ++ e; type := error; path := "" |} ]
    end in
  {| current_path := cp; items := its;
     selected_index := 0; scroll_offset := 0 |}.

Definition len (b : t) : Z := Z.of_nat (List.length (items b)).

Definition next_item (b : t) : t :=
  match items b with
  | [] => b
  | _ :: _ =>
      let sel := (selected_index b + 1) mod len b in
      let off :=
        if sel <? scroll_offset b then sel
        else if sel >=? scroll_offset b + Display.max_lines
             then sel - Display.max_lines + 1
             else scroll_offset b in
      {| current_path := current_path b; items := items b;
         selected_index := sel; scroll_offset := off |}
  end.

Definition scroll_down (b : t) : t :=
  let max_scroll := Z.max 0 (len b - Display.max_lines) in
  {| current_path := current_path b; items := items b;
     selected_index := selected_index b;
     scroll_offset := Z.min (scroll_offset b + 1) max_scroll |}.

Definition scroll_up (b : t) : t :=
  {| current_path := current_path b; items := items b;
     selected_index := selected_index b;
     scroll_offset := Z.max 0 (scroll_offset b - 1) |}.

Definition get_selected_item (b : t) : option Item :=
  match items b with
  | [] => None
  | _ :: _ =>
      if (0 <=? selected_index b) && (selected_index b <? len b)
      then nth_error (items b) (Z.to_nat (selected_index b))
      else None
  end.

(** [enter_selected]: the returned value and the browser afterwards. *)
Definition enter_selected (listdir : string -> Listing) (b : t)
  : option string * t :=
  match get_selected_item b with
  | None => (None, b)
  | Some item =>
      match type item with
      | dir | parent =>
          (None,
           refresh_items listdir
             {| current_path := path item; items := items b;
                selected_index := selected_index b;
                scroll_offset := scroll_offset b |})
      | file => (Some (path item), b)
      | error => (None, b)
      end
  end.

(** The state [__init__] builds. *)
Definition init (listdir : string -> Listing) : t :=
  refresh_items listdir
    {| current_path := "/"; items := [];
       selected_index := 0; scroll_offset := 0 |}.

Definition get_display_lines (b : t) : list string :=
  match items b with
  | [] => ["(empty)"]
  | _ :: _ =>
      map (fun item =>
             match type item with
             | dir => "[D] " ++ name item
             | parent => "[D] " ++ name item
             | error => name item
             | file => name item
             end)
          (items b)
  end.

(** The [oled.text] calls of [show]. *)
Definition show (b : t) : list Display.TextCall :=
  Display.draw_calls (get_display_lines b) (scroll_offset b)
    (selected_index b).

End FileBrowser.

(** ** [class MenuSystem] *)

Module MenuSystem.

Record t : Type := {
  menu_items : list string;
  selected_index : Z
}.

Definition init : t :=
  {| menu_items := ["cfetch"; "ctop"; "cbin"; "reboot"];
     selected_index := 0 |}.

(** [next_item]: [%] by the length of an empty list raises
    [ZeroDivisionError], which is [None] here. *)
Definition next_item (m : t) : option t :=
  match menu_items m with
  | [] => None
  | _ :: _ =>
      Some {| menu_items := menu_items m;
              selected_index :=
                (selected_index m + 1)
                  mod Z.of_nat (List.length (menu_items m)) |}
  end.

(** [show] draws the menu with scroll offset 0. *)
Definition show_scroll_offset : Z := 0.

Definition get_menu_lines (m : t) : list string := menu_items m.

(** [get_selected]: [None] is [IndexError]. *)
Definition get_selected (m : t) : option string :=
  Py.index (menu_items m) (selected_index m).

(** The [oled.text] calls of [show]. *)
Definition show (m : t) : list Display.TextCall :=
  Display.draw_calls (get_menu_lines m) show_scroll_offset
    (selected_index m).

End MenuSystem.

(** ** [class Commands] *)

Module Commands.

(** What the commands read from the board. *)
Record Machine : Type := {
  unique_id_hex : string;   (* [machine.unique_id().hex()] *)
  freq : Z;                 (* [machine.freq()] *)
  temp : string;            (* the temperature text, ["N/A"] when the
                               sensor cannot be read *)
  mem_free : Z;             (* [gc.mem_free()] after [gc.collect()] *)
  mem_alloc : Z             (* [gc.mem_alloc()] *)
}.

Definition cfetch (m : Machine) : list string :=
  let uid := unique_id_hex m in
  let freq := freq m / 1000000 in
  [ "     CraneFly OS";
    "(\0/)     v1.0.1";
    "(/|\)    ";
    "        ";
    "";
    "ID:";
    uid;
    "Freq: " ++ Py.str freq ++ "MHz";
    "Temp: " ++ temp m;
    "RAM: 264KB" ].

(** The hours, minutes and seconds [ctop] prints for a tick count. *)
Definition uptime (ms : Z) : Z * Z * Z :=
  let secs := ms / 1000 in
  let mins := secs / 60 in
  let hours := mins / 60 in
  (hours, mins mod 60, secs mod 60).

(** [ctop] when [time.ticks_ms()] reads [ms]; [None] is the
    [ZeroDivisionError] of the usage line. *)
Definition ctop (ms : Z) (m : Machine) : option (list string) :=
  let '(hours, mins60, secs60) := uptime ms in
  let free := mem_free m in
  let alloc := mem_alloc m in
  let total := free + alloc in
  if total =? 0 then None
  else
    Some [ " === System === ";
           "";
           "Uptime:";
           "  " ++ Py.str hours ++ "h " ++ Py.str mins60 ++ "m "
             ++ Py.str secs60 ++ "s";
           "";
           "Memory:";
           "Total: " ++ Py.str total ++ "B";
           "Used:  " ++ Py.str alloc ++ "B";
           "Free:  " ++ Py.str free ++ "B";
           "Usage: " ++ Py.str (alloc * 100 / total) ++ "%" ].

End Commands.

(** ** [class CraneFlyOS]: the file-browser mode handler *)

Module CraneFlyOS.

Inductive Mode : Type := menu | output | cbin.

(** The fields the handlers of the file-browser mode read or write. *)
Record t : Type := {
  mode : Mode;
  the_menu : MenuSystem.t;
  file_browser : FileBrowser.t;
  proc : SubprocessManager.Proc;
  output_lines : list string;
  scroll_offset : Z
}.

(** The outside of the program: the directory listing and the scripts. *)
Record World : Type := {
  listdir : string -> FileBrowser.Listing;
  run : string -> SubprocessManager.Run
}.

Definition with_browser (o : t) (b : FileBrowser.t) : t :=
  {| mode := mode o; the_menu := the_menu o; file_browser := b;
     proc := proc o; output_lines := output_lines o;
     scroll_offset := scroll_offset o |}.

Definition with_mode (o : t) (m : Mode) : t :=
  {| mode := m; the_menu := the_menu o; file_browser := file_browser o;
     proc := proc o; output_lines := output_lines o;
     scroll_offset := scroll_offset o |}.

(** [execute_file(filepath)] of the OS class. *)
Definition execute_file (w : World) (filepath : string) (o : t)
  : Outcome t :=
  match SubprocessManager.execute_file (run w) filepath (proc o) with
  | (Returns result, s) =>
      Returns {| mode := output; the_menu := the_menu o;
                 file_browser := file_browser o; proc := s;
                 output_lines := result; scroll_offset := 0 |}
  | (Propagates, _) => Propagates
  | (Resets, _) => Resets
  end.

(** [handle_cbin_input(action)] *)
Definition handle_cbin_input (w : World) (action : ButtonHandler.Action)
           (o : t) : Outcome t :=
  match action with
  | ButtonHandler.btn1_short =>
      Returns (with_browser o (FileBrowser.next_item (file_browser o)))
  | ButtonHandler.btn2_short =>
      let '(file_to_exec, b) :=
        FileBrowser.enter_selected (listdir w) (file_browser o) in
      let o := with_browser o b in
      match file_to_exec with
      | Some (String c rest) => execute_file w (String c rest) o
      | Some EmptyString | None => Returns o
      end
  | ButtonHandler.btn1_hold_btn2_tap =>
      Returns (with_browser o (FileBrowser.scroll_down (file_browser o)))
  | ButtonHandler.btn2_hold_btn1_tap =>
      Returns (with_browser o (FileBrowser.scroll_up (file_browser o)))
  | ButtonHandler.both_short => Returns (with_mode o menu)
  | ButtonHandler.both_long => Resets
  end.

Definition with_menu (o : t) (m : MenuSystem.t) : t :=
  {| mode := mode o; the_menu := m; file_browser := file_browser o;
     proc := proc o; output_lines := output_lines o;
     scroll_offset := scroll_offset o |}.

Definition with_output (o : t) (lines : list string) : t :=
  {| mode := output; the_menu := the_menu o;
     file_browser := file_browser o; proc := proc o;
     output_lines := lines; scroll_offset := 0 |}.

Definition with_scroll (o : t) (off : Z) : t :=
  {| mode := mode o; the_menu := the_menu o;
     file_browser := file_browser o; proc := proc o;
     output_lines := output_lines o; scroll_offset := off |}.

(** [execute_command(cmd_name)] at clock time [now]. *)
Definition execute_command (w : World) (m : Commands.Machine) (now : Z)
           (cmd_name : string) (o : t) : Outcome t :=
  if String.eqb cmd_name "cfetch" then
    Returns (with_output o (Commands.cfetch m))
  else if String.eqb cmd_name "ctop" then
    match Commands.ctop (Time.ticks_ms now) m with
    | Some result => Returns (with_output o result)
    | None => Propagates
    end
  else if String.eqb cmd_name "cbin" then
    Returns (with_mode
               (with_browser o
                  (FileBrowser.refresh_items (listdir w) (file_browser o)))
               cbin)
  else if String.eqb cmd_name "reboot" then Resets
  else Returns (with_output o ["Unknown: " ++ cmd_name]).

(** The [oled.text] calls of [show_output]. *)
Definition show_output (o : t) : list Display.TextCall :=
  Display.draw_calls (output_lines o) (scroll_offset o) (-1).

(** [handle_menu_input(action)] *)
Definition handle_menu_input (w : World) (m : Commands.Machine) (now : Z)
           (action : ButtonHandler.Action) (o : t) : Outcome t :=
  match action with
  | ButtonHandler.btn1_short =>
      match MenuSystem.next_item (the_menu o) with
      | Some menu' => Returns (with_menu o menu')
      | None => Propagates
      end
  | ButtonHandler.btn2_short =>
      match MenuSystem.get_selected (the_menu o) with
      | Some selected => execute_command w m now selected o
      | None => Propagates
      end
  | ButtonHandler.both_long => Resets
  | _ => Returns o
  end.

(** [handle_output_input(action)] *)
Definition handle_output_input (action : ButtonHandler.Action) (o : t)
  : Outcome t :=
  match action with
  | ButtonHandler.btn1_short => Returns (with_mode o menu)
  | ButtonHandler.btn2_short => Returns (with_mode o menu)
  | ButtonHandler.btn1_hold_btn2_tap =>
      let max_scroll :=
        Z.max 0 (Z.of_nat (List.length (output_lines o))
                 - Display.max_lines) in
      Returns (with_scroll o (Z.min (scroll_offset o + 1) max_scroll))
  | ButtonHandler.btn2_hold_btn1_tap =>
      Returns (with_scroll o (Z.max 0 (scroll_offset o - 1)))
  | ButtonHandler.both_long => Resets
  | ButtonHandler.both_short => Returns o
  end.

End CraneFlyOS.

(** ** The main loop of [CraneFlyOS.run] *)

Module MainLoop.

(** The fields of the OS object the loop reads or writes. *)
Record t : Type := {
  os : CraneFlyOS.t;
  screensaver : Screensaver.t;
  screensaver_active : bool;
  last_activity_time : Z
}.

Definition screensaver_timeout : Z := 30000.

(** The state [__init__] builds at clock time [now]. *)
Definition init (listdir : string -> FileBrowser.Listing) (now : Z) : t :=
  {| os :=
       {| CraneFlyOS.mode := CraneFlyOS.menu;
          CraneFlyOS.the_menu := MenuSystem.init;
          CraneFlyOS.file_browser := FileBrowser.init listdir;
          CraneFlyOS.proc :=
            {| SubprocessManager.control := ProcessControl.init;
               SubprocessManager.running := false |};
          CraneFlyOS.output_lines := [];
          CraneFlyOS.scroll_offset := 0 |};
     screensaver := Screensaver.init;
     screensaver_active := false;
     last_activity_time := Time.ticks_ms now |}.

(** [reset_screensaver_timer()] at clock time [now]. *)
Definition reset_screensaver_timer (now : Z) (s : t) : t :=
  {| os := os s; screensaver := screensaver s;
     screensaver_active := false;
     last_activity_time := Time.ticks_ms now |}.

(** [check_screensaver()] at clock time [now]. *)
Definition check_screensaver (now : Z) (s : t) : t :=
  match CraneFlyOS.mode (os s) with
  | CraneFlyOS.menu =>
      if negb (screensaver_active s) then
        let elapsed :=
          Time.ticks_diff (Time.ticks_ms now) (last_activity_time s) in
        if elapsed >=? screensaver_timeout then
          {| os := os s; screensaver := screensaver s;
             screensaver_active := true;
             last_activity_time := last_activity_time s |}
        else s
      else s
  | _ => s
  end.

Definition with_os (s : t) (o : Outcome CraneFlyOS.t) : Outcome t :=
  match o with
  | Returns o' =>
      Returns {| os := o'; screensaver := screensaver s;
                 screensaver_active := screensaver_active s;
                 last_activity_time := last_activity_time s |}
  | Propagates => Propagates
  | Resets => Resets
  end.

(** The mode dispatch at the end of the loop body. *)
Definition dispatch (w : CraneFlyOS.World) (m : Commands.Machine)
           (now : Z) (action : ButtonHandler.Action) (s : t) : Outcome t :=
  with_os s
    match CraneFlyOS.mode (os s) with
    | CraneFlyOS.menu => CraneFlyOS.handle_menu_input w m now action (os s)
    | CraneFlyOS.output => CraneFlyOS.handle_output_input action (os s)
    | CraneFlyOS.cbin => CraneFlyOS.handle_cbin_input w action (os s)
    end.

(** One turn of the [while True] loop of [run], entered at clock time
    [now], up to its closing sleep.  [rx] and [ry] are the random
    directions of the screensaver; the outer [None] is the decoder out of
    fuel. *)
Definition iteration (fuel : nat) (p : ButtonHandler.Pins)
           (w : CraneFlyOS.World) (m : Commands.Machine) (rx ry : Z)
           (now : Z) (s : t) : option (Outcome t) :=
  let s := check_screensaver now s in
  g <- ButtonHandler.get_input fuel p now ;;
  let '(action, t1) := g in
  let s :=
    match action with
    | Some _ => reset_screensaver_timer t1 s
    | None => s
    end in
  if screensaver_active s then
    match Screensaver.update rx ry (screensaver s) with
    | Some sv =>
        Some (Returns {| os := os s; screensaver := sv;
                         screensaver_active := screensaver_active s;
                         last_activity_time := last_activity_time s |})
    | None => Some Propagates
    end
  else
    match action with
    | Some a => Some (dispatch w m t1 a s)
    | None => Some (Returns s)
    end.

(** The write of a monitor thread that outlives its script.  The thread
    reads [self.running] only at the head of its loop (line 328): when
    the script ends while the thread is inside [get_input], the call is
    finished after the cleanup of [execute_file], and on [both_short] the
    thread calls [request_exit()] (line 333), between two turns of the
    main loop or during one.  The exit flag is all the thread writes. *)
Definition late_request_exit (s : t) : t :=
  {| os :=
       {| CraneFlyOS.mode := CraneFlyOS.mode (os s);
          CraneFlyOS.the_menu := CraneFlyOS.the_menu (os s);
          CraneFlyOS.file_browser := CraneFlyOS.file_browser (os s);
          CraneFlyOS.proc :=
            SubprocessManager.request_exit (CraneFlyOS.proc (os s));
          CraneFlyOS.output_lines := CraneFlyOS.output_lines (os s);
          CraneFlyOS.scroll_offset := CraneFlyOS.scroll_offset (os s) |};
     screensaver := screensaver s;
     screensaver_active := screensaver_active s;
     last_activity_time := last_activity_time s |}.

End MainLoop.

(** * Properties *)

(** ** Vocabulary of the statements *)

(** The selection is inside the window the browser draws. *)
Definition selection_visible (b : FileBrowser.t) : Prop :=
  FileBrowser.scroll_offset b <= FileBrowser.selected_index b
    < FileBrowser.scroll_offset b + Display.max_lines.

(** [k] presses of "next" on the menu, stopping at the first exception. *)
Fixpoint menu_presses (k : nat) (m : MenuSystem.t) : option MenuSystem.t :=
  match k with
  | O => Some m
  | S k' => m' <- menu_presses k' m ;; MenuSystem.next_item m'
  end.

Definition has_parent_entry (its : list FileBrowser.Item) : Prop :=
  exists it, In it its /\ FileBrowser.type it = FileBrowser.parent.

(** A path segment has no ["/"] in it ... *)
Fixpoint slash_free (s : string) : bool :=
  match s with
  | EmptyString => true
  | String a s' => negb (Ascii.eqb a "/"%char) && slash_free s'
  end.

(** ... and is not empty. *)
Definition segment (s : string) : Prop :=
  s <> EmptyString /\ slash_free s = true.

(** ["/seg1/.../segN"]; the root ["/"] for no segment. *)
Definition abs_path (segs : list string) : string :=
  "/" ++ Py.join "/" segs.

(** The browser moved to another directory, before the refresh. *)
Definition moved_to (b : FileBrowser.t) (p : string) : FileBrowser.t :=
  {| FileBrowser.current_path := p;
     FileBrowser.items := FileBrowser.items b;
     FileBrowser.selected_index := FileBrowser.selected_index b;
     FileBrowser.scroll_offset := FileBrowser.scroll_offset b |}.

(** The instant of poll number [k] of the loop a call made at [t] enters
    after its debounce wait. *)
Definition poll (t k : Z) : Z := t + ButtonHandler.debounce_ms + 10 * k.

(** The tap inside a hold-and-tap, in a call made at [t] that returns at
    [t']: after the debounce wait a sample at [u0] found the held and the
    tapped line both pressed, and a later sample at [u], at least a second
    debounce wait after [u0] and no later than the return, found the
    tapped line released. *)
Definition tapped_and_released (held tapped : Z -> bool) (t t' : Z)
  : Prop :=
  exists u0 u,
    t + ButtonHandler.debounce_ms <= u0
    /\ u0 + ButtonHandler.debounce_ms <= u <= t'
    /\ held u0 = false /\ tapped u0 = false
    /\ tapped u = true.

(** The lines whose release a returned gesture stands for. *)
Definition released_at_return (p : ButtonHandler.Pins) (t : Z)
           (a : ButtonHandler.Action) (t' : Z) : Prop :=
  match a with
  | ButtonHandler.both_short | ButtonHandler.both_long =>
      ButtonHandler.either_pressed p t' = false
  | ButtonHandler.btn1_short => ButtonHandler.pressed1 p t' = false
  | ButtonHandler.btn2_short => ButtonHandler.pressed2 p t' = false
  | ButtonHandler.btn1_hold_btn2_tap =>
      ButtonHandler.pressed1 p t' = false
      /\ tapped_and_released (ButtonHandler.btn1_value p)
                             (ButtonHandler.btn2_value p) t t'
  | ButtonHandler.btn2_hold_btn1_tap =>
      ButtonHandler.pressed2 p t' = false
      /\ tapped_and_released (ButtonHandler.btn2_value p)
                             (ButtonHandler.btn1_value p) t t'
  end.

(** The tap the first sample of a call stands for. *)
Definition first_sample_tap (btn1_pressed btn2_pressed : bool)
  : ButtonHandler.Action :=
  if btn1_pressed && btn2_pressed then ButtonHandler.both_short
  else if btn1_pressed then ButtonHandler.btn1_short
  else ButtonHandler.btn2_short.

(** The hold-and-tap combination of the single-button branch the first
    sample selects. *)
Definition first_sample_combo (btn1_pressed btn2_pressed : bool)
  : ButtonHandler.Action :=
  if btn1_pressed && btn2_pressed then ButtonHandler.both_long
  else if btn1_pressed then ButtonHandler.btn1_hold_btn2_tap
  else ButtonHandler.btn2_hold_btn1_tap.

(** The branch of [get_input] a returned result comes from. *)
Inductive Branch (p : ButtonHandler.Pins) (fuel : nat) (t : Z)
          (r : option ButtonHandler.Action) (t' : Z) : Prop :=
| idle_branch :
    ButtonHandler.pressed1 p t = false ->
    ButtonHandler.pressed2 p t = false ->
    r = None -> t' = t -> Branch p fuel t r t'
| both_branch (a : ButtonHandler.Action) :
    ButtonHandler.pressed1 p t = true ->
    ButtonHandler.pressed2 p t = true ->
    r = Some a ->
    ButtonHandler.both_loop fuel p
      (Time.ticks_ms (t + ButtonHandler.debounce_ms))
      (t + ButtonHandler.debounce_ms) = Some (a, t') ->
    Branch p fuel t r t'
| btn1_branch (a : ButtonHandler.Action) :
    ButtonHandler.pressed1 p t = true ->
    ButtonHandler.pressed2 p t = false ->
    r = Some a ->
    ButtonHandler.single_branch fuel
      (ButtonHandler.btn1_value p) (ButtonHandler.btn2_value p)
      ButtonHandler.btn1_hold_btn2_tap ButtonHandler.btn1_short
      (t + ButtonHandler.debounce_ms) = Some (a, t') ->
    Branch p fuel t r t'
| btn2_branch (a : ButtonHandler.Action) :
    ButtonHandler.pressed1 p t = false ->
    ButtonHandler.pressed2 p t = true ->
    r = Some a ->
    ButtonHandler.single_branch fuel
      (ButtonHandler.btn2_value p) (ButtonHandler.btn1_value p)
      ButtonHandler.btn2_hold_btn1_tap ButtonHandler.btn2_short
      (t + ButtonHandler.debounce_ms) = Some (a, t') ->
    Branch p fuel t r t'.

(** One of the two buttons, its line, its partner and its gestures. *)
Inductive Button : Type := Btn1 | Btn2.

Definition partner (b : Button) : Button :=
  match b with
  | Btn1 => Btn2
  | Btn2 => Btn1
  end.

Definition value_of (p : ButtonHandler.Pins) (b : Button) : Z -> bool :=
  match b with
  | Btn1 => ButtonHandler.btn1_value p
  | Btn2 => ButtonHandler.btn2_value p
  end.

Definition tap_of (b : Button) : ButtonHandler.Action :=
  match b with
  | Btn1 => ButtonHandler.btn1_short
  | Btn2 => ButtonHandler.btn2_short
  end.

Definition combo_of (b : Button) : ButtonHandler.Action :=
  match b with
  | Btn1 => ButtonHandler.btn1_hold_btn2_tap
  | Btn2 => ButtonHandler.btn2_hold_btn1_tap
  end.

(** The largest scroll offset [scroll_down] allows. *)
Definition max_scroll (b : FileBrowser.t) : Z :=
  Z.max 0 (FileBrowser.len b - Display.max_lines).

(** The selection points into the items and the window starts inside the
    range [scroll_down] keeps. *)
Definition well_formed (b : FileBrowser.t) : Prop :=
  0 <= FileBrowser.selected_index b
  /\ (FileBrowser.items b <> [] ->
      FileBrowser.selected_index b < FileBrowser.len b)
  /\ 0 <= FileBrowser.scroll_offset b <= max_scroll b.

(** Ascending order of names, as [sorted] compares them. *)
Definition name_le (a b : string) : Prop := String.leb a b = true.

(** [entry != "main.py"] *)
Definition not_launcher (entry : string) : bool :=
  negb (String.eqb entry "main.py").

(** The items that stand for directory entries: all but the parent
    entry. *)
Definition entry_items (its : list FileBrowser.Item)
  : list FileBrowser.Item :=
  filter (fun it =>
            negb (FileBrowser.ItemType_eqb (FileBrowser.type it)
                    FileBrowser.parent))
         its.

(** The [oled.text] call that draws a line next to the selection mark. *)
Definition indented (c : Display.TextCall) : bool := Display.x c =? 10.

(** The selection mark on a row of the panel. *)
Definition selection_mark (row : Z) : Display.TextCall :=
  {| Display.text := ">"; Display.x := 0;
     Display.y := row * Display.line_height |}.

(** The calls [draw_lines] makes for the visible lines [vis], the first
    of which is row [k]. *)
Definition draw_rows (start_line highlight_index k : Z) (vis : list string)
  : list Display.TextCall :=
  flat_map
    (fun '(i, line) =>
       let display_line := Py.slice 0 (Z.to_nat Display.max_chars) line in
       let y_pos := i * Display.line_height in
       if i + start_line =? highlight_index then
         [ {| Display.text := ">"; Display.x := 0; Display.y := y_pos |};
           {| Display.text := display_line; Display.x := 10;
              Display.y := y_pos |} ]
       else [ {| Display.text := display_line; Display.x := 0;
                 Display.y := y_pos |} ])
    (Py.enumerate_from k vis).

(** No character of the word is one [strip()] removes. *)
Fixpoint space_free (s : string) : bool :=
  match s with
  | EmptyString => true
  | String a s' => negb (Py.is_space a) && space_free s'
  end.

(** The data bytes of an SPI stream, in the order they are written. *)
Definition data_bytes (stream : list OLED_1inch3.Spi) : list Z :=
  flat_map (fun w => match w with
                     | OLED_1inch3.Data b => [b]
                     | OLED_1inch3.Cmd _ => []
                     end) stream.

(** The command bytes of an SPI stream. *)
Definition command_bytes (stream : list OLED_1inch3.Spi) : list Z :=
  flat_map (fun w => match w with
                     | OLED_1inch3.Cmd b => [b]
                     | OLED_1inch3.Data _ => []
                     end) stream.

(** The sixteen buffer bytes of a page. *)
Definition page_bytes (buffer : list Z) (page : Z) : list Z :=
  firstn 16 (skipn (Z.to_nat (page * 16)) buffer).

(** A speed of the screensaver sprite: one or two pixels per update. *)
Definition speed (d : Z) : Prop := -2 <= d <= 2 /\ d <> 0.

(** The sprite is on one of its two frames, where the narrower frame
    fits the panel, and it is moving. *)
Definition sprite_in_range (s : Screensaver.t) : Prop :=
  (Screensaver.current_frame s = 0 \/ Screensaver.current_frame s = 1)
  /\ 0 <= Screensaver.x s <= 96
  /\ 0 <= Screensaver.y s <= 48
  /\ speed (Screensaver.dx s)
  /\ speed (Screensaver.dy s).

(** No script is marked running.  Nothing is said of the exit flag: a
    monitor thread that outlives its script can raise it at any time. *)
Definition proc_idle (s : SubprocessManager.Proc) : Prop :=
  SubprocessManager.running s = false.

(** The output view starts inside the range its scroll gestures keep. *)
Definition output_scroll_in_range (o : CraneFlyOS.t) : Prop :=
  0 <= CraneFlyOS.scroll_offset o
    <= Z.max 0 (Z.of_nat (List.length (CraneFlyOS.output_lines o))
                - Display.max_lines).

(** The menu holds the four commands and one of them is selected. *)
Definition menu_in_range (m : MenuSystem.t) : Prop :=
  MenuSystem.menu_items m = MenuSystem.menu_items MenuSystem.init
  /\ 0 <= MenuSystem.selected_index m < 4.

(** What holds of the OS object between two turns of the main loop. *)
Definition os_consistent (o : CraneFlyOS.t) : Prop :=
  proc_idle (CraneFlyOS.proc o)
  /\ well_formed (CraneFlyOS.file_browser o)
  /\ output_scroll_in_range o
  /\ menu_in_range (CraneFlyOS.the_menu o).

Definition consistent (s : MainLoop.t) : Prop :=
  (MainLoop.screensaver_active s = true ->
   CraneFlyOS.mode (MainLoop.os s) = CraneFlyOS.menu)
  /\ os_consistent (MainLoop.os s)
  /\ sprite_in_range (MainLoop.screensaver s).

(** ** Sample inputs *)

Module Samples.

Import FileBrowser.

Definition file_item (n p : string) : Item :=
  {| name := n; type := file; path := p |}.

(** Three files, the second one selected. *)
Definition three_files : FileBrowser.t :=
  {| current_path := "/";
     items := [file_item "a.py" "/a.py"; file_item "b.py" "/b.py";
               file_item "c.py" "/c.py"];
     selected_index := 1;
     scroll_offset := 0 |}.

(** A card with a [tools] directory next to the launcher. *)
Definition card (p : string) : Listing :=
  if String.eqb p "/" then Entries ["tools"; "main.py"; "a.py"]
  else if String.eqb p "/tools" then Entries ["blink.py"; "main.py"]
  else OSError "[Errno 2] ENOENT".

(** A card whose [tools] directory can no longer be read. *)
Definition broken_card (p : string) : Listing :=
  if String.eqb p "/" then Entries ["tools"]
  else OSError "[Errno 5] EIO".

Definition in_tools : FileBrowser.t :=
  {| current_path := "/tools"; items := [];
     selected_index := 0; scroll_offset := 0 |}.

(** The browser at the root of [card] with [tools] selected. *)
Definition at_root_on_tools : FileBrowser.t :=
  next_item (init card).

Definition idle : SubprocessManager.Proc :=
  {| SubprocessManager.control := ProcessControl.init;
     SubprocessManager.running := false |}.

(** A cancellation request left over from an earlier run. *)
Definition stale : SubprocessManager.Proc :=
  {| SubprocessManager.control :=
       ProcessControl.request_exit ProcessControl.init;
     SubprocessManager.running := false |}.

Definition name_error : string := "name 'led' isn't defined".

Definition script_fails (msg : string) (_ : string) : SubprocessManager.Run :=
  {| SubprocessManager.exit_requested := false;
     SubprocessManager.ending := SubprocessManager.RaisesException msg |}.

Definition script_cancelled (_ : string) : SubprocessManager.Run :=
  {| SubprocessManager.exit_requested := true;
     SubprocessManager.ending := SubprocessManager.Completes |}.

Definition world : CraneFlyOS.World :=
  {| CraneFlyOS.listdir := card; CraneFlyOS.run := script_cancelled |}.

Definition browsing : CraneFlyOS.t :=
  {| CraneFlyOS.mode := CraneFlyOS.cbin;
     CraneFlyOS.the_menu := MenuSystem.init;
     CraneFlyOS.file_browser := at_root_on_tools;
     CraneFlyOS.proc := idle;
     CraneFlyOS.output_lines := [];
     CraneFlyOS.scroll_offset := 0 |}.

(** A line pressed during [[a, b)] and released otherwise. *)
Definition pressed_during (a b : Z) (t : Z) : bool :=
  negb ((a <=? t) && (t <? b)).

Definition never_pressed (_ : Z) : bool := true.

(** Both buttons go down together; button 2 is let go after 100 ms,
    button 1 stays down for a second. *)
Definition one_let_go_early : ButtonHandler.Pins :=
  {| ButtonHandler.btn1_value := pressed_during 0 1000;
     ButtonHandler.btn2_value := pressed_during 0 100 |}.

(** Both buttons down for 75 ms. *)
Definition quick_both : ButtonHandler.Pins :=
  {| ButtonHandler.btn1_value := pressed_during 0 75;
     ButtonHandler.btn2_value := pressed_during 0 75 |}.

(** Both buttons down for a second and a half. *)
Definition long_both : ButtonHandler.Pins :=
  {| ButtonHandler.btn1_value := pressed_during 0 1500;
     ButtonHandler.btn2_value := pressed_during 0 1500 |}.

(** A 10 ms glitch on line 1. *)
Definition glitch : ButtonHandler.Pins :=
  {| ButtonHandler.btn1_value := pressed_during 0 10;
     ButtonHandler.btn2_value := never_pressed |}.

(** Button 2 goes down 20 ms after button 1. *)
Definition staggered : ButtonHandler.Pins :=
  {| ButtonHandler.btn1_value := pressed_during 0 500;
     ButtonHandler.btn2_value := pressed_during 20 300 |}.

(** Button 1 is held for a second; button 2 goes down 100 ms before
    button 1 is let go and stays down for another second. *)
Definition handover : ButtonHandler.Pins :=
  {| ButtonHandler.btn1_value := pressed_during 0 1000;
     ButtonHandler.btn2_value := pressed_during 900 2000 |}.

(** Eight files, the third one selected, the window one line down. *)
Definition many_files : FileBrowser.t :=
  {| FileBrowser.current_path := "/";
     FileBrowser.items :=
       map (fun n => file_item n ("/" ++ n))
           ["a"; "b"; "c"; "d"; "e"; "f"; "g"; "h"];
     FileBrowser.selected_index := 2;
     FileBrowser.scroll_offset := 1 |}.

Definition board : Commands.Machine :=
  {| Commands.unique_id_hex := "e6614103e7452d2f";
     Commands.freq := 125000000;
     Commands.temp := "N/A";
     Commands.mem_free := 150000;
     Commands.mem_alloc := 50000 |}.

(** The OS object right after construction at clock time 0. *)
Definition booted : MainLoop.t := MainLoop.init card 0.

(** The state after a turn of the loop that decodes a tap of button 1. *)
Definition after_tap : MainLoop.t :=
  {| MainLoop.os :=
       CraneFlyOS.with_menu (MainLoop.os booted)
         {| MenuSystem.menu_items := MenuSystem.menu_items MenuSystem.init;
            MenuSystem.selected_index := 1 |};
     MainLoop.screensaver := Screensaver.init;
     MainLoop.screensaver_active := false;
     MainLoop.last_activity_time := 50 |}.

End Samples.

(** ** Proof steps shared by the loop lemmas *)

(** After the 10 ms sleep that ends poll [k] the clock stands at poll
    [k + 1]. *)
Ltac next_poll t0 k :=
  unfold Time.sleep_ms;
  replace (t0 + 10 * k + 10) with (t0 + 10 * (k + 1)) by lia.

(** A fuel-bounded loop that returned did so from one of its [Some]
    branches. *)
Ltac returned H :=
  inversion H; subst; clear H.

(** ** The tick counter *)

Section Ticks.

Import Time.

Lemma ticks_diff_elapsed (t0 e : Z) :
  - (TICKS_PERIOD / 2) <= e < TICKS_PERIOD / 2 ->
  ticks_diff (ticks_ms (t0 + e)) (ticks_ms t0) = e.
Proof.
  intros He. unfold ticks_diff, ticks_ms.
  rewrite <- Zplus_mod_idemp_l, <- Zminus_mod, Zplus_mod_idemp_l.
  replace (t0 + e - t0 + TICKS_PERIOD / 2) with (e + TICKS_PERIOD / 2) by lia.
  rewrite Z.mod_small; [lia|].
  change TICKS_PERIOD with 1073741824 in *.
  change (1073741824 / 2) with 536870912 in *. lia.
Qed.

Lemma timed_out_elapsed (t0 e : Z) :
  0 <= e <= 1000 ->
  ButtonHandler.timed_out (ticks_ms t0) (t0 + e)
  = (e >? ButtonHandler.long_press_ms).
Proof.
  intros He. unfold ButtonHandler.timed_out.
  rewrite ticks_diff_elapsed; [reflexivity|].
  change (TICKS_PERIOD / 2) with 536870912. lia.
Qed.

End Ticks.

(** ** The wait loops of the decoder *)

Section Loops.

Import ButtonHandler.

Lemma wait_release_sound (fuel : nat) (line : Z -> bool) (t t' : Z) :
  wait_release fuel line t = Some t' -> t <= t' /\ line t' = true.
Proof.
  revert t. induction fuel as [|f IH]; intros t; [discriminate|].
  cbn [wait_release]. destruct (line t) eqn:E; cbn [negb].
  - intros H. returned H. split; [lia | exact E].
  - intros H. apply IH in H. unfold Time.sleep_ms in H. split; [lia | tauto].
Qed.

Variable p : Pins.

Lemma wait_release_both_sound (fuel : nat) (t t' : Z) :
  wait_release_both fuel p t = Some t' ->
  t <= t' /\ either_pressed p t' = false.
Proof.
  revert t. induction fuel as [|f IH]; intros t; [discriminate|].
  cbn [wait_release_both]. destruct (either_pressed p t) eqn:E.
  - intros H. apply IH in H. unfold Time.sleep_ms in H. split; [lia | tauto].
  - intros H. returned H. split; [lia | exact E].
Qed.

(** The loop leaves at the first poll that finds both lines released. *)
Lemma wait_release_both_first (n fuel : nat) (t : Z) :
  (forall j, 0 <= j < Z.of_nat n -> either_pressed p (t + 10 * j) = true) ->
  either_pressed p (t + 10 * Z.of_nat n) = false ->
  (n < fuel)%nat ->
  wait_release_both fuel p t = Some (t + 10 * Z.of_nat n).
Proof.
  revert fuel t. induction n as [|n IH]; intros fuel t Hheld Hrel Hfuel;
    (destruct fuel as [|f]; [lia|]); cbn [wait_release_both].
  - replace (t + 10 * Z.of_nat 0) with t in * by lia.
    now rewrite Hrel.
  - assert (E : either_pressed p t = true)
      by (rewrite <- (Hheld 0) by lia; f_equal; lia).
    rewrite E.
    unfold Time.sleep_ms.
    replace (t + 10 * Z.of_nat (S n)) with (t + 10 + 10 * Z.of_nat n) in *
      by lia.
    apply IH; [|assumption|lia].
    intros j Hj. replace (t + 10 + 10 * j) with (t + 10 * (j + 1)) by lia.
    apply Hheld. lia.
Qed.

Lemma both_loop_sound (fuel : nat) (press_start t : Z) (a : Action) (t' : Z) :
  both_loop fuel p press_start t = Some (a, t') ->
  t <= t' /\ either_pressed p t' = false /\ (a = both_short \/ a = both_long).
Proof.
  revert t. induction fuel as [|f IH]; intros t; [discriminate|].
  cbn [both_loop]. destruct (either_pressed p t) eqn:E.
  - destruct (timed_out press_start t).
    + destruct (wait_release_both f p t) as [t1|] eqn:W; [|discriminate].
      intros H. returned H.
      apply wait_release_both_sound in W. intuition.
    + intros H. apply IH in H. unfold Time.sleep_ms in H.
      split; [lia | tauto].
  - intros H. returned H. split; [lia | auto].
Qed.

(** A both-hold is returned only after 82 polls, 10 ms apart, each of
    which found a line pressed. *)
Lemma both_loop_long_sound (fuel : nat) (t0 k t' : Z) :
  0 <= k <= 81 ->
  both_loop fuel p (Time.ticks_ms t0) (t0 + 10 * k) = Some (both_long, t') ->
  forall j, k <= j <= 81 -> either_pressed p (t0 + 10 * j) = true.
Proof.
  revert k. induction fuel as [|f IH]; intros k Hk; [discriminate|].
  cbn [both_loop]. destruct (either_pressed p (t0 + 10 * k)) eqn:E;
    [|discriminate].
  rewrite timed_out_elapsed by lia. unfold long_press_ms.
  destruct (Z.gtb_spec (10 * k) 800) as [Hgt | Hle].
  - intros _ j Hj. replace j with k by lia. exact E.
  - next_poll t0 k.
    intros H j Hj. destruct (Z.eq_dec j k) as [-> | Hne]; [exact E|].
    apply (IH (k + 1)); [lia | exact H | lia].
Qed.

(** Before the threshold the loop returns a both-tap at the first poll
    that finds both lines released. *)
Lemma both_loop_short_first (n fuel : nat) (t0 k : Z) :
  0 <= k -> k + Z.of_nat n <= 81 ->
  (forall j, k <= j < k + Z.of_nat n ->
     either_pressed p (t0 + 10 * j) = true) ->
  either_pressed p (t0 + 10 * (k + Z.of_nat n)) = false ->
  (n < fuel)%nat ->
  both_loop fuel p (Time.ticks_ms t0) (t0 + 10 * k)
  = Some (both_short, t0 + 10 * (k + Z.of_nat n)).
Proof.
  revert fuel k. induction n as [|n IH]; intros fuel k Hk Hn Hheld Hrel Hfuel;
    (destruct fuel as [|f]; [lia|]); cbn [both_loop].
  - replace (k + Z.of_nat 0) with k in * by lia. now rewrite Hrel.
  - rewrite (Hheld k) by lia.
    rewrite timed_out_elapsed by lia. unfold long_press_ms.
    destruct (Z.gtb_spec (10 * k) 800) as [Hgt | Hle]; [lia|].
    next_poll t0 k.
    replace (k + Z.of_nat (S n)) with (k + 1 + Z.of_nat n) in * by lia.
    apply IH; try lia; [|assumption].
    intros j Hj. apply Hheld. lia.
Qed.

(** Past the threshold the loop waits for the full release and returns a
    both-hold. *)
Lemma both_loop_long_first (d fuel : nat) (t0 k : Z) (m : nat) :
  k = 81 - Z.of_nat d -> 0 <= k ->
  (forall j, k <= j < Z.of_nat m -> either_pressed p (t0 + 10 * j) = true) ->
  either_pressed p (t0 + 10 * Z.of_nat m) = false ->
  81 < Z.of_nat m ->
  (m + 1 < fuel + Z.to_nat k)%nat ->
  both_loop fuel p (Time.ticks_ms t0) (t0 + 10 * k)
  = Some (both_long, t0 + 10 * Z.of_nat m).
Proof.
  revert fuel k.
  induction d as [|d IH]; intros fuel k Hd Hk Hheld Hrel Hm Hfuel;
    (destruct fuel as [|f]; [lia|]); cbn [both_loop];
    rewrite (Hheld k) by lia;
    rewrite timed_out_elapsed by lia; unfold long_press_ms;
    destruct (Z.gtb_spec (10 * k) 800) as [Hgt | Hle]; try lia.
  - rewrite (wait_release_both_first (m - 81) f (t0 + 10 * k)).
    + do 2 f_equal. lia.
    + intros j Hj.
      replace (t0 + 10 * k + 10 * j) with (t0 + 10 * (k + j)) by lia.
      apply Hheld. lia.
    + replace (t0 + 10 * k + 10 * Z.of_nat (m - 81))
        with (t0 + 10 * Z.of_nat m) by lia.
      exact Hrel.
    + lia.
  - next_poll t0 k.
    apply IH; try lia; try assumption. intros j Hj. apply Hheld. lia.
Qed.


(** *** The single-button branches *)

Lemma hold_loop_sound (fuel : nat) (held other : Z -> bool)
      (press_start t : Z) (e : HoldExit) :
  hold_loop fuel held other press_start t = Some e ->
  match e with
  | Combo t2 =>
      t <= t2 /\ held t2 = true
      /\ exists u0 u,
           t <= u0 /\ u0 + debounce_ms <= u <= t2
           /\ held u0 = false /\ other u0 = false /\ other u = true
  | LoopLeft t1 => t <= t1
  end.
Proof.
  revert t. induction fuel as [|f IH]; intros t; [discriminate|].
  cbn [hold_loop]. destruct (held t) eqn:Eheld; cbn [negb].
  - intros H. inversion H. lia.
  - destruct (other t) eqn:Eother; cbn [negb].
    + destruct (timed_out press_start t).
      * intros H. inversion H. lia.
      * intros H. apply IH in H. unfold Time.sleep_ms in H.
        destruct e as [t2 | t1]; [|lia].
        destruct H as (Ht & Hheld & u0 & u & Hu0 & Hu & Hrest).
        split; [lia|]. split; [assumption|]. exists u0, u.
        split; [lia|]. split; assumption.
    + destruct (wait_release f other _) as [t1|] eqn:W1; [|discriminate].
      destruct (wait_release f held t1) as [t2|] eqn:W2; [|discriminate].
      intros H. returned H.
      apply wait_release_sound in W1, W2.
      unfold Time.sleep_ms in W1.
      split; [unfold debounce_ms in W1; lia|]. split; [tauto|].
      exists t, t1. split; [lia|]. split; [lia|]. tauto.
Qed.

Lemma single_branch_sound (fuel : nat) (held other : Z -> bool)
      (combo tap a : Action) (t t' : Z) :
  single_branch fuel held other combo tap t = Some (a, t') ->
  t <= t' /\ held t' = true
  /\ (a = tap
      \/ (a = combo
          /\ exists u0 u,
               t <= u0 /\ u0 + debounce_ms <= u <= t'
               /\ held u0 = false /\ other u0 = false /\ other u = true)).
Proof.
  unfold single_branch.
  destruct (hold_loop fuel held other _ t) as [[t2 | t1]|] eqn:L;
    [| |discriminate];
    apply hold_loop_sound in L.
  - intros H. returned H. destruct L as (Ht & Hheld & Htap).
    split; [exact Ht|]. split; [exact Hheld|]. right. now split.
  - destruct (wait_release fuel held t1) as [t2|] eqn:W; [|discriminate].
    intros H. returned H. apply wait_release_sound in W.
    split; [lia|]. split; [tauto | now left].
Qed.

(** A line that is already released when the branch starts is a tap. *)
Lemma single_branch_released (fuel : nat) (held other : Z -> bool)
      (combo tap : Action) (t : Z) :
  held t = true ->
  single_branch (S fuel) held other combo tap t = Some (tap, t).
Proof.
  intros E. unfold single_branch. cbn [hold_loop wait_release].
  rewrite E. cbn [negb]. now rewrite E.
Qed.

(** *** Every loop is left once the lines stay released *)

Lemma wait_release_returns (line : Z -> bool) (rel : Z) (fuel : nat) (t : Z) :
  (forall u, rel <= u -> line u = true) ->
  (Z.to_nat (rel - t) < fuel)%nat ->
  exists t', wait_release fuel line t = Some t'.
Proof.
  intros Hrel. revert t. induction fuel as [|f IH]; intros t Hfuel; [lia|].
  cbn [wait_release]. destruct (line t) eqn:E; cbn [negb]; [eauto|].
  assert (t < rel) by (destruct (Z.lt_ge_cases t rel); [assumption|];
                       rewrite Hrel in E by lia; discriminate).
  apply IH. unfold Time.sleep_ms. lia.
Qed.

Lemma either_pressed_false (t : Z) :
  either_pressed p t = false ->
  btn1_value p t = true /\ btn2_value p t = true.
Proof.
  unfold either_pressed, pressed1, pressed2.
  destruct (btn1_value p t), (btn2_value p t); cbn; auto; discriminate.
Qed.

Lemma wait_release_both_returns (rel : Z) (fuel : nat) (t : Z) :
  (forall u, rel <= u -> either_pressed p u = false) ->
  (Z.to_nat (rel - t) < fuel)%nat ->
  exists t', wait_release_both fuel p t = Some t'.
Proof.
  intros Hrel. revert t. induction fuel as [|f IH]; intros t Hfuel; [lia|].
  cbn [wait_release_both]. destruct (either_pressed p t) eqn:E; [|eauto].
  assert (t < rel) by (destruct (Z.lt_ge_cases t rel); [assumption|];
                       rewrite Hrel in E by lia; discriminate).
  apply IH. unfold Time.sleep_ms. lia.
Qed.

Lemma both_loop_returns (rel t0 : Z) (fuel : nat) (k : Z) :
  (forall u, rel <= u -> either_pressed p u = false) ->
  0 <= k <= 81 ->
  (Z.to_nat (rel - t0) + Z.to_nat (82 - k) < fuel)%nat ->
  exists r, both_loop fuel p (Time.ticks_ms t0) (t0 + 10 * k) = Some r.
Proof.
  intros Hrel. revert k. induction fuel as [|f IH]; intros k Hk Hfuel; [lia|].
  cbn [both_loop]. destruct (either_pressed p (t0 + 10 * k)) eqn:E; [|eauto].
  rewrite timed_out_elapsed by lia. unfold long_press_ms.
  destruct (Z.gtb_spec (10 * k) 800) as [Hgt | Hle].
  - destruct (wait_release_both_returns rel f (t0 + 10 * k) Hrel) as [t' ->];
      [lia | eauto].
  - next_poll t0 k.
    apply IH; lia.
Qed.

Lemma hold_loop_returns (held other : Z -> bool) (rel t0 : Z)
      (fuel : nat) (k : Z) :
  (forall u, rel <= u -> held u = true) ->
  (forall u, rel <= u -> other u = true) ->
  0 <= k <= 81 ->
  (Z.to_nat (rel - t0) + Z.to_nat (82 - k) < fuel)%nat ->
  exists e, hold_loop fuel held other (Time.ticks_ms t0) (t0 + 10 * k) = Some e.
Proof.
  intros Hheld Hother. revert k.
  induction fuel as [|f IH]; intros k Hk Hfuel; [lia|].
  cbn [hold_loop]. destruct (held (t0 + 10 * k)); cbn [negb]; [eauto|].
  destruct (other (t0 + 10 * k)); cbn [negb].
  - rewrite timed_out_elapsed by lia. unfold long_press_ms.
    destruct (Z.gtb_spec (10 * k) 800) as [Hgt | Hle]; [eauto|].
    next_poll t0 k.
    apply IH; lia.
  - unfold Time.sleep_ms, debounce_ms.
    destruct (wait_release_returns other rel f (t0 + 10 * k + 50) Hother)
      as [t1 W1]; [lia|].
    rewrite W1. apply wait_release_sound in W1 as [Ht1 _].
    destruct (wait_release_returns held rel f t1 Hheld) as [t2 ->];
      [lia | eauto].
Qed.

Lemma single_branch_returns (held other : Z -> bool) (combo tap : Action)
      (rel t : Z) (fuel : nat) :
  (forall u, rel <= u -> held u = true) ->
  (forall u, rel <= u -> other u = true) ->
  (Z.to_nat (rel - t) + 82 < fuel)%nat ->
  exists r, single_branch fuel held other combo tap t = Some r.
Proof.
  intros Hheld Hother Hfuel. unfold single_branch.
  destruct (hold_loop_returns held other rel t fuel 0 Hheld Hother)
    as [e L]; [lia | lia |].
  rewrite Z.mul_0_r, Z.add_0_r in L. rewrite L.
  destruct e as [t2 | t1]; [eauto|].
  apply hold_loop_sound in L.
  destruct (wait_release_returns held rel fuel t1 Hheld) as [t2 ->];
    [lia | eauto].
Qed.

End Loops.

(** ** The decoder *)

Section Decoder.

Import ButtonHandler.

Variable p : Pins.

(** The branch [get_input] takes, read off the first sample. *)
Lemma get_input_idle (fuel : nat) (t : Z) :
  pressed1 p t = false -> pressed2 p t = false ->
  get_input fuel p t = Some (None, t).
Proof.
  unfold get_input, pressed1, pressed2. intros -> ->. reflexivity.
Qed.

Lemma get_input_both (fuel : nat) (t : Z) :
  pressed1 p t = true -> pressed2 p t = true ->
  get_input fuel p t
  = (r <- both_loop fuel p (Time.ticks_ms (t + debounce_ms))
            (t + debounce_ms) ;;
     Some (Some (fst r), snd r)).
Proof.
  unfold get_input, pressed1, pressed2. intros -> ->. reflexivity.
Qed.

Lemma get_input_btn1 (fuel : nat) (t : Z) :
  pressed1 p t = true -> pressed2 p t = false ->
  get_input fuel p t
  = (r <- single_branch fuel (btn1_value p) (btn2_value p)
            btn1_hold_btn2_tap btn1_short (t + debounce_ms) ;;
     Some (Some (fst r), snd r)).
Proof.
  unfold get_input, pressed1, pressed2. intros -> ->. reflexivity.
Qed.

Lemma get_input_btn2 (fuel : nat) (t : Z) :
  pressed1 p t = false -> pressed2 p t = true ->
  get_input fuel p t
  = (r <- single_branch fuel (btn2_value p) (btn1_value p)
            btn2_hold_btn1_tap btn2_short (t + debounce_ms) ;;
     Some (Some (fst r), snd r)).
Proof.
  unfold get_input, pressed1, pressed2. intros -> ->. reflexivity.
Qed.

Lemma get_input_inv (fuel : nat) (t : Z) (r : option Action) (t' : Z) :
  get_input fuel p t = Some (r, t') -> Branch p fuel t r t'.
Proof.
  destruct (pressed1 p t) eqn:E1, (pressed2 p t) eqn:E2.
  - rewrite get_input_both by assumption.
    destruct (both_loop _ _ _ _) as [[a u]|] eqn:L; [|discriminate].
    intros H. returned H. now apply both_branch with a.
  - rewrite get_input_btn1 by assumption.
    destruct (single_branch _ _ _ _ _ _) as [[a u]|] eqn:L; [|discriminate].
    intros H. returned H. now apply btn1_branch with a.
  - rewrite get_input_btn2 by assumption.
    destruct (single_branch _ _ _ _ _ _) as [[a u]|] eqn:L; [|discriminate].
    intros H. returned H. now apply btn2_branch with a.
  - rewrite get_input_idle by assumption.
    intros H. returned H. now apply idle_branch.
Qed.


(** C1, as the code has it. A both-hold is returned only when both lines
    were pressed at the first sample and each of the 82 polls that follow
    the debounce wait, 10 ms apart, found at least one line pressed; when
    a poll among them finds both lines released, the first such poll
    returns a both-tap; when none does, the first later poll that finds
    both released returns the both-hold. *)
Theorem both_long_needs_one_line_held_past_threshold (t : Z) :
  (forall fuel t',
      get_input fuel p t = Some (Some both_long, t') ->
      pressed1 p t = true /\ pressed2 p t = true
      /\ forall k, 0 <= k <= 81 -> either_pressed p (poll t k) = true)
  /\ (forall k fuel,
        pressed1 p t = true -> pressed2 p t = true ->
        0 <= k <= 81 ->
        (forall j, 0 <= j < k -> either_pressed p (poll t j) = true) ->
        either_pressed p (poll t k) = false ->
        (Z.to_nat k < fuel)%nat ->
        get_input fuel p t = Some (Some both_short, poll t k))
  /\ (forall m fuel,
        pressed1 p t = true -> pressed2 p t = true ->
        81 < m ->
        (forall j, 0 <= j < m -> either_pressed p (poll t j) = true) ->
        either_pressed p (poll t m) = false ->
        (Z.to_nat m + 1 < fuel)%nat ->
        get_input fuel p t = Some (Some both_long, poll t m)).
Proof.
  unfold poll. split; [|split].
  - intros fuel t' H. apply get_input_inv in H.
    destruct H as [? ? Hr ? | a H1 H2 Hr L | a ? ? Hr L | a ? ? Hr L];
      try discriminate; injection Hr as <-.
    + repeat split; try assumption. intros k Hk.
      eapply (both_loop_long_sound p fuel (t + debounce_ms) 0 t');
        [lia | | lia].
      now rewrite Z.mul_0_r, Z.add_0_r.
    + apply single_branch_sound in L as (_ & _ & [L | [L _]]); discriminate.
    + apply single_branch_sound in L as (_ & _ & [L | [L _]]); discriminate.
  - intros k fuel H1 H2 Hk Hheld Hrel Hfuel.
    rewrite get_input_both by assumption.
    pose proof (both_loop_short_first p (Z.to_nat k) fuel (t + debounce_ms) 0)
      as L.
    rewrite Z2Nat.id, Z.mul_0_r, Z.add_0_r, Z.add_0_l in L by lia.
    rewrite L; [reflexivity | lia | lia | | assumption | assumption].
    intros j Hj. apply Hheld. lia.
  - intros m fuel H1 H2 Hm Hheld Hrel Hfuel.
    rewrite get_input_both by assumption.
    pose proof (both_loop_long_first p 81 fuel (t + debounce_ms) 0 (Z.to_nat m))
      as L.
    rewrite Z2Nat.id, Z.mul_0_r, Z.add_0_r in L by lia.
    rewrite L; [reflexivity | reflexivity | lia | | assumption | lia | lia].
    intros j Hj. apply Hheld. lia.
Qed.

(** C3, as the code has it. When the first sample finds a line pressed,
    the call waits the 50 ms debounce interval and its branch is the one
    of that first sample: it returns the tap or the hold gesture of the
    lines pressed then; a press that is gone after the wait is not turned
    down but returned as that tap, at the end of the wait. *)
Theorem first_sample_decides_the_branch (t : Z) :
  either_pressed p t = true ->
  (forall fuel r t',
      get_input fuel p t = Some (r, t') ->
      t + debounce_ms <= t'
      /\ (r = Some (first_sample_tap (pressed1 p t) (pressed2 p t))
          \/ r = Some (first_sample_combo (pressed1 p t) (pressed2 p t))))
  /\ (forall fuel,
        either_pressed p (t + debounce_ms) = false ->
        get_input (S fuel) p t
        = Some (Some (first_sample_tap (pressed1 p t) (pressed2 p t)),
                t + debounce_ms)).
Proof.
  intros Hany. split.
  - intros fuel r t' H. apply get_input_inv in H.
    destruct H as [H1 H2 Hr ? | a H1 H2 Hr L | a H1 H2 Hr L | a H1 H2 Hr L];
      rewrite H1, H2; cbn [first_sample_tap first_sample_combo andb]; subst r.
    + unfold either_pressed in Hany. rewrite H1, H2 in Hany. discriminate.
    + apply both_loop_sound in L as (Ht & _ & [-> | ->]); auto.
    + apply single_branch_sound in L as (Ht & _ & [-> | [-> _]]); auto.
    + apply single_branch_sound in L as (Ht & _ & [-> | [-> _]]); auto.
  - intros fuel Hgone.
    destruct (either_pressed_false p _ Hgone) as [G1 G2].
    unfold either_pressed in Hany.
    destruct (pressed1 p t) eqn:H1, (pressed2 p t) eqn:H2;
      cbn [first_sample_tap andb]; try discriminate.
    + rewrite get_input_both by assumption. cbn [both_loop].
      now rewrite Hgone.
    + rewrite get_input_btn1, single_branch_released by assumption.
      reflexivity.
    + rewrite get_input_btn2, single_branch_released by assumption.
      reflexivity.
Qed.

(** C4, as the code has it. A gesture is returned at an instant at which
    the lines it stands for read released: both lines for the two
    both-button gestures, the held line for a tap and for a hold-and-tap,
    whose tapped line was seen released earlier in the call, at least a
    debounce wait after the poll that found it pressed; this covers the
    tap returned after the hold loop ran past the threshold.  The call
    does return once both lines stay released. *)
Theorem gesture_returned_after_release_of_its_lines (t : Z) :
  (forall fuel a t',
      get_input fuel p t = Some (Some a, t') ->
      t <= t' /\ released_at_return p t a t')
  /\ (forall rel fuel,
        (forall u, rel <= u -> either_pressed p u = false) ->
        (Z.to_nat (rel - t) + 82 < fuel)%nat ->
        exists r t', get_input fuel p t = Some (r, t')).
Proof.
  split.
  - intros fuel a t' H. apply get_input_inv in H.
    destruct H as [? ? Hr ? | b H1 H2 Hr L | b H1 H2 Hr L | b H1 H2 Hr L];
      try discriminate; injection Hr as <-.
    + apply both_loop_sound in L as (Ht & Hrel & [-> | ->]);
        unfold debounce_ms in Ht; (split; [lia | exact Hrel]).
    + apply single_branch_sound in L
        as (Ht & Hheld & [-> | [-> (u0 & u & Hu0 & Hu & Htap)]]);
        (split; [unfold debounce_ms in Ht; lia|]);
        cbn [released_at_return]; unfold pressed1, pressed2.
      * now rewrite Hheld.
      * rewrite Hheld. split; [reflexivity|]. exists u0, u.
        split; [exact Hu0|]. split; assumption.
    + apply single_branch_sound in L
        as (Ht & Hheld & [-> | [-> (u0 & u & Hu0 & Hu & Htap)]]);
        (split; [unfold debounce_ms in Ht; lia|]);
        cbn [released_at_return]; unfold pressed1, pressed2.
      * now rewrite Hheld.
      * rewrite Hheld. split; [reflexivity|]. exists u0, u.
        split; [exact Hu0|]. split; assumption.
  - intros rel fuel Hrel Hfuel.
    assert (R1 : forall u, rel <= u -> btn1_value p u = true)
      by (intros u Hu; now apply either_pressed_false, Hrel).
    assert (R2 : forall u, rel <= u -> btn2_value p u = true)
      by (intros u Hu; now apply either_pressed_false, Hrel).
    destruct (pressed1 p t) eqn:H1, (pressed2 p t) eqn:H2.
    + rewrite get_input_both by assumption.
      destruct (both_loop_returns p rel (t + debounce_ms) fuel 0 Hrel)
        as [r L]; [lia | unfold debounce_ms; lia |].
      rewrite Z.mul_0_r, Z.add_0_r in L. rewrite L. eauto.
    + rewrite get_input_btn1 by assumption.
      destruct (single_branch_returns (btn1_value p) (btn2_value p)
                  btn1_hold_btn2_tap btn1_short rel (t + debounce_ms) fuel
                  R1 R2) as [r ->]; [unfold debounce_ms; lia | eauto].
    + rewrite get_input_btn2 by assumption.
      destruct (single_branch_returns (btn2_value p) (btn1_value p)
                  btn2_hold_btn1_tap btn2_short rel (t + debounce_ms) fuel
                  R2 R1) as [r ->]; [unfold debounce_ms; lia | eauto].
    + rewrite get_input_idle by assumption. eauto.
Qed.

End Decoder.

(** ** The decoder on the sample traces *)

Section Traces.

Import ButtonHandler.

Lemma pressed_during_inside (a b u : Z) :
  a <= u < b -> Samples.pressed_during a b u = false.
Proof.
  intros Hu. unfold Samples.pressed_during.
  rewrite (proj2 (Z.leb_le a u)), (proj2 (Z.ltb_lt u b)) by lia.
  reflexivity.
Qed.

Lemma both_long_witness :
  (pressed1 Samples.long_both 0 = true
   /\ pressed2 Samples.long_both 0 = true
   /\ forall k, 0 <= k <= 81 ->
        either_pressed Samples.long_both (poll 0 k) = true)
  /\ get_input 10 Samples.quick_both 0 = Some (Some both_short, poll 0 3)
  /\ get_input 200 Samples.long_both 0 = Some (Some both_long, poll 0 145).
Proof.
  split; [|split].
  - apply (proj1 (both_long_needs_one_line_held_past_threshold
                    Samples.long_both 0) 200%nat 1500).
    vm_compute. reflexivity.
  - apply (proj1 (proj2 (both_long_needs_one_line_held_past_threshold
                           Samples.quick_both 0)) 3 10%nat);
      try reflexivity; try lia.
    intros j Hj. unfold either_pressed, pressed1, poll, debounce_ms.
    cbn [btn1_value Samples.quick_both Samples.long_both].
    rewrite pressed_during_inside by lia. reflexivity.
  - apply (proj2 (proj2 (both_long_needs_one_line_held_past_threshold
                           Samples.long_both 0)) 145 200%nat);
      try reflexivity; try lia.
    intros j Hj. unfold either_pressed, pressed1, poll, debounce_ms.
    cbn [btn1_value Samples.quick_both Samples.long_both].
    rewrite pressed_during_inside by lia. reflexivity.
Defined.

(** C1, as stated, fails: button 2 is let go 100 ms after both went down,
    yet holding button 1 alone past the threshold returns the both-hold,
    not the both-tap. *)
Lemma both_long_after_one_line_released :
  pressed1 Samples.one_let_go_early 0 = true
  /\ pressed2 Samples.one_let_go_early 0 = true
  /\ pressed2 Samples.one_let_go_early 100 = false
  /\ get_input 200 Samples.one_let_go_early 0 = Some (Some both_long, 1000).
Proof. vm_compute. repeat split. Qed.

Lemma first_sample_witness :
  (0 + debounce_ms <= 500
   /\ (Some btn1_hold_btn2_tap
       = Some (first_sample_tap (pressed1 Samples.staggered 0)
                                (pressed2 Samples.staggered 0))
       \/ Some btn1_hold_btn2_tap
          = Some (first_sample_combo (pressed1 Samples.staggered 0)
                                     (pressed2 Samples.staggered 0))))
  /\ get_input 1 Samples.glitch 0
     = Some (Some (first_sample_tap (pressed1 Samples.glitch 0)
                                    (pressed2 Samples.glitch 0)),
             0 + debounce_ms).
Proof.
  split.
  - apply (proj1 (first_sample_decides_the_branch Samples.staggered 0 eq_refl)
             200%nat).
    vm_compute. reflexivity.
  - apply (proj2 (first_sample_decides_the_branch Samples.glitch 0 eq_refl)
             0%nat).
    reflexivity.
Defined.

(** C3, as stated, fails: a glitch that is gone after the debounce wait
    is returned as a tap, and a second button that is down when the wait
    ends does not move the call to the both-button branch. *)
Lemma debounce_does_not_resample :
  (either_pressed Samples.glitch (0 + debounce_ms) = false
   /\ get_input 1 Samples.glitch 0 = Some (Some btn1_short, 50))
  /\ (pressed1 Samples.staggered (0 + debounce_ms) = true
      /\ pressed2 Samples.staggered (0 + debounce_ms) = true
      /\ get_input 200 Samples.staggered 0
         = Some (Some btn1_hold_btn2_tap, 500)).
Proof. vm_compute. repeat split. Qed.

Lemma gesture_after_release_witness :
  (0 <= 1000 /\ released_at_return Samples.handover 0 btn1_short 1000)
  /\ (0 <= 500
      /\ released_at_return Samples.staggered 0 btn1_hold_btn2_tap 500)
  /\ exists r t', get_input 2100 Samples.handover 0 = Some (r, t').
Proof.
  split; [|split].
  - apply (proj1 (gesture_returned_after_release_of_its_lines
                    Samples.handover 0) 200%nat).
    vm_compute. reflexivity.
  - apply (proj1 (gesture_returned_after_release_of_its_lines
                    Samples.staggered 0) 200%nat).
    vm_compute. reflexivity.
  - apply (proj2 (gesture_returned_after_release_of_its_lines
                    Samples.handover 0) 2000 2100%nat).
    + intros u Hu. unfold either_pressed, pressed1, pressed2. cbn.
      unfold Samples.pressed_during.
      rewrite (proj2 (Z.ltb_ge u 1000)), (proj2 (Z.ltb_ge u 2000)) by lia.
      now rewrite !andb_false_r.
    + vm_compute. lia.
Defined.

(** C4, as stated, fails: the tap of button 1 is returned while button 2
    is down, the next call returns the tap of button 2, and from the first
    sample to that second return there is no instant at which both lines
    are released. *)
Lemma second_gesture_without_full_release :
  get_input 200 Samples.handover 0 = Some (Some btn1_short, 1000)
  /\ pressed2 Samples.handover 1000 = true
  /\ get_input 200 Samples.handover 1050 = Some (Some btn2_short, 2000)
  /\ forall u, 0 <= u < 2000 -> either_pressed Samples.handover u = true.
Proof.
  split; [vm_compute; reflexivity|].
  split; [vm_compute; reflexivity|].
  split; [vm_compute; reflexivity|].
  intros u Hu. unfold either_pressed, pressed1, pressed2. cbn.
  destruct (Z.lt_ge_cases u 1000).
  - rewrite pressed_during_inside by lia. reflexivity.
  - rewrite (pressed_during_inside 900 2000) by lia. apply orb_true_r.
Qed.

End Traces.

(** ** The selection of the file browser and of the menu *)

Section Advance.

Import FileBrowser.

Lemma len_pos (b : FileBrowser.t) : items b <> [] -> 0 < len b.
Proof.
  unfold len. destruct (items b); [congruence | simpl; lia].
Qed.

Lemma next_item_items (b : FileBrowser.t) : items (next_item b) = items b.
Proof. unfold next_item. destruct (items b) eqn:E; [exact E | reflexivity]. Qed.

Lemma next_item_selected (b : FileBrowser.t) :
  items b <> [] ->
  selected_index (next_item b) = (selected_index b + 1) mod len b.
Proof.
  unfold next_item. destruct (items b); [congruence | reflexivity].
Qed.

Lemma next_item_visible (b : FileBrowser.t) :
  items b <> [] -> selection_visible (next_item b).
Proof.
  intros Hne. unfold selection_visible, next_item.
  destruct (items b) as [|i l]; [congruence|].
  cbn [selected_index scroll_offset].
  unfold Display.max_lines.
  destruct (Z.ltb_spec ((selected_index b + 1) mod len b) (scroll_offset b)).
  - lia.
  - destruct (Z.geb_spec ((selected_index b + 1) mod len b)
                (scroll_offset b + 6)); lia.
Qed.

Lemma iter_next_items (k : nat) (b : FileBrowser.t) :
  items (Nat.iter k next_item b) = items b.
Proof.
  induction k as [|k IH]; [reflexivity|].
  simpl. now rewrite next_item_items.
Qed.

Lemma iter_next_selected (k : nat) (b : FileBrowser.t) :
  items b <> [] ->
  0 <= selected_index b < len b ->
  selected_index (Nat.iter k next_item b)
  = (selected_index b + Z.of_nat k) mod len b.
Proof.
  intros Hne Hsel. induction k as [|k IH].
  - simpl. rewrite Z.add_0_r, Z.mod_small; auto.
  - cbn [Nat.iter nat_rect].
    change (nat_rect _ b (fun _ => next_item) k)
      with (Nat.iter k next_item b).
    rewrite next_item_selected by (rewrite iter_next_items; exact Hne).
    rewrite IH. unfold len at 2. rewrite iter_next_items. fold (len b).
    rewrite Z.add_mod_idemp_l by (pose proof (len_pos b Hne); lia).
    f_equal. lia.
Qed.


Lemma menu_presses_spec (k : nat) (m : MenuSystem.t) :
  MenuSystem.menu_items m <> [] ->
  0 <= MenuSystem.selected_index m
    < Z.of_nat (List.length (MenuSystem.menu_items m)) ->
  menu_presses k m
  = Some {| MenuSystem.menu_items := MenuSystem.menu_items m;
            MenuSystem.selected_index :=
              (MenuSystem.selected_index m + Z.of_nat k)
                mod Z.of_nat (List.length (MenuSystem.menu_items m)) |}.
Proof.
  intros Hne Hsel. induction k as [|k IH].
  - simpl. rewrite Z.add_0_r, Z.mod_small by assumption. now destruct m.
  - cbn [menu_presses]. rewrite IH. unfold MenuSystem.next_item.
    cbn [MenuSystem.menu_items MenuSystem.selected_index].
    destruct (MenuSystem.menu_items m) as [|x l] eqn:E; [congruence|].
    rewrite Z.add_mod_idemp_l by (simpl; lia).
    do 3 f_equal. lia.
Qed.

(** C5. Pressing "next" as many times as the list has items brings the
    selection of the file browser, and of the menu, back to where it was;
    after every press the browser's selection lies inside the six-line
    window that starts at its scroll offset, and the selection of the
    four-item menu lies inside the window [show] draws from offset 0. *)
Theorem next_item_cycles_and_keeps_selection_visible :
  (forall b : FileBrowser.t,
      items b <> [] ->
      0 <= selected_index b < len b ->
      selected_index (Nat.iter (List.length (items b)) next_item b)
      = selected_index b
      /\ forall k : nat, (1 <= k)%nat ->
           selection_visible (Nat.iter k next_item b))
  /\ (forall m : MenuSystem.t,
        MenuSystem.menu_items m <> [] ->
        0 <= MenuSystem.selected_index m
          < Z.of_nat (List.length (MenuSystem.menu_items m)) ->
        menu_presses (List.length (MenuSystem.menu_items m)) m = Some m)
  /\ (forall m m' : MenuSystem.t,
        MenuSystem.menu_items m = MenuSystem.menu_items MenuSystem.init ->
        MenuSystem.next_item m = Some m' ->
        MenuSystem.show_scroll_offset <= MenuSystem.selected_index m'
          < MenuSystem.show_scroll_offset + Display.max_lines).
Proof.
  split; [|split].
  - intros b Hne Hsel. split.
    + rewrite iter_next_selected by assumption.
      fold (len b). rewrite Z.add_mod by lia.
      rewrite Z.mod_same, Z.add_0_r, Z.mod_mod, Z.mod_small by lia.
      reflexivity.
    + intros [|k] Hk; [lia|]. simpl.
      apply next_item_visible. fold (Nat.iter k next_item b).
      now rewrite iter_next_items.
  - intros m Hne Hsel. rewrite menu_presses_spec by assumption.
    rewrite Z.add_mod by lia.
    rewrite Z.mod_same, Z.add_0_r, Z.mod_mod, Z.mod_small by lia.
    now destruct m.
  - intros m m' Hitems Hnext. unfold MenuSystem.next_item in Hnext.
    rewrite Hitems in Hnext. simpl in Hnext.
    injection Hnext as <-. cbn [MenuSystem.selected_index].
    unfold MenuSystem.show_scroll_offset, Display.max_lines.
    pose proof (Z.mod_pos_bound (MenuSystem.selected_index m + 1) 4).
    lia.
Qed.

Lemma next_item_cycles_witness :
  selected_index (Nat.iter 3 next_item Samples.three_files) = 1
  /\ selection_visible (Nat.iter 2 next_item Samples.three_files)
  /\ menu_presses 4 MenuSystem.init = Some MenuSystem.init
  /\ MenuSystem.show_scroll_offset
       <= MenuSystem.selected_index
            {| MenuSystem.menu_items := MenuSystem.menu_items MenuSystem.init;
               MenuSystem.selected_index := 1 |}
       < MenuSystem.show_scroll_offset + Display.max_lines.
Proof.
  destruct next_item_cycles_and_keeps_selection_visible as (Hb & Hm & Hv).
  assert (Hne : items Samples.three_files <> []) by discriminate.
  assert (Hsel : 0 <= selected_index Samples.three_files
                   < len Samples.three_files)
    by (vm_compute; intuition congruence).
  destruct (Hb Samples.three_files Hne Hsel) as (Hcyc & Hvis).
  split; [exact Hcyc|].
  split; [apply (Hvis 2%nat); lia|].
  split.
  - apply (Hm MenuSystem.init);
      [discriminate | vm_compute; intuition congruence].
  - exact (Hv MenuSystem.init _ eq_refl eq_refl).
Defined.

End Advance.

(** ** Entering the selected item *)

Section Enter.

Import FileBrowser.

(** C8. When the selected item is a file, [enter_selected] returns the
    path of that item and the browser is the one it was: path, items,
    selection and scroll offset. *)
Theorem enter_selected_file_returns_path_unchanged
        (listdir : string -> Listing) (b : FileBrowser.t) (it : Item) :
  get_selected_item b = Some it ->
  type it = file ->
  enter_selected listdir b = (Some (path it), b).
Proof.
  intros Hsel Hty. unfold enter_selected. now rewrite Hsel, Hty.
Qed.

Lemma enter_selected_file_witness :
  enter_selected Samples.card Samples.three_files
  = (Some "/b.py", Samples.three_files).
Proof.
  apply (enter_selected_file_returns_path_unchanged
           Samples.card Samples.three_files
           (Samples.file_item "b.py" "/b.py")); reflexivity.
Defined.

End Enter.

(** ** What [refresh_items] lists *)

Section Refresh.

Import FileBrowser.

Variable listdir : string -> Listing.

Lemma refresh_items_current_path (b : FileBrowser.t) :
  current_path (refresh_items listdir b) = current_path b.
Proof. reflexivity. Qed.

Lemma scan_entry_inv (cp entry : string) (it : Item) :
  In it (scan_entry listdir cp entry) ->
  entry <> "main.py"
  /\ name it = entry
  /\ path it = full_path cp entry
  /\ (type it = dir \/ type it = file).
Proof.
  unfold scan_entry. destruct (String.eqb_spec entry "main.py") as [|Hne].
  - intros [].
  - intros [<- | []]. cbn. repeat split; auto.
    destruct (is_dir listdir (full_path cp entry)); auto.
Qed.

Lemma scanned_inv (cp : string) (entries : list string) (it : Item) :
  In it (flat_map (scan_entry listdir cp) entries) ->
  name it <> "main.py"
  /\ path it = full_path cp (name it)
  /\ (type it = dir \/ type it = file).
Proof.
  intros Hin. apply in_flat_map in Hin as (entry & _ & Hin).
  apply scan_entry_inv in Hin as (Hne & Hname & Hpath & Hty).
  subst entry. auto.
Qed.

(** Every directory or file item carries the path of its entry. *)
Lemma refresh_items_entry_path (b : FileBrowser.t) (it : Item) :
  In it (items (refresh_items listdir b)) ->
  type it = dir \/ type it = file ->
  path it = full_path (current_path b) (name it).
Proof.
  unfold refresh_items. cbn [items].
  destruct (listdir (current_path b)) as [entries | msg].
  - destruct (negb (current_path b =? "/")%string).
    + intros [<- | Hin] Hty.
      * cbn in Hty. destruct Hty; discriminate.
      * now apply scanned_inv in Hin.
    + intros Hin _. now apply scanned_inv in Hin.
  - intros [<- | []] Hty. cbn in Hty. destruct Hty; discriminate.
Qed.

(** C6, as the code has it. When the listing succeeds, the items hold a
    parent entry exactly when the current path is not the root; when the
    listing fails they are the single error entry, so there is no parent
    entry whatever the path; in both cases no item is named [main.py]. *)
Theorem refresh_items_parent_and_launcher (b : FileBrowser.t) :
  (forall names, listdir (current_path b) = Entries names ->
     (has_parent_entry (items (refresh_items listdir b))
      <-> current_path b <> "/"))
  /\ (forall msg, listdir (current_path b) = OSError msg ->
        items (refresh_items listdir b)
        = [ {| name := "Error: " ++ msg; type := error; path := "" |} ])
  /\ (forall it, In it (items (refresh_items listdir b)) ->
        name it <> "main.py").
Proof.
  unfold refresh_items. cbn [items]. split; [|split].
  - intros names ->.
    destruct (String.eqb_spec (current_path b) "/") as [E|E]; cbn [negb].
    + split; [|congruence].
      intros (it & Hin & Hty). apply scanned_inv in Hin as (_ & _ & [H|H]);
        rewrite H in Hty; discriminate.
    + split; [auto|]. intros _. eexists.
      split; [left; reflexivity | reflexivity].
  - intros msg ->. reflexivity.
  - intros it. destruct (listdir (current_path b)) as [entries | msg].
    + destruct (negb (current_path b =? "/")%string).
      * intros [<- | Hin]; [discriminate | now apply scanned_inv in Hin].
      * intros Hin. now apply scanned_inv in Hin.
    + intros [<- | []]. discriminate.
Qed.

End Refresh.

Lemma refresh_items_parent_and_launcher_witness :
  has_parent_entry
    (FileBrowser.items
       (FileBrowser.refresh_items Samples.card Samples.in_tools))
  /\ FileBrowser.items
       (FileBrowser.refresh_items Samples.broken_card Samples.in_tools)
     = [ {| FileBrowser.name := "Error: [Errno 5] EIO";
            FileBrowser.type := FileBrowser.error;
            FileBrowser.path := "" |} ]
  /\ FileBrowser.name
       {| FileBrowser.name := "blink.py"; FileBrowser.type := FileBrowser.file;
          FileBrowser.path := "/tools/blink.py" |} <> "main.py".
Proof.
  split; [|split].
  - apply (proj1 (refresh_items_parent_and_launcher
                    Samples.card Samples.in_tools)
             ["blink.py"; "main.py"] eq_refl).
    discriminate.
  - apply (proj1 (proj2 (refresh_items_parent_and_launcher
                           Samples.broken_card Samples.in_tools))
             "[Errno 5] EIO" eq_refl).
  - apply (proj2 (proj2 (refresh_items_parent_and_launcher
                           Samples.card Samples.in_tools))).
    right. left. reflexivity.
Defined.

(** C6, as stated, fails: in [/tools] with a failing listing the items hold
    no parent entry although the path is not the root. *)
Lemma refresh_items_error_has_no_parent :
  FileBrowser.current_path
    (FileBrowser.refresh_items Samples.broken_card Samples.in_tools) <> "/"
  /\ ~ has_parent_entry
       (FileBrowser.items
          (FileBrowser.refresh_items Samples.broken_card Samples.in_tools)).
Proof.
  split; [discriminate|].
  intros (it & [<- | []] & Hty). discriminate.
Qed.

(** ** The file-browser mode *)

Section BrowserMode.

Import FileBrowser CraneFlyOS.

Lemma get_selected_item_In (b : FileBrowser.t) (it : Item) :
  get_selected_item b = Some it -> In it (items b).
Proof.
  unfold get_selected_item. destruct (items b) as [|x l]; [discriminate|].
  destruct (_ && _); [|discriminate].
  apply nth_error_In.
Qed.

(** C9. In file-browser mode at the root, with the listed directory
    [tools] selected, "select" moves the browser to [/tools] and refreshes
    it, staying in file-browser mode; a both-buttons tap then switches to
    the menu and leaves the browser, and every other field, as they were. *)
Theorem select_tools_then_both_tap_back_to_menu
        (w w' : World) (listed : string -> Listing)
        (o : CraneFlyOS.t) (it : Item) :
  mode o = cbin ->
  current_path (file_browser o) = "/" ->
  items (file_browser o) = items (refresh_items listed (file_browser o)) ->
  get_selected_item (file_browser o) = Some it ->
  name it = "tools" ->
  type it = dir ->
  exists o1 o2,
    handle_cbin_input w ButtonHandler.btn2_short o = Returns o1
    /\ mode o1 = cbin
    /\ file_browser o1
       = refresh_items (listdir w) (moved_to (file_browser o) "/tools")
    /\ current_path (file_browser o1) = "/tools"
    /\ handle_cbin_input w' ButtonHandler.both_short o1 = Returns o2
    /\ mode o2 = menu
    /\ file_browser o2 = file_browser o1
    /\ the_menu o2 = the_menu o1
    /\ proc o2 = proc o1
    /\ output_lines o2 = output_lines o1
    /\ scroll_offset o2 = scroll_offset o1.
Proof.
  intros Hmode Hroot Hlisted Hsel Hname Hty.
  assert (Hpath : path it = "/tools").
  { pose proof (get_selected_item_In _ _ Hsel) as Hin.
    rewrite Hlisted in Hin.
    apply refresh_items_entry_path in Hin; [|now left].
    rewrite Hin, Hroot, Hname. reflexivity. }
  eexists. eexists.
  split.
  { unfold handle_cbin_input, enter_selected.
    rewrite Hsel, Hty, Hpath. reflexivity. }
  cbn. rewrite Hmode. repeat split; reflexivity.
Qed.

Lemma select_tools_then_both_tap_witness :
  exists o1 o2,
    handle_cbin_input Samples.world ButtonHandler.btn2_short Samples.browsing
    = Returns o1
    /\ mode o1 = cbin
    /\ file_browser o1
       = refresh_items Samples.card
           (moved_to Samples.at_root_on_tools "/tools")
    /\ current_path (file_browser o1) = "/tools"
    /\ handle_cbin_input Samples.world ButtonHandler.both_short o1
       = Returns o2
    /\ mode o2 = menu
    /\ file_browser o2 = file_browser o1
    /\ the_menu o2 = the_menu o1
    /\ proc o2 = proc o1
    /\ output_lines o2 = output_lines o1
    /\ scroll_offset o2 = scroll_offset o1.
Proof.
  apply (select_tools_then_both_tap_back_to_menu
           Samples.world Samples.world Samples.card Samples.browsing
           {| name := "tools"; type := dir; path := "/tools" |});
    reflexivity.
Defined.

End BrowserMode.

(** ** The exit flag around [execute_file] *)

Section ExitFlag.

Import SubprocessManager.

Variable run : string -> Run.

(** The three handled endings leave the same state behind. *)
Lemma execute_file_cleanup (filepath : string) (s s' : Proc)
      (result : list string) :
  Py.endswith filepath ".py" = true ->
  execute_file run filepath s = (Returns result, s') ->
  s' = {| control := ProcessControl.init; running := false |}.
Proof.
  intros Hpy. unfold execute_file. rewrite Hpy. cbn [negb].
  destruct (ending (run filepath)); intros H; inversion H; reflexivity.
Qed.

(** C2, as the code has it. A call that passes the extension check and
    returns leaves the exit flag clear and [running] false, whatever the
    flag was on entry and whichever of the three results it returns; the
    extension rejection returns before the flag is touched and leaves the
    state as it found it. *)
Theorem execute_file_exit_flag (filepath : string) (s s' : Proc)
        (result : list string) :
  execute_file run filepath s = (Returns result, s') ->
  (Py.endswith filepath ".py" = true ->
     should_exit s' = false /\ running s' = false)
  /\ (Py.endswith filepath ".py" = false ->
        s' = s /\ result = ["Error:"; "Not a .py file"]).
Proof.
  intros Hex. split; intros Hpy.
  - rewrite (execute_file_cleanup _ _ _ _ Hpy Hex). split; reflexivity.
  - unfold execute_file in Hex. rewrite Hpy in Hex. cbn [negb] in Hex.
    inversion Hex. split; reflexivity.
Qed.

(** The shape of the error result: an [Exception] raised while the
    script runs is answered by the common cleanup and by three lines: the
    heading, the first 40 characters of the message and its next 40. *)
Lemma execute_file_error_result (filepath msg : string) (s : Proc) :
  Py.endswith filepath ".py" = true ->
  ending (run filepath) = RaisesException msg ->
  execute_file run filepath s
  = (Returns ["Exec Error:"; Py.slice 0 40 msg;
              if (40 <? String.length msg)%nat
              then Py.slice 40 80 msg else ""],
     {| control := ProcessControl.init; running := false |}).
Proof.
  intros Hpy Hend. unfold execute_file. rewrite Hpy, Hend. reflexivity.
Qed.

End ExitFlag.

Lemma execute_file_exit_flag_witness :
  (SubprocessManager.should_exit Samples.idle = false
   /\ SubprocessManager.running Samples.idle = false)
  /\ (Samples.stale = Samples.stale
      /\ ["Error:"; "Not a .py file"] = ["Error:"; "Not a .py file"]).
Proof.
  split.
  - apply (proj1 (execute_file_exit_flag Samples.script_cancelled
                    "/tools/blink.py" Samples.stale Samples.idle
                    ["Process exited"; "normally"] eq_refl)).
    reflexivity.
  - apply (proj2 (execute_file_exit_flag Samples.script_cancelled
                    "/notes.txt" Samples.stale Samples.stale
                    ["Error:"; "Not a .py file"] eq_refl)).
    reflexivity.
Defined.

(** C2, as stated, fails: a path without the [.py] extension is turned
    down with the exit flag still raised. *)
Lemma execute_file_rejection_keeps_stale_flag :
  exists result s',
    SubprocessManager.execute_file Samples.script_cancelled "/notes.txt"
      Samples.stale = (Returns result, s')
    /\ SubprocessManager.should_exit s' = true.
Proof. do 2 eexists. split; reflexivity. Qed.

(** C7 at a 24-character message: the second line of the result is the whole
    message, wider than the 16 characters of the display, and a 50-character
    message is cut at 40, so the panel shows characters 0-15 and 40-49. *)
Lemma execute_file_error_lines_wider_than_display :
  SubprocessManager.execute_file (Samples.script_fails Samples.name_error)
    "/blink.py" Samples.idle
  = (Returns ["Exec Error:"; "name 'led' isn't defined"; ""], Samples.idle)
  /\ (Z.of_nat (String.length "name 'led' isn't defined") > Display.max_chars)
  /\ Display.draw_lines
       ["Exec Error:";
        Py.slice 0 40 "0123456789abcdefghijklmnopqrstuvwxyzABCDEFGHIJKLMN";
        Py.slice 40 80 "0123456789abcdefghijklmnopqrstuvwxyzABCDEFGHIJKLMN"] 0
     = ["Exec Error:"; "0123456789abcdef"; "EFGHIJKLMN"].
Proof. repeat split. Qed.

(** ** Splitting and joining paths *)

Section Paths.

Lemma split_slash_free (w : string) :
  slash_free w = true -> Py.split "/"%char w = [w].
Proof.
  induction w as [|a w IH]; [reflexivity|].
  cbn [slash_free Py.split]. intros H. apply andb_prop in H as [Ha Hw].
  apply negb_true_iff in Ha. rewrite Ha, (IH Hw). reflexivity.
Qed.

Lemma split_app_sep (w rest : string) :
  slash_free w = true ->
  Py.split "/"%char (w ++ String "/"%char rest) = w :: Py.split "/"%char rest.
Proof.
  induction w as [|a w IH]; [reflexivity|].
  cbn [slash_free]. intros H. apply andb_prop in H as [Ha Hw].
  apply negb_true_iff in Ha. cbn [append Py.split].
  rewrite Ha, (IH Hw). reflexivity.
Qed.

Lemma split_join (parts : list string) :
  Forall (fun w => slash_free w = true) parts ->
  parts <> [] ->
  Py.split "/"%char (Py.join "/" parts) = parts.
Proof.
  unfold Py.join. induction 1 as [|x l Hx Hl IH]; [congruence|]. intros _.
  destruct l as [|y l].
  - cbn. now apply split_slash_free.
  - change (concat "/" (x :: y :: l))
      with (x ++ String "/"%char (concat "/" (y :: l))).
    rewrite split_app_sep by assumption.
    rewrite IH by discriminate. reflexivity.
Qed.

Lemma rstrip_segment (s : string) :
  segment s -> Py.rstrip "/"%char s = s.
Proof.
  intros [Hne Hfree]. induction s as [|a s IH]; [congruence|].
  cbn [slash_free] in Hfree. apply andb_prop in Hfree as [Ha Hs].
  apply negb_true_iff in Ha. cbn [Py.rstrip].
  destruct s as [|b s].
  - cbn. now rewrite Ha.
  - rewrite IH by (auto; discriminate). reflexivity.
Qed.

Lemma rstrip_app (s1 s2 : string) :
  s2 <> "" -> Py.rstrip "/"%char s2 = s2 ->
  Py.rstrip "/"%char (s1 ++ s2) = s1 ++ s2.
Proof.
  intros Hne Hfix. induction s1 as [|a s1 IH]; [exact Hfix|].
  cbn [append Py.rstrip]. rewrite IH.
  destruct (s1 ++ s2) eqn:E; [|reflexivity].
  destruct s1; [cbn in E; congruence | discriminate].
Qed.

Lemma join_segments (segs : list string) :
  Forall segment segs -> segs <> [] ->
  Py.join "/" segs <> ""
  /\ Py.rstrip "/"%char (Py.join "/" segs) = Py.join "/" segs.
Proof.
  unfold Py.join. induction 1 as [|x l Hx Hl IH]; [congruence|]. intros _.
  destruct l as [|y l].
  - cbn. split; [apply Hx | now apply rstrip_segment].
  - change (concat "/" (x :: y :: l))
      with (x ++ "/" ++ concat "/" (y :: l)).
    destruct IH as [IHne IHfix]; [discriminate|]. split.
    + destruct x; [destruct Hx; congruence | discriminate].
    + apply rstrip_app; [discriminate|].
      apply rstrip_app; assumption.
Qed.


Lemma abs_path_split (segs : list string) :
  Forall segment segs -> segs <> [] ->
  Py.split "/"%char (Py.rstrip "/"%char (abs_path segs)) = "" :: segs.
Proof.
  intros Hsegs Hne. unfold abs_path.
  destruct (join_segments segs Hsegs Hne) as [Hjne Hfix].
  rewrite rstrip_app by assumption.
  cbn [append Py.split Ascii.eqb Bool.eqb]. f_equal.
  apply split_join; [|assumption].
  eapply Forall_impl; [|exact Hsegs]. now intros w [_ Hw].
Qed.

Lemma abs_path_not_root (segs : list string) :
  Forall segment segs -> segs <> [] ->
  String.eqb (abs_path segs) "/" = false.
Proof.
  intros Hsegs Hne. destruct (join_segments segs Hsegs Hne) as [Hjne _].
  unfold abs_path. cbn [append String.eqb Ascii.eqb Bool.eqb].
  destruct (Py.join "/" segs); [congruence | reflexivity].
Qed.

Lemma get_parent_path_abs_path (segs : list string) :
  Forall segment segs ->
  FileBrowser._get_parent_path (abs_path segs) = abs_path (removelast segs).
Proof.
  intros Hsegs. unfold FileBrowser._get_parent_path.
  destruct segs as [|x l]; [reflexivity|].
  rewrite abs_path_not_root, abs_path_split by (auto; discriminate).
  cbn [List.length Nat.leb]. unfold Py.drop_last.
  change (removelast ("" :: x :: l)) with ("" :: removelast (x :: l)).
  unfold abs_path, Py.join.
  destruct (removelast (x :: l)); reflexivity.
Qed.

(** C10. For a path [/seg1/.../segN] of non-empty, slash-free segments
    [_get_parent_path] returns the path without its last segment, which is
    the root for one segment and for the root itself; the parent entry
    [refresh_items] puts first in a listed sub-directory carries that
    path, and no other item is a parent entry. *)
Theorem get_parent_path_drops_last_segment (segs : list string) :
  Forall segment segs ->
  FileBrowser._get_parent_path (abs_path segs) = abs_path (removelast segs)
  /\ (forall seg, segs = [seg] ->
        FileBrowser._get_parent_path (abs_path segs) = "/")
  /\ (forall listdir b names,
        segs <> [] ->
        FileBrowser.current_path b = abs_path segs ->
        listdir (abs_path segs) = FileBrowser.Entries names ->
        exists rest,
          FileBrowser.items (FileBrowser.refresh_items listdir b)
          = {| FileBrowser.name := "..";
               FileBrowser.type := FileBrowser.parent;
               FileBrowser.path := abs_path (removelast segs) |} :: rest
          /\ ~ has_parent_entry rest).
Proof.
  intros Hsegs. split; [|split].
  - now apply get_parent_path_abs_path.
  - intros seg ->. now rewrite get_parent_path_abs_path.
  - intros listdir b names Hne Hcp Hls.
    unfold FileBrowser.refresh_items. cbn [FileBrowser.items].
    rewrite Hcp, Hls, abs_path_not_root by assumption. cbn [negb].
    rewrite get_parent_path_abs_path by assumption.
    eexists. split; [reflexivity|].
    intros (it & Hin & Hty).
    apply scanned_inv in Hin as (_ & _ & [H|H]); rewrite H in Hty; discriminate.
Qed.

Lemma get_parent_path_witness :
  FileBrowser._get_parent_path (abs_path ["lib"; "tools"]) = abs_path ["lib"]
  /\ FileBrowser._get_parent_path (abs_path ["tools"]) = "/"
  /\ FileBrowser._get_parent_path (abs_path []) = abs_path []
  /\ exists rest,
       FileBrowser.items
         (FileBrowser.refresh_items Samples.card Samples.in_tools)
       = {| FileBrowser.name := "..";
            FileBrowser.type := FileBrowser.parent;
            FileBrowser.path := abs_path [] |} :: rest
       /\ ~ has_parent_entry rest.
Proof.
  assert (Htools : segment "tools") by (split; [discriminate | reflexivity]).
  assert (Hlib : segment "lib") by (split; [discriminate | reflexivity]).
  split; [|split; [|split]].
  - apply (proj1 (get_parent_path_drops_last_segment ["lib"; "tools"]
                    (Forall_cons _ Hlib
                       (Forall_cons _ Htools (Forall_nil _))))).
  - apply (proj1 (proj2 (get_parent_path_drops_last_segment ["tools"]
                    (Forall_cons _ Htools (Forall_nil _)))) "tools" eq_refl).
  - apply (proj1 (get_parent_path_drops_last_segment [] (Forall_nil _))).
  - apply (proj2 (proj2 (get_parent_path_drops_last_segment ["tools"]
                    (Forall_cons _ Htools (Forall_nil _))))
             Samples.card Samples.in_tools ["blink.py"; "main.py"]);
      [discriminate | reflexivity | reflexivity].
Defined.

End Paths.

(** ** The single-button branches, poll by poll *)

Section SingleButton.

Import ButtonHandler.

Variables held other : Z -> bool.

(** A wait loop leaves at the first poll that finds the line released. *)
Lemma wait_release_first (n fuel : nat) (t : Z) :
  (forall j, 0 <= j < Z.of_nat n -> held (t + 10 * j) = false) ->
  held (t + 10 * Z.of_nat n) = true ->
  (n < fuel)%nat ->
  wait_release fuel held t = Some (t + 10 * Z.of_nat n).
Proof.
  revert fuel t. induction n as [|n IH]; intros fuel t Hdown Hup Hfuel;
    (destruct fuel as [|f]; [lia|]); cbn [wait_release].
  - replace (t + 10 * Z.of_nat 0) with t in * by lia. now rewrite Hup.
  - assert (E : held t = false)
      by (rewrite <- (Hdown 0) by lia; f_equal; lia).
    rewrite E. cbn [negb]. unfold Time.sleep_ms.
    replace (t + 10 * Z.of_nat (S n)) with (t + 10 + 10 * Z.of_nat n) in *
      by lia.
    apply IH; [|assumption|lia].
    intros j Hj. replace (t + 10 + 10 * j) with (t + 10 * (j + 1)) by lia.
    apply Hdown. lia.
Qed.

(** The hold loop is left at the first poll, up to the threshold, that
    finds the held line released. *)
Lemma hold_loop_released_first (n fuel : nat) (t0 k : Z) :
  0 <= k -> k + Z.of_nat n <= 81 ->
  (forall j, k <= j < k + Z.of_nat n ->
     held (t0 + 10 * j) = false /\ other (t0 + 10 * j) = true) ->
  held (t0 + 10 * (k + Z.of_nat n)) = true ->
  (n < fuel)%nat ->
  hold_loop fuel held other (Time.ticks_ms t0) (t0 + 10 * k)
  = Some (LoopLeft (t0 + 10 * (k + Z.of_nat n))).
Proof.
  revert fuel k. induction n as [|n IH]; intros fuel k Hk Hn Hdown Hup Hfuel;
    (destruct fuel as [|f]; [lia|]); cbn [hold_loop].
  - replace (k + Z.of_nat 0) with k in * by lia. now rewrite Hup.
  - destruct (Hdown k) as [-> ->]; [lia|]. cbn [negb].
    rewrite timed_out_elapsed by lia. unfold long_press_ms.
    destruct (Z.gtb_spec (10 * k) 800) as [Hgt | Hle]; [lia|].
    next_poll t0 k.
    replace (k + Z.of_nat (S n)) with (k + 1 + Z.of_nat n) in * by lia.
    apply IH; try lia; [|assumption].
    intros j Hj. apply Hdown. lia.
Qed.

(** With the held line down and the other line up at every poll up to
    the threshold, the hold loop is left by its [break], 810 ms in. *)
Lemma hold_loop_timeout (d fuel : nat) (t0 k : Z) :
  k = 81 - Z.of_nat d -> 0 <= k ->
  (forall j, k <= j <= 81 ->
     held (t0 + 10 * j) = false /\ other (t0 + 10 * j) = true) ->
  (d < fuel)%nat ->
  hold_loop fuel held other (Time.ticks_ms t0) (t0 + 10 * k)
  = Some (LoopLeft (t0 + 810)).
Proof.
  revert fuel k. induction d as [|d IH]; intros fuel k Hd Hk Hdown Hfuel;
    (destruct fuel as [|f]; [lia|]); cbn [hold_loop];
    (destruct (Hdown k) as [-> ->]; [lia|]); cbn [negb];
    rewrite timed_out_elapsed by lia; unfold long_press_ms;
    destruct (Z.gtb_spec (10 * k) 800) as [Hgt | Hle]; try lia.
  - do 2 f_equal. lia.
  - next_poll t0 k. apply IH; try lia. intros j Hj. apply Hdown. lia.
Qed.

(** The other line found down at a poll up to the threshold makes the
    combination: the loop waits for that line, then for the held one. *)
Lemma hold_loop_combo (n fuel : nat) (t0 k u1 u2 : Z) :
  0 <= k -> k + Z.of_nat n <= 81 ->
  (forall j, k <= j < k + Z.of_nat n ->
     held (t0 + 10 * j) = false /\ other (t0 + 10 * j) = true) ->
  held (t0 + 10 * (k + Z.of_nat n)) = false ->
  other (t0 + 10 * (k + Z.of_nat n)) = false ->
  wait_release (fuel - S n) other
    (t0 + 10 * (k + Z.of_nat n) + debounce_ms) = Some u1 ->
  wait_release (fuel - S n) held u1 = Some u2 ->
  (n < fuel)%nat ->
  hold_loop fuel held other (Time.ticks_ms t0) (t0 + 10 * k)
  = Some (Combo u2).
Proof.
  revert fuel k. induction n as [|n IH];
    intros fuel k Hk Hn Hdown Hheld Hother W1 W2 Hfuel;
    (destruct fuel as [|f]; [lia|]); cbn [hold_loop].
  - replace (k + Z.of_nat 0) with k in * by lia.
    rewrite Hheld, Hother. cbn [negb]. unfold Time.sleep_ms.
    replace (S f - 1)%nat with f in * by lia.
    now rewrite W1, W2.
  - destruct (Hdown k) as [-> ->]; [lia|]. cbn [negb].
    rewrite timed_out_elapsed by lia. unfold long_press_ms.
    destruct (Z.gtb_spec (10 * k) 800) as [Hgt | Hle]; [lia|].
    next_poll t0 k.
    replace (k + Z.of_nat (S n)) with (k + 1 + Z.of_nat n) in * by lia.
    apply IH; try lia; try assumption.
    intros j Hj. apply Hdown. lia.
Qed.

End SingleButton.

Section SingleButtonGestures.

Import ButtonHandler.

Variable p : Pins.

Lemma get_input_single (b : Button) (fuel : nat) (t : Z) :
  value_of p b t = false ->
  value_of p (partner b) t = true ->
  get_input fuel p t
  = (r <- single_branch fuel (value_of p b) (value_of p (partner b))
            (combo_of b) (tap_of b) (t + debounce_ms) ;;
     Some (Some (fst r), snd r)).
Proof.
  intros Hb Ho. destruct b; cbn [value_of partner combo_of tap_of] in *.
  - apply get_input_btn1; unfold pressed1, pressed2; now rewrite ?Hb, ?Ho.
  - apply get_input_btn2; unfold pressed1, pressed2; now rewrite ?Hb, ?Ho.
Qed.

(** X1. [get_input] returns [None] exactly when the first sample finds
    both lines released, and then at once: no debounce wait, no poll. *)
Theorem get_input_none_iff_nothing_pressed (fuel : nat) (t t' : Z) :
  get_input fuel p t = Some (None, t')
  <-> (pressed1 p t = false /\ pressed2 p t = false /\ t' = t).
Proof.
  split.
  - intros H. apply get_input_inv in H.
    destruct H as [H1 H2 _ Ht | a _ _ Hr _ | a _ _ Hr _ | a _ _ Hr _];
      try discriminate. auto.
  - intros (H1 & H2 & ->). now apply get_input_idle.
Qed.

(** X2. With one button down at the first sample, the call returns that
    button's plain tap at the first poll that finds it released, provided
    no poll before that one, among those up to the hold threshold, found
    the partner down.  What the partner does after the threshold is not
    looked at. *)
Theorem plain_tap_at_first_release (b : Button) (t m : Z) (fuel : nat) :
  value_of p b t = false ->
  value_of p (partner b) t = true ->
  0 <= m ->
  (forall j, 0 <= j < m -> value_of p b (poll t j) = false) ->
  (forall j, 0 <= j < m -> j <= 81 ->
     value_of p (partner b) (poll t j) = true) ->
  value_of p b (poll t m) = true ->
  (Z.to_nat m < fuel)%nat ->
  get_input fuel p t = Some (Some (tap_of b), poll t m).
Proof.
  intros Hb Ho Hm Hdown Hup Hrel Hfuel. unfold poll in *.
  rewrite (get_input_single b) by assumption. unfold single_branch.
  set (t0 := t + debounce_ms) in *.
  destruct (Z.le_gt_cases m 81) as [Hle | Hgt].
  - pose proof (hold_loop_released_first (value_of p b)
                  (value_of p (partner b)) (Z.to_nat m) fuel t0 0) as L.
    rewrite Z2Nat.id, Z.mul_0_r, Z.add_0_r, Z.add_0_l in L by lia.
    rewrite L; try lia; try assumption.
    + destruct fuel as [|f]; [lia|]. cbn [wait_release].
      rewrite Hrel. reflexivity.
    + intros j Hj. split; [apply Hdown | apply Hup]; lia.
  - pose proof (hold_loop_timeout (value_of p b) (value_of p (partner b))
                  81 fuel t0 0) as L.
    rewrite Z.mul_0_r, Z.add_0_r in L.
    rewrite L; try lia.
    + rewrite (wait_release_first (value_of p b) (Z.to_nat (m - 81)) fuel).
      * cbn [fst snd]. do 2 f_equal. lia.
      * intros j Hj.
        replace (t0 + 810 + 10 * j) with (t0 + 10 * (81 + j)) by lia.
        apply Hdown. lia.
      * replace (t0 + 810 + 10 * Z.of_nat (Z.to_nat (m - 81)))
          with (t0 + 10 * m) by lia.
        exact Hrel.
      * lia.
    + intros j Hj. split; [apply Hdown | apply Hup]; lia.
Qed.

(** X3. With one button down at the first sample, the partner found down
    at a poll up to the hold threshold makes the hold-and-tap: after a
    second debounce wait the call polls until the partner is released,
    then until the held button is released, and returns the combination
    at that poll. *)
Theorem hold_and_tap_returns_combination
        (b : Button) (t k n1 n2 : Z) (fuel : nat) :
  value_of p b t = false ->
  value_of p (partner b) t = true ->
  0 <= k <= 81 -> 0 <= n1 -> 0 <= n2 ->
  (forall j, 0 <= j < k ->
     value_of p b (poll t j) = false
     /\ value_of p (partner b) (poll t j) = true) ->
  value_of p b (poll t k) = false ->
  value_of p (partner b) (poll t k) = false ->
  (forall j, 0 <= j < n1 ->
     value_of p (partner b) (poll t k + debounce_ms + 10 * j) = false) ->
  value_of p (partner b) (poll t k + debounce_ms + 10 * n1) = true ->
  (forall j, 0 <= j < n2 ->
     value_of p b (poll t k + debounce_ms + 10 * n1 + 10 * j) = false) ->
  value_of p b (poll t k + debounce_ms + 10 * n1 + 10 * n2) = true ->
  (Z.to_nat k + Z.to_nat n1 + Z.to_nat n2 + 1 < fuel)%nat ->
  get_input fuel p t
  = Some (Some (combo_of b), poll t k + debounce_ms + 10 * n1 + 10 * n2).
Proof.
  intros Hb Ho Hk Hn1 Hn2 Hbefore Hheld Hother Htap Htapped Hhold Hlet Hfuel.
  unfold poll in *.
  rewrite (get_input_single b) by assumption. unfold single_branch.
  set (t0 := t + debounce_ms) in *.
  pose proof (hold_loop_combo (value_of p b) (value_of p (partner b))
                (Z.to_nat k) fuel t0 0
                (t0 + 10 * k + debounce_ms + 10 * n1)
                (t0 + 10 * k + debounce_ms + 10 * n1 + 10 * n2)) as L.
  rewrite Z2Nat.id, Z.mul_0_r, Z.add_0_r, Z.add_0_l in L by lia.
  rewrite L; try lia; try assumption; [reflexivity| | ].
  - rewrite (wait_release_first (value_of p (partner b)) (Z.to_nat n1)).
    + f_equal. lia.
    + intros j Hj. apply Htap. lia.
    + rewrite Z2Nat.id by lia. exact Htapped.
    + lia.
  - rewrite (wait_release_first (value_of p b) (Z.to_nat n2)).
    + f_equal. lia.
    + intros j Hj. apply Hhold. lia.
    + rewrite Z2Nat.id by lia. exact Hlet.
    + lia.
Qed.

End SingleButtonGestures.

Section SingleButtonTraces.

Import ButtonHandler.

Lemma pressed_during_after (a b u : Z) :
  b <= u -> Samples.pressed_during a b u = true.
Proof.
  intros Hu. unfold Samples.pressed_during.
  rewrite (proj2 (Z.ltb_ge u b)) by lia. now rewrite andb_false_r.
Qed.

Lemma pressed_during_before (a b u : Z) :
  u < a -> Samples.pressed_during a b u = true.
Proof.
  intros Hu. unfold Samples.pressed_during.
  rewrite (proj2 (Z.leb_gt a u)) by lia. reflexivity.
Qed.

Lemma get_input_none_witness :
  get_input 0 Samples.handover 2000 = Some (None, 2000).
Proof.
  apply (proj2 (get_input_none_iff_nothing_pressed
                  Samples.handover 0%nat 2000 2000)).
  repeat split.
Defined.

Lemma plain_tap_witness :
  get_input 100 Samples.handover 0 = Some (Some btn1_short, poll 0 95).
Proof.
  apply (plain_tap_at_first_release Samples.handover Btn1 0 95 100%nat);
    try reflexivity; try lia.
  - intros j Hj. unfold poll, debounce_ms.
    cbn [value_of partner btn1_value btn2_value
         Samples.handover Samples.staggered].
    apply pressed_during_inside. lia.
  - intros j Hj Hj'. unfold poll, debounce_ms.
    cbn [value_of partner btn1_value btn2_value
         Samples.handover Samples.staggered].
    apply pressed_during_before. lia.
Defined.

Lemma hold_and_tap_witness :
  get_input 100 Samples.staggered 0
  = Some (Some btn1_hold_btn2_tap,
          poll 0 0 + debounce_ms + 10 * 20 + 10 * 20).
Proof.
  apply (hold_and_tap_returns_combination
           Samples.staggered Btn1 0 0 20 20 100%nat);
    try reflexivity; try lia.
  - intros j Hj. unfold poll, debounce_ms.
    cbn [value_of partner btn1_value btn2_value
         Samples.handover Samples.staggered].
    apply pressed_during_inside. lia.
  - intros j Hj. unfold poll, debounce_ms.
    cbn [value_of partner btn1_value btn2_value
         Samples.handover Samples.staggered].
    apply pressed_during_inside. lia.
Defined.

End SingleButtonTraces.

(** ** The exit monitor *)

Section Monitor.

Import ButtonHandler SubprocessManager.

Variable p : Pins.
Variable running_at : Z -> bool.

Lemma get_input_later (fuel : nat) (t : Z) (r : option Action) (t' : Z) :
  get_input fuel p t = Some (r, t') -> t <= t'.
Proof.
  intros H. apply get_input_inv in H.
  destruct H as [_ _ _ -> | a _ _ _ L | a _ _ _ L | a _ _ _ L];
    [lia | apply both_loop_sound in L
         | apply single_branch_sound in L
         | apply single_branch_sound in L];
    unfold debounce_ms in L; lia.
Qed.

(** X4. The monitor asks the script to exit only after a call of the
    decoder whose first sample, taken while [running] read true, found
    both buttons down, and it does so once both are released; it resets
    the machine only after such a call in which a button stayed down at
    every poll past the hold threshold; it gives up without doing either
    only when it reads [running] false.  Gestures of a single button are
    consumed and change nothing. *)
Theorem monitor_acts_only_on_both_button_gestures
        (rounds fuel : nat) (t : Z) (e : MonitorExit) :
  monitor_exit_buttons rounds fuel p running_at t = Some e ->
  match e with
  | ExitRequested t' =>
      exists t0, t <= t0 <= t' /\ running_at t0 = true
                 /\ pressed1 p t0 = true /\ pressed2 p t0 = true
                 /\ either_pressed p t' = false
  | MachineReset t' =>
      exists t0, t <= t0 <= t' /\ running_at t0 = true
                 /\ pressed1 p t0 = true /\ pressed2 p t0 = true
                 /\ (forall k, 0 <= k <= 81 ->
                       either_pressed p (poll t0 k) = true)
                 /\ either_pressed p t' = false
  | NotRunning t' => t <= t' /\ running_at t' = false
  end.
Proof.
  revert t. induction rounds as [|r IH]; intros t; [discriminate|].
  cbn [monitor_exit_buttons]. destruct (running_at t) eqn:Erun.
  - destruct (get_input fuel p t) as [[g t1]|] eqn:G; [|discriminate].
    pose proof (get_input_later _ _ _ _ G) as Hlater.
    assert (Hnext :
      monitor_exit_buttons r fuel p running_at (Time.sleep_ms 50 t1) = Some e ->
      match e with
      | ExitRequested t' =>
          exists t0, t <= t0 <= t' /\ running_at t0 = true
                     /\ pressed1 p t0 = true /\ pressed2 p t0 = true
                     /\ either_pressed p t' = false
      | MachineReset t' =>
          exists t0, t <= t0 <= t' /\ running_at t0 = true
                     /\ pressed1 p t0 = true /\ pressed2 p t0 = true
                     /\ (forall k, 0 <= k <= 81 ->
                           either_pressed p (poll t0 k) = true)
                     /\ either_pressed p t' = false
      | NotRunning t' => t <= t' /\ running_at t' = false
      end).
    { intros H. apply IH in H. unfold Time.sleep_ms in H.
      destruct e as [t' | t' | t'].
      - destruct H as (t0 & Ht0 & H). exists t0. split; [lia | exact H].
      - destruct H as (t0 & Ht0 & H). exists t0. split; [lia | exact H].
      - split; [lia | tauto]. }
    destruct g as [[| | | | |]|]; try exact Hnext; intros H; returned H;
      apply get_input_inv in G;
      destruct G as [? ? Hr ? | a H1 H2 Hr L | a ? ? Hr L | a ? ? Hr L];
      try discriminate; injection Hr as <-;
      try (apply single_branch_sound in L as (_ & _ & [L | [L _]]);
           discriminate).
    + exists t. apply both_loop_sound in L as (_ & Hrel & _).
      repeat split; try assumption; lia.
    + exists t. pose proof L as L'.
      apply both_loop_sound in L as (_ & Hrel & _).
      repeat split; try assumption; try lia.
      intros k Hk. unfold poll.
      eapply (both_loop_long_sound p fuel (t + debounce_ms) 0 t1);
        [lia | | lia].
      now rewrite Z.mul_0_r, Z.add_0_r.
  - intros H. returned H. split; [lia | assumption].
Qed.

End Monitor.

Lemma monitor_witness :
  exists t0, 0 <= t0 <= 80 /\ (fun _ : Z => true) t0 = true
             /\ ButtonHandler.pressed1 Samples.quick_both t0 = true
             /\ ButtonHandler.pressed2 Samples.quick_both t0 = true
             /\ ButtonHandler.either_pressed Samples.quick_both 80 = false.
Proof.
  apply (monitor_acts_only_on_both_button_gestures
           Samples.quick_both (fun _ => true) 1%nat 10%nat 0
           (SubprocessManager.ExitRequested 80)).
  reflexivity.
Defined.

(** ** The state the file browser keeps *)

Section BrowserState.

Import FileBrowser.

Variable listdir : string -> Listing.

Lemma refresh_items_well_formed (b : FileBrowser.t) :
  well_formed (refresh_items listdir b).
Proof.
  unfold well_formed, max_scroll, len, refresh_items.
  cbn [selected_index scroll_offset items].
  repeat split; try lia.
  intros Hne.
  destruct (listdir (current_path b)) as [names | msg];
    [destruct (negb _)|];
    match goal with
    | |- context [List.length ?l] => destruct l; [congruence | cbn; lia]
    end.
Qed.

Lemma next_item_well_formed (b : FileBrowser.t) :
  well_formed b -> well_formed (next_item b).
Proof.
  unfold well_formed, max_scroll, len. intros (Hsel & Hlt & Hoff).
  rewrite !next_item_items.
  unfold next_item. destruct (items b) as [|i l] eqn:E; [auto|].
  cbn [selected_index scroll_offset]. unfold len. rewrite E in *.
  set (n := Z.of_nat (List.length (i :: l))) in *.
  assert (Hn : 0 < n) by (unfold n; cbn [List.length]; lia).
  pose proof (Z.mod_pos_bound (selected_index b + 1) n Hn) as Hmod.
  unfold Display.max_lines in *.
  split; [lia|]. split; [lia|].
  destruct (Z.ltb_spec ((selected_index b + 1) mod n) (scroll_offset b));
    [lia|].
  destruct (Z.geb_spec ((selected_index b + 1) mod n) (scroll_offset b + 6));
    lia.
Qed.

Lemma scroll_down_well_formed (b : FileBrowser.t) :
  well_formed b -> well_formed (scroll_down b).
Proof.
  unfold well_formed, max_scroll, scroll_down, len.
  cbn [selected_index scroll_offset items]. intros (Hsel & Hlt & Hoff).
  repeat split; try assumption; lia.
Qed.

Lemma scroll_up_well_formed (b : FileBrowser.t) :
  well_formed b -> well_formed (scroll_up b).
Proof.
  unfold well_formed, max_scroll, scroll_up, len.
  cbn [selected_index scroll_offset items]. intros (Hsel & Hlt & Hoff).
  repeat split; try assumption; lia.
Qed.

Lemma enter_selected_well_formed (b : FileBrowser.t) :
  well_formed b -> well_formed (snd (enter_selected listdir b)).
Proof.
  intros Hwf. unfold enter_selected.
  destruct (get_selected_item b) as [it|]; [|exact Hwf].
  destruct (type it); cbn [snd];
    try exact Hwf; apply refresh_items_well_formed.
Qed.

Lemma well_formed_selected (b : FileBrowser.t) :
  well_formed b -> items b <> [] ->
  exists it, get_selected_item b = Some it
             /\ nth_error (items b) (Z.to_nat (selected_index b)) = Some it.
Proof.
  intros (Hsel & Hlt & _) Hne. specialize (Hlt Hne).
  unfold get_selected_item. destruct (items b) as [|i l] eqn:E; [congruence|].
  rewrite <- E in *.
  rewrite (proj2 (Z.leb_le 0 _) Hsel), (proj2 (Z.ltb_lt _ _) Hlt). cbn [andb].
  destruct (nth_error (items b) (Z.to_nat (selected_index b))) as [it|] eqn:N;
    [eauto|].
  apply nth_error_None in N. unfold len in Hlt. lia.
Qed.

(** X5. The browser [__init__] builds is well formed: the selection is
    not negative and points at an item when there is one, and the scroll
    offset lies between 0 and the last full window.  [refresh_items]
    always returns such a browser, and [next_item], [scroll_down],
    [scroll_up] and [enter_selected] keep it so; on such a browser with
    items [get_selected_item] finds the selected item. *)
Theorem browser_stays_well_formed :
  well_formed (init listdir)
  /\ (forall b, well_formed (refresh_items listdir b))
  /\ (forall b, well_formed b ->
        well_formed (next_item b)
        /\ well_formed (scroll_down b)
        /\ well_formed (scroll_up b)
        /\ well_formed (snd (enter_selected listdir b))
        /\ (items b <> [] -> exists it, get_selected_item b = Some it)).
Proof.
  split; [apply refresh_items_well_formed|].
  split; [apply refresh_items_well_formed|].
  intros b Hwf.
  split; [now apply next_item_well_formed|].
  split; [now apply scroll_down_well_formed|].
  split; [now apply scroll_up_well_formed|].
  split; [now apply enter_selected_well_formed|].
  intros Hne. destruct (well_formed_selected b Hwf Hne) as (it & H & _).
  eauto.
Qed.

End BrowserState.

(** ** The order of the listing *)

Section NameOrder.

Lemma ascii_compare_lt_trans (a b c : ascii) :
  Ascii.compare a b = Lt -> Ascii.compare b c = Lt -> Ascii.compare a c = Lt.
Proof.
  unfold Ascii.compare. rewrite !N.compare_lt_iff. apply N.lt_trans.
Qed.

Lemma string_compare_le_trans (a b c : string) :
  String.compare a b <> Gt -> String.compare b c <> Gt ->
  String.compare a c <> Gt.
Proof.
  revert b c. induction a as [|x a IH]; intros [|y b] [|z c];
    cbn [String.compare]; try congruence.
  destruct (Ascii.compare x y) eqn:Exy; [| |congruence].
  - apply Ascii.compare_eq_iff in Exy. subst y.
    destruct (Ascii.compare x z); [apply IH | congruence | congruence].
  - intros _. destruct (Ascii.compare y z) eqn:Eyz; [| |congruence].
    + apply Ascii.compare_eq_iff in Eyz. subst z. rewrite Exy. congruence.
    + rewrite (ascii_compare_lt_trans x y z Exy Eyz). congruence.
Qed.

Lemma name_le_trans (a b c : string) :
  name_le a b -> name_le b c -> name_le a c.
Proof.
  unfold name_le, String.leb. intros Hab Hbc.
  pose proof (string_compare_le_trans a b c) as H.
  destruct (String.compare a b), (String.compare b c),
    (String.compare a c); try discriminate; try reflexivity;
    exfalso; apply H; congruence.
Qed.

Lemma insert_sorted (x : string) (l : list string) :
  Sorted name_le l -> Sorted name_le (Py.insert x l).
Proof.
  induction 1 as [|y l Hl IH Hhd]; cbn [Py.insert]; [repeat constructor|].
  destruct (String.leb x y) eqn:E.
  - repeat constructor; assumption.
  - constructor; [exact IH|].
    assert (Hyx : name_le y x)
      by (destruct (String.leb_total x y); [congruence | assumption]).
    destruct l as [|z l]; cbn [Py.insert]; [now constructor|].
    destruct (String.leb x z); constructor; [assumption|].
    now inversion Hhd.
Qed.

Lemma sorted_is_sorted (l : list string) : Sorted name_le (Py.sorted l).
Proof.
  induction l as [|x l IH]; [constructor|]. now apply insert_sorted.
Qed.

Lemma insert_permutation (x : string) (l : list string) :
  Permutation (Py.insert x l) (x :: l).
Proof.
  induction l as [|y l IH]; cbn [Py.insert]; [reflexivity|].
  destruct (String.leb x y); [reflexivity|].
  rewrite IH. apply perm_swap.
Qed.

Lemma sorted_permutation (l : list string) : Permutation (Py.sorted l) l.
Proof.
  induction l as [|x l IH]; [reflexivity|].
  cbn [Py.sorted fold_right]. fold (Py.sorted l).
  rewrite insert_permutation. now constructor.
Qed.

Lemma filter_permutation {A} (f : A -> bool) (l l' : list A) :
  Permutation l l' -> Permutation (filter f l) (filter f l').
Proof.
  induction 1 as [| x l l' _ IH | x y l | l l' l'' _ IH1 _ IH2];
    cbn [filter].
  - reflexivity.
  - destruct (f x); [now constructor | assumption].
  - destruct (f x), (f y); try reflexivity. apply perm_swap.
  - now transitivity (filter f l').
Qed.

Lemma filter_sorted (f : string -> bool) (l : list string) :
  Sorted name_le l -> Sorted name_le (filter f l).
Proof.
  intros H. apply Sorted_StronglySorted in H;
    [|intros a b c; apply name_le_trans].
  apply StronglySorted_Sorted.
  induction H as [|x l Hl IH Hall]; cbn [filter]; [constructor|].
  destruct (f x); [|exact IH].
  constructor; [exact IH|].
  rewrite Forall_forall in *. intros y Hy. apply Hall.
  now apply filter_In in Hy.
Qed.

End NameOrder.

(** ** What the listing holds, and in which order *)

Section Listing.

Import FileBrowser.

Variable listdir : string -> Listing.

Lemma scanned_names (cp : string) (entries : list string) :
  map name (flat_map (scan_entry listdir cp) entries)
  = filter not_launcher entries.
Proof.
  induction entries as [|e l IH]; [reflexivity|].
  cbn [flat_map filter]. rewrite map_app, IH.
  unfold scan_entry, not_launcher.
  destruct (String.eqb e "main.py"); reflexivity.
Qed.

Lemma scanned_are_entry_items (cp : string) (entries : list string) :
  entry_items (flat_map (scan_entry listdir cp) entries)
  = flat_map (scan_entry listdir cp) entries.
Proof.
  unfold entry_items. induction entries as [|e l IH]; [reflexivity|].
  cbn [flat_map]. rewrite filter_app, IH. f_equal.
  unfold scan_entry. destruct (String.eqb e "main.py"); [reflexivity|].
  cbn. destruct (is_dir listdir (full_path cp e)); reflexivity.
Qed.

Lemma refresh_items_entry_items (b : FileBrowser.t) (names : list string) :
  listdir (current_path b) = Entries names ->
  entry_items (items (refresh_items listdir b))
  = flat_map (scan_entry listdir (current_path b)) (Py.sorted names).
Proof.
  intros Hls. unfold refresh_items. cbn [items]. rewrite Hls.
  destruct (negb (current_path b =? "/")%string).
  - unfold entry_items. cbn [filter type ItemType_eqb negb].
    apply scanned_are_entry_items.
  - apply scanned_are_entry_items.
Qed.

(** X6. When the listing succeeds, the items other than the parent entry
    are the directory entries other than [main.py], each as often as the
    listing names it, in ascending order of name; each carries the path
    of its entry under the current path and is a directory exactly when
    listing that path succeeds. *)
Theorem refresh_items_lists_entries_in_order
        (b : FileBrowser.t) (names : list string) :
  listdir (current_path b) = Entries names ->
  let shown := entry_items (items (refresh_items listdir b)) in
  map name shown = filter not_launcher (Py.sorted names)
  /\ Sorted name_le (map name shown)
  /\ Permutation (map name shown) (filter not_launcher names)
  /\ (forall it, In it shown ->
        path it = full_path (current_path b) (name it)
        /\ type it = if is_dir listdir (path it) then dir else file).
Proof.
  intros Hls shown. unfold shown.
  rewrite (refresh_items_entry_items b names Hls), scanned_names.
  split; [reflexivity|].
  split; [apply filter_sorted, sorted_is_sorted|].
  split; [apply filter_permutation, sorted_permutation|].
  intros it Hin. apply in_flat_map in Hin as (e & _ & Hin).
  unfold scan_entry in Hin. destruct (String.eqb e "main.py"); [destruct Hin|].
  destruct Hin as [<- | []]. cbn. auto.
Qed.

End Listing.

Lemma refresh_items_lists_witness :
  map FileBrowser.name
    (entry_items
       (FileBrowser.items
          (FileBrowser.refresh_items Samples.card Samples.in_tools)))
  = filter not_launcher (Py.sorted ["blink.py"; "main.py"]).
Proof.
  apply (refresh_items_lists_entries_in_order
           Samples.card Samples.in_tools ["blink.py"; "main.py"] eq_refl).
Defined.

(** ** Moving between directories *)

Section Navigation.

Import FileBrowser.

Lemma append_assoc (a b c : string) : (a ++ b) ++ c = a ++ (b ++ c).
Proof. induction a as [|x a IH]; cbn; [reflexivity | now rewrite IH]. Qed.

Lemma join_snoc (segs : list string) (d : string) :
  segs <> [] ->
  Py.join "/" (segs ++ [d]) = Py.join "/" segs ++ "/" ++ d.
Proof.
  unfold Py.join. induction segs as [|x l IH]; [congruence|]. intros _.
  destruct l as [|y l]; [reflexivity|].
  change (String.concat "/" ((x :: y :: l) ++ [d]))
    with (x ++ "/" ++ String.concat "/" ((y :: l) ++ [d])).
  rewrite IH by discriminate.
  change (String.concat "/" (x :: y :: l))
    with (x ++ "/" ++ String.concat "/" (y :: l)).
  rewrite !append_assoc. reflexivity.
Qed.

Lemma full_path_abs_path (segs : list string) (d : string) :
  Forall segment segs ->
  full_path (abs_path segs) d = abs_path (segs ++ [d]).
Proof.
  intros Hsegs. unfold full_path. destruct segs as [|x l]; [reflexivity|].
  rewrite abs_path_not_root by (auto; discriminate).
  unfold abs_path. rewrite join_snoc by discriminate.
  now rewrite append_assoc.
Qed.

Variable listdir : string -> Listing.

(** X7. Entering a listed directory and then the [..] entry leads back:
    from [/seg1/.../segN] with the directory entry [d] selected,
    [enter_selected] moves to [/seg1/.../segN/d] with the selection on
    the parent entry, which carries the path the browser came from, and a
    second [enter_selected] returns to that path. *)
Theorem enter_directory_then_parent_leads_back
        (listed later : string -> Listing) (b : FileBrowser.t) (it : Item)
        (segs names : list string) :
  Forall segment segs ->
  segment (name it) ->
  current_path b = abs_path segs ->
  items b = items (refresh_items listed b) ->
  get_selected_item b = Some it ->
  type it = dir ->
  listdir (path it) = Entries names ->
  let b1 := snd (enter_selected listdir b) in
  current_path b1 = abs_path (segs ++ [name it])
  /\ get_selected_item b1
     = Some {| name := ".."; type := parent; path := abs_path segs |}
  /\ current_path (snd (enter_selected later b1)) = current_path b.
Proof.
  intros Hsegs Hseg Hcp Hlisted Hsel Hty Hls b1.
  assert (Hpath : path it = abs_path (segs ++ [name it])).
  { pose proof (get_selected_item_In _ _ Hsel) as Hin.
    rewrite Hlisted in Hin.
    apply refresh_items_entry_path in Hin; [|now left].
    now rewrite Hin, Hcp, full_path_abs_path. }
  assert (Hall : Forall segment (segs ++ [name it]))
    by (apply Forall_app; split; [assumption | now constructor]).
  assert (Hb1 : b1 = refresh_items listdir (moved_to b (path it))).
  { unfold b1, enter_selected. now rewrite Hsel, Hty. }
  assert (Hsel1 : get_selected_item b1
                  = Some {| name := ".."; type := parent;
                            path := abs_path segs |}).
  { rewrite Hb1. unfold refresh_items, get_selected_item.
    cbn [items selected_index current_path moved_to].
    rewrite Hls, Hpath, abs_path_not_root
      by (assumption || (destruct segs; discriminate)).
    cbn [negb]. rewrite get_parent_path_abs_path by assumption.
    rewrite removelast_last. reflexivity. }
  split; [now rewrite Hb1|]. split; [exact Hsel1|].
  unfold enter_selected. rewrite Hsel1. cbn. now rewrite Hcp.
Qed.

(** X8. [enter_selected] returns a path only for a selected file, and
    then leaves the browser alone; when it returns nothing the browser
    is either untouched or the refreshed listing of the selected
    directory or parent entry; with no items it does nothing. *)
Theorem enter_selected_returns_path_only_for_files (b : FileBrowser.t) :
  (forall p b',
      enter_selected listdir b = (Some p, b') ->
      b' = b
      /\ exists it, get_selected_item b = Some it
                    /\ type it = file /\ path it = p)
  /\ (forall b',
        enter_selected listdir b = (None, b') ->
        b' = b
        \/ exists it, get_selected_item b = Some it
                      /\ (type it = dir \/ type it = parent)
                      /\ b' = refresh_items listdir (moved_to b (path it)))
  /\ (items b = [] -> enter_selected listdir b = (None, b)).
Proof.
  unfold enter_selected. split; [|split].
  - intros p b'. destruct (get_selected_item b) as [it|]; [|discriminate].
    destruct (type it) eqn:Hty; try discriminate.
    intros H. returned H. eauto.
  - intros b'. destruct (get_selected_item b) as [it|];
      [|intros H; returned H; auto].
    destruct (type it) eqn:Hty; intros H; returned H; eauto 6.
  - intros Hempty. unfold get_selected_item. now rewrite Hempty.
Qed.

End Navigation.

(** ** Scrolling and advancing *)

Section Scrolling.

Import FileBrowser.

(** X9. On a well-formed browser [scroll_down] and [scroll_up] move the
    window by one line and undo each other away from the ends; at the
    last full window [scroll_down] changes nothing and at the top
    [scroll_up] changes nothing; neither touches the selection, so the
    selected item can be scrolled out of the window. *)
Theorem scrolling_is_clamped_and_undoes (b : FileBrowser.t) :
  well_formed b ->
  (scroll_offset b < max_scroll b ->
     scroll_offset (scroll_down b) = scroll_offset b + 1
     /\ scroll_up (scroll_down b) = b)
  /\ (0 < scroll_offset b ->
        scroll_offset (scroll_up b) = scroll_offset b - 1
        /\ scroll_down (scroll_up b) = b)
  /\ (scroll_offset b = max_scroll b -> scroll_down b = b)
  /\ (scroll_offset b = 0 -> scroll_up b = b)
  /\ selected_index (scroll_down b) = selected_index b
  /\ selected_index (scroll_up b) = selected_index b.
Proof.
  unfold well_formed, max_scroll, scroll_down, scroll_up, len.
  destruct b as [cp its sel off].
  cbn [selected_index scroll_offset items current_path].
  intros (Hsel & Hlt & Hoff).
  repeat split; intros; try (f_equal; lia); try lia.
Qed.

(** X10. On a well-formed browser with items [next_item] moves the
    selection one item down, or from the last item to the first, where
    the window returns to the top; when the selection was inside the
    window, the window moves down by exactly one line if the new
    selection would fall below it, and not at all otherwise. *)
Theorem next_item_moves_window_no_further_than_needed (b : FileBrowser.t) :
  well_formed b ->
  items b <> [] ->
  (selected_index b = len b - 1 ->
     selected_index (next_item b) = 0 /\ scroll_offset (next_item b) = 0)
  /\ (selected_index b < len b - 1 ->
        selected_index (next_item b) = selected_index b + 1
        /\ (selection_visible b ->
              scroll_offset (next_item b)
              = if selected_index b + 1 <? scroll_offset b + Display.max_lines
                then scroll_offset b
                else scroll_offset b + 1)).
Proof.
  unfold well_formed, max_scroll, selection_visible, next_item.
  intros (Hsel & Hlt & Hoff) Hne. specialize (Hlt Hne).
  destruct (items b) as [|i l] eqn:E; [congruence|].
  cbn [selected_index scroll_offset]. unfold Display.max_lines in *.
  assert (Hn : 0 < len b) by (unfold len; rewrite E; cbn [List.length]; lia).
  split.
  - intros Hlast.
    replace (selected_index b + 1) with (len b) by lia.
    rewrite Z.mod_same by lia. split; [reflexivity|].
    destruct (Z.ltb_spec 0 (scroll_offset b)); [reflexivity|].
    destruct (Z.geb_spec 0 (scroll_offset b + 6)); lia.
  - intros Hmid. rewrite Z.mod_small by lia. split; [reflexivity|].
    intros Hvis.
    destruct (Z.ltb_spec (selected_index b + 1) (scroll_offset b)); [lia|].
    destruct (Z.geb_spec (selected_index b + 1) (scroll_offset b + 6)),
      (Z.ltb_spec (selected_index b + 1) (scroll_offset b + 6)); lia.
Qed.

End Scrolling.

(** ** What [draw_lines] puts on the panel *)

Section Drawing.

Import Display.

Lemma slice_length (lo hi : nat) (s : string) :
  (String.length (Py.slice lo hi s) <= hi - lo)%nat.
Proof.
  unfold Py.slice. generalize (hi - lo)%nat as m. revert lo.
  induction s as [|a s IH]; intros lo m.
  - destruct lo, m; cbn; lia.
  - destruct lo as [|lo]; cbn [substring].
    + destruct m as [|m]; cbn [String.length]; [lia|].
      specialize (IH 0%nat m). lia.
    + apply IH.
Qed.

Lemma draw_calls_rows (lines : list string) (s h : Z) :
  draw_calls lines s h
  = draw_rows s h 0 (firstn (Z.to_nat max_lines) (skipn (Z.to_nat s) lines)).
Proof. reflexivity. Qed.

Lemma draw_rows_cons (s h k : Z) (line : string) (vis : list string) :
  draw_rows s h k (line :: vis)
  = ((if k + s =? h then
        [ {| text := ">"; x := 0; y := k * line_height |};
          {| text := Py.slice 0 (Z.to_nat max_chars) line; x := 10;
             y := k * line_height |} ]
      else [ {| text := Py.slice 0 (Z.to_nat max_chars) line; x := 0;
                y := k * line_height |} ])
       ++ draw_rows s h (k + 1) vis)%list.
Proof. reflexivity. Qed.

Lemma draw_rows_geometry (s h : Z) (vis : list string) (k : Z)
      (c : TextCall) :
  In c (draw_rows s h k vis) ->
  exists i, k <= i < k + Z.of_nat (List.length vis)
            /\ y c = i * line_height
            /\ (x c = 0 \/ (x c = 10 /\ i + s = h))
            /\ (String.length (text c) <= Z.to_nat max_chars)%nat.
Proof.
  revert k. induction vis as [|line vis IH]; intros k; [intros []|].
  rewrite draw_rows_cons. intros Hin. apply in_app_or in Hin as [Hin | Hin].
  - exists k. cbn [List.length].
    pose proof (slice_length 0 (Z.to_nat max_chars) line) as Hlen.
    destruct (Z.eqb_spec (k + s) h) as [E|E];
      [destruct Hin as [<- | [<- | []]] | destruct Hin as [<- | []]];
      cbn [x y text]; repeat split; auto; try lia.
    cbn. lia.
  - apply IH in Hin as (i & Hi & H). exists i. cbn [List.length].
    split; [lia | exact H].
Qed.

Lemma draw_rows_unmarked (s h : Z) (vis : list string) (k : Z) :
  h - s < k \/ k + Z.of_nat (List.length vis) <= h - s ->
  filter indented (draw_rows s h k vis) = []
  /\ List.length (draw_rows s h k vis) = List.length vis.
Proof.
  revert k. induction vis as [|line vis IH]; intros k Hout; [auto|].
  rewrite draw_rows_cons. cbn [List.length] in *.
  destruct (Z.eqb_spec (k + s) h) as [E|E]; [lia|].
  rewrite filter_app, length_app.
  destruct (IH (k + 1)) as [-> ->]; [lia|]. split; reflexivity.
Qed.

Lemma draw_rows_marked (s h : Z) (vis : list string) (k : Z) :
  k <= h - s < k + Z.of_nat (List.length vis) ->
  exists line,
    nth_error vis (Z.to_nat (h - s - k)) = Some line
    /\ filter indented (draw_rows s h k vis)
       = [ {| text := Py.slice 0 (Z.to_nat max_chars) line; x := 10;
              y := (h - s) * line_height |} ]
    /\ In (selection_mark (h - s)) (draw_rows s h k vis)
    /\ List.length (draw_rows s h k vis) = S (List.length vis).
Proof.
  revert k. induction vis as [|line vis IH]; intros k Hin;
    cbn [List.length] in *; [lia|].
  rewrite draw_rows_cons.
  destruct (Z.eqb_spec (k + s) h) as [E|E].
  - exists line. replace (h - s - k) with 0 by lia.
    replace (h - s) with k by lia.
    rewrite filter_app, length_app.
    destruct (draw_rows_unmarked s h vis (k + 1)) as [-> ->]; [lia|].
    repeat split. left. reflexivity.
  - destruct (IH (k + 1)) as (l & Hnth & Hfil & Hmark & Hlen); [lia|].
    exists l. rewrite filter_app, length_app, Hfil, Hlen.
    replace (Z.to_nat (h - s - k)) with (S (Z.to_nat (h - s - (k + 1))))
      by lia.
    repeat split; auto. apply in_or_app. now right.
Qed.

(** X11. Whatever the lines and the highlight index, and for every scroll
    offset that is not negative, [draw_lines] draws at most six rows and
    seven texts; every text is at most 16 characters long and sits on a
    row that fits the 64-pixel panel; a text drawn at the left edge also
    fits its 128-pixel width, and only the highlighted line, drawn 10
    pixels in, can run over it. *)
Theorem draw_lines_stays_on_the_panel
        (lines : list string) (scroll_offset highlight_index : Z) :
  0 <= scroll_offset ->
  (List.length (draw_calls lines scroll_offset highlight_index) <= 7)%nat
  /\ forall c,
       In c (draw_calls lines scroll_offset highlight_index) ->
       0 <= y c /\ y c + 8 <= OLED_1inch3.height
       /\ (String.length (text c) <= 16)%nat
       /\ (x c = 0 \/ x c = 10)
       /\ (x c = 0 ->
           x c + char_width * Z.of_nat (String.length (text c))
           <= OLED_1inch3.width).
Proof.
  intros _. rewrite draw_calls_rows.
  set (vis := firstn (Z.to_nat max_lines)
                (skipn (Z.to_nat scroll_offset) lines)).
  assert (Hvis : (List.length vis <= 6)%nat).
  { unfold vis. rewrite length_firstn. cbn. lia. }
  split.
  - destruct (Z_lt_le_dec (highlight_index - scroll_offset) 0) as [Hlo|Hlo].
    + destruct (draw_rows_unmarked scroll_offset highlight_index vis 0)
        as [_ ->]; lia.
    + destruct (Z_lt_le_dec (highlight_index - scroll_offset)
                  (Z.of_nat (List.length vis))) as [Hhi|Hhi].
      * destruct (draw_rows_marked scroll_offset highlight_index vis 0)
          as (_ & _ & _ & _ & ->); lia.
      * destruct (draw_rows_unmarked scroll_offset highlight_index vis 0)
          as [_ ->]; lia.
  - intros c Hin. apply draw_rows_geometry in Hin as (i & Hi & Hy & Hx & Hlen).
    unfold line_height, char_width, OLED_1inch3.height, OLED_1inch3.width in *.
    change (Z.to_nat max_chars) with 16%nat in Hlen.
    repeat split; lia.
Qed.

Lemma draw_lines_witness :
  (List.length (draw_calls ["a.py"; "b.py"] 0 1) <= 7)%nat
  /\ 0 <= y (selection_mark 1) /\ y (selection_mark 1) + 8 <= OLED_1inch3.height
  /\ (String.length (text (selection_mark 1)) <= 16)%nat
  /\ (x (selection_mark 1) = 0 \/ x (selection_mark 1) = 10)
  /\ (x (selection_mark 1) = 0 ->
      x (selection_mark 1)
      + char_width * Z.of_nat (String.length (text (selection_mark 1)))
      <= OLED_1inch3.width).
Proof.
  destruct (draw_lines_stays_on_the_panel ["a.py"; "b.py"] 0 1)
    as [Hlen Hall]; [lia|].
  split; [exact Hlen|].
  apply Hall. right. left. reflexivity.
Defined.

Import FileBrowser.

Lemma get_display_lines_length (b : FileBrowser.t) :
  items b <> [] ->
  List.length (get_display_lines b) = List.length (items b).
Proof.
  unfold get_display_lines. destruct (items b) as [|i l]; [congruence|].
  intros _. now rewrite length_map.
Qed.

(** X12. On a well-formed browser with items, [show] draws the selection
    mark and, 10 pixels in, the line of the selected item, both on row
    [selected_index - scroll_offset], when the selection is inside the
    window; when it has been scrolled out, no line is drawn indented.
    Right after [next_item] the selection is always inside the window. *)
Theorem show_marks_the_selected_item (b : FileBrowser.t) :
  well_formed b ->
  items b <> [] ->
  (selection_visible b ->
     exists line,
       nth_error (get_display_lines b) (Z.to_nat (selected_index b))
       = Some line
       /\ filter indented (show b)
          = [ {| text := Py.slice 0 (Z.to_nat max_chars) line; x := 10;
                 y := (selected_index b - scroll_offset b) * line_height |} ]
       /\ In (selection_mark (selected_index b - scroll_offset b)) (show b))
  /\ (~ selection_visible b -> filter indented (show b) = [])
  /\ selection_visible (next_item b).
Proof.
  intros (Hsel & Hlt & Hoff) Hne. specialize (Hlt Hne).
  unfold max_scroll in Hoff.
  unfold show. rewrite draw_calls_rows.
  set (lines := get_display_lines b).
  set (s := scroll_offset b) in *. set (h := selected_index b) in *.
  set (vis := firstn (Z.to_nat max_lines) (skipn (Z.to_nat s) lines)).
  assert (Hlines : Z.of_nat (List.length lines) = len b)
    by (unfold lines, len; now rewrite get_display_lines_length).
  assert (Hvis : Z.of_nat (List.length vis)
                 = Z.min max_lines (len b - s)).
  { unfold vis. rewrite length_firstn, length_skipn.
    unfold max_lines in *. lia. }
  unfold selection_visible. fold s h. unfold max_lines in *.
  split; [|split].
  - intros Hvisible.
    destruct (draw_rows_marked s h vis 0) as (line & Hnth & Hfil & Hmark & _);
      [lia|].
    exists line. split; [|split; assumption].
    unfold vis in Hnth. rewrite nth_error_firstn in Hnth.
    destruct (Nat.ltb_spec (Z.to_nat (h - s - 0)) (Z.to_nat 6)); [|lia].
    rewrite nth_error_skipn in Hnth. rewrite <- Hnth. f_equal. lia.
  - intros Hout.
    destruct (draw_rows_unmarked s h vis 0) as [Hfil _]; [lia | exact Hfil].
  - now apply next_item_visible.
Qed.

End Drawing.

(** ** Wrapping text to the width of the panel *)

Section Wrapping.

Import Display.

Lemma length_append (a b : string) :
  String.length (a ++ b) = (String.length a + String.length b)%nat.
Proof. induction a as [|x a IH]; cbn; [reflexivity | now rewrite IH]. Qed.

Lemma lstrip_ws_length (s : string) :
  (String.length (Py.lstrip_ws s) <= String.length s)%nat.
Proof.
  induction s as [|a s IH]; cbn [Py.lstrip_ws]; [lia|].
  destruct (Py.is_space a); cbn [String.length]; lia.
Qed.

Lemma rstrip_ws_length (s : string) :
  (String.length (Py.rstrip_ws s) <= String.length s)%nat.
Proof.
  induction s as [|a s IH]; cbn [Py.rstrip_ws]; [lia|].
  destruct (Py.rstrip_ws s); [destruct (Py.is_space a)|];
    cbn [String.length] in *; lia.
Qed.

Lemma strip_length (s : string) :
  (String.length (Py.strip s) <= String.length s)%nat.
Proof.
  unfold Py.strip. pose proof (rstrip_ws_length (Py.lstrip_ws s)).
  pose proof (lstrip_ws_length s). lia.
Qed.

Lemma rstrip_ws_space (s : string) :
  (String.length (Py.rstrip_ws (s ++ " ")) <= String.length s)%nat.
Proof.
  induction s as [|a s IH]; [cbn; lia|].
  cbn [append Py.rstrip_ws].
  destruct (Py.rstrip_ws (s ++ " ")); [destruct (Py.is_space a)|];
    cbn [String.length] in *; lia.
Qed.

(** The trailing space [wrap_text] adds to a word is stripped again. *)
Lemma strip_space (w : string) :
  (String.length (Py.strip (w ++ " ")) <= String.length w)%nat.
Proof.
  unfold Py.strip. induction w as [|a w IH]; [cbn; lia|].
  cbn [append Py.lstrip_ws]. destruct (Py.is_space a).
  - cbn [String.length]. lia.
  - apply (rstrip_ws_space (String a w)).
Qed.

Lemma range_step_nonempty (n step : nat) :
  (0 < n)%nat -> (0 < step)%nat -> Py.range_step n step <> [].
Proof.
  intros Hn Hstep. unfold Py.range_step.
  assert (H : (1 <= (n + step - 1) / step)%nat)
    by (apply Nat.div_le_lower_bound; lia).
  destruct ((n + step - 1) / step)%nat; [lia | discriminate].
Qed.

Lemma split_nonempty (c : ascii) (s : string) : Py.split c s <> [].
Proof.
  induction s as [|a s IH]; cbn [Py.split]; [discriminate|].
  destruct (Ascii.eqb a c); [discriminate|].
  destruct (Py.split c s); discriminate.
Qed.

(** What the loop of [wrap_text] keeps true of its state. *)
Lemma wrap_word_fits (st : list string * string) (word : string) :
  Forall (fun l => (String.length l <= 16)%nat) (fst st) ->
  (String.length (Py.strip (snd st)) <= 16)%nat ->
  Forall (fun l => (String.length l <= 16)%nat) (fst (wrap_word st word))
  /\ (String.length (Py.strip (snd (wrap_word st word))) <= 16)%nat.
Proof.
  destruct st as [lines cur]. cbn [fst snd]. intros Hlines Hcur.
  unfold wrap_word, max_chars.
  destruct (Z.gtb_spec (Z.of_nat (String.length word)) 16) as [Hlong|Hword].
  - cbn [fst snd]. split; [|cbn; lia].
    apply Forall_app. split.
    + destruct cur; [assumption|].
      apply Forall_app. split; [assumption | now constructor].
    + apply Forall_forall. intros l Hl. apply in_map_iff in Hl as (i & <- & _).
      pose proof (slice_length i (i + Z.to_nat 16) word). lia.
  - destruct (Z.leb_spec (Z.of_nat (String.length cur)
                          + Z.of_nat (String.length word) + 1) 16)
      as [Hfit|Hfull]; cbn [fst snd].
    + split; [assumption|].
      pose proof (strip_length (cur ++ word ++ " ")) as H.
      rewrite !length_append in H. cbn [String.length] in H. lia.
    + split.
      * apply Forall_app. split; [assumption | now constructor].
      * pose proof (strip_space word). lia.
Qed.

Lemma wrap_word_progress (st : list string * string) (word : string) :
  fst (wrap_word st word) <> [] \/ snd (wrap_word st word) <> "".
Proof.
  destruct st as [lines cur]. unfold wrap_word, max_chars.
  destruct (Z.gtb_spec (Z.of_nat (String.length word)) 16) as [Hlong|Hword].
  - left. cbn [fst]. intros H. apply app_eq_nil in H as [_ H].
    apply map_eq_nil in H. revert H. apply range_step_nonempty; cbn; lia.
  - destruct (_ <=? _); cbn [fst snd].
    + right. destruct cur; [destruct word|]; discriminate.
    + left. intros H. apply app_eq_nil in H as [_ H]. discriminate.
Qed.

Lemma wrap_words_fit (words : list string) (st : list string * string) :
  Forall (fun l => (String.length l <= 16)%nat) (fst st) ->
  (String.length (Py.strip (snd st)) <= 16)%nat ->
  Forall (fun l => (String.length l <= 16)%nat)
    (fst (fold_left wrap_word words st))
  /\ (String.length (Py.strip (snd (fold_left wrap_word words st))) <= 16)%nat.
Proof.
  revert st. induction words as [|w words IH]; intros st Hl Hc; [auto|].
  cbn [fold_left]. destruct (wrap_word_fits st w Hl Hc). now apply IH.
Qed.

Lemma wrap_words_progress (words : list string) (st : list string * string) :
  fst st <> [] \/ snd st <> "" ->
  fst (fold_left wrap_word words st) <> []
  \/ snd (fold_left wrap_word words st) <> "".
Proof.
  revert st. induction words as [|w words IH]; intros st H; [exact H|].
  cbn [fold_left]. apply IH, wrap_word_progress.
Qed.

(** X13. Every line [wrap_text] returns is at most 16 characters long,
    and it returns at least one line, also for the empty text. *)
Theorem wrap_text_lines_fit_the_panel (text : string) :
  wrap_text text <> []
  /\ forall line, In line (wrap_text text) ->
       Z.of_nat (String.length line) <= max_chars.
Proof.
  unfold wrap_text, max_chars.
  destruct (Py.split " "%char text) as [|w words] eqn:S;
    [now apply split_nonempty in S|].
  cbn [fold_left].
  pose proof (wrap_word_fits ([], "") w (Forall_nil _)) as Hfit.
  destruct Hfit as [Hl Hc]; [cbn; lia|].
  pose proof (wrap_words_fit words _ Hl Hc) as [Hl' Hc'].
  pose proof (wrap_words_progress words _ (wrap_word_progress ([], "") w))
    as Hprog.
  destruct (fold_left wrap_word words (wrap_word ([], "") w))
    as [lines cur]. cbn [fst snd] in *.
  rewrite Forall_forall in Hl'. split.
  - destruct cur; [now destruct Hprog|].
    intros H. apply app_eq_nil in H as [_ H]. discriminate.
  - intros line Hin. destruct cur.
    + apply Hl' in Hin. lia.
    + apply in_app_or in Hin as [Hin | [<- | []]]; [apply Hl' in Hin|]; lia.
Qed.

Lemma wrap_text_witness :
  Z.of_nat (String.length "this is a long") <= max_chars.
Proof.
  apply (proj2 (wrap_text_lines_fit_the_panel
                  "hello world this is a long sentence ok")).
  right. left. reflexivity.
Defined.

Lemma split_space_free (w : string) :
  space_free w = true -> Py.split " "%char w = [w].
Proof.
  induction w as [|a w IH]; [reflexivity|].
  cbn [space_free Py.split]. intros H. apply andb_prop in H as [Ha Hw].
  destruct (Ascii.eqb_spec a " "%char) as [-> | _]; [discriminate|].
  now rewrite (IH Hw).
Qed.

Lemma rstrip_ws_space_free (w : string) :
  space_free w = true -> Py.rstrip_ws (w ++ " ") = w.
Proof.
  induction w as [|a w IH]; [reflexivity|].
  cbn [space_free append Py.rstrip_ws]. intros H.
  apply andb_prop in H as [Ha Hw]. rewrite (IH Hw).
  apply negb_true_iff in Ha. rewrite Ha. now destruct w.
Qed.

Lemma strip_space_free (w : string) :
  space_free w = true -> Py.strip (w ++ " ") = w.
Proof.
  intros Hw. unfold Py.strip. destruct w as [|a w]; [reflexivity|].
  pose proof Hw as Hw'. cbn [space_free] in Hw'.
  apply andb_prop in Hw' as [Ha _]. apply negb_true_iff in Ha.
  cbn [append Py.lstrip_ws]. rewrite Ha.
  now apply (rstrip_ws_space_free (String a w)).
Qed.

(** X14. A text that is one word of exactly 16 characters is wrapped
    into an empty line followed by the word: the word fits the panel, but
    the space the loop appends makes it one too long for the line being
    filled, which is closed empty. *)
Theorem wrap_text_full_width_word_leaves_empty_line (w : string) :
  Z.of_nat (String.length w) = max_chars ->
  space_free w = true ->
  wrap_text w = [""; w].
Proof.
  unfold max_chars. intros Hlen Hw. unfold wrap_text.
  rewrite split_space_free by assumption. cbn [fold_left].
  unfold wrap_word, max_chars. rewrite Hlen. cbn [String.length].
  change (16 >? 16) with false. change (Z.of_nat 0 + 16 + 1 <=? 16) with false.
  cbn iota.
  destruct (w ++ " ") eqn:E; [destruct w; discriminate|].
  rewrite <- E, strip_space_free by assumption. reflexivity.
Qed.

Lemma wrap_text_full_width_witness :
  wrap_text "0123456789abcdef" = [""; "0123456789abcdef"].
Proof.
  apply wrap_text_full_width_word_leaves_empty_line; reflexivity.
Defined.

End Wrapping.

(** ** The lines of an execution error *)

Section ErrorLines.

Import SubprocessManager.

Lemma substring_all (n : nat) (s : string) :
  (String.length s <= n)%nat -> substring 0 n s = s.
Proof.
  revert n. induction s as [|a s IH]; intros [|n] H; cbn in *;
    try reflexivity; try lia.
  rewrite IH by lia. reflexivity.
Qed.

Lemma substring_skip_all (n m : nat) (s : string) :
  (String.length s <= n)%nat -> substring n m s = "".
Proof.
  revert n. induction s as [|a s IH]; intros [|n] H; cbn in *;
    try (destruct m; reflexivity); try lia.
  apply IH. lia.
Qed.

Lemma substring_split (n m : nat) (s : string) :
  substring 0 n s ++ substring n m s = substring 0 (n + m) s.
Proof.
  revert s. induction n as [|n IH]; intros s.
  - cbn [Nat.add]. destruct s; [destruct m|]; reflexivity.
  - destruct s as [|a s]; [destruct m; reflexivity|].
    cbn [substring Nat.add append]. now rewrite IH.
Qed.

Variable run : string -> Run.

(** X15. The two message lines of an execution error are, put together,
    the first 80 characters of the message, cut after the 40th; a message
    of up to 80 characters is carried whole. *)
Theorem execute_file_error_lines_carry_the_message
        (filepath msg : string) (s : Proc) :
  Py.endswith filepath ".py" = true ->
  ending (run filepath) = RaisesException msg ->
  exists line2 line3,
    fst (execute_file run filepath s)
    = Returns ["Exec Error:"; line2; line3]
    /\ line2 ++ line3 = Py.slice 0 80 msg
    /\ (String.length line2 <= 40)%nat
    /\ (String.length line3 <= 40)%nat
    /\ ((String.length msg <= 80)%nat -> line2 ++ line3 = msg).
Proof.
  intros Hpy Hend. rewrite (execute_file_error_result run _ msg s Hpy Hend).
  cbn [fst]. do 2 eexists. split; [reflexivity|].
  assert (Hcat : Py.slice 0 40 msg
                 ++ (if (40 <? String.length msg)%nat
                     then Py.slice 40 80 msg else "")
                 = Py.slice 0 80 msg).
  { unfold Py.slice. cbn [Nat.sub].
    destruct (Nat.ltb_spec 40 (String.length msg)).
    - apply (substring_split 40 40).
    - rewrite <- (substring_split 40 40), (substring_skip_all 40 40) by lia.
      reflexivity. }
  split; [exact Hcat|].
  split; [apply (slice_length 0 40)|].
  split.
  - destruct (40 <? String.length msg)%nat;
      [apply (slice_length 40 80) | cbn; lia].
  - intros Hshort. rewrite Hcat. now apply substring_all.
Qed.

End ErrorLines.

Lemma execute_file_error_lines_witness :
  exists line2 line3,
    fst (SubprocessManager.execute_file
           (Samples.script_fails Samples.name_error) "/blink.py" Samples.idle)
    = Returns ["Exec Error:"; line2; line3]
    /\ line2 ++ line3 = Py.slice 0 80 Samples.name_error
    /\ (String.length line2 <= 40)%nat
    /\ (String.length line3 <= 40)%nat
    /\ ((String.length Samples.name_error <= 80)%nat ->
        line2 ++ line3 = Samples.name_error).
Proof.
  apply (execute_file_error_lines_carry_the_message
           (Samples.script_fails Samples.name_error) "/blink.py"
           Samples.name_error Samples.idle); reflexivity.
Defined.

(** ** The frame buffer on the SPI bus *)

Section Panel.

Import OLED_1inch3.

Lemma collect_map {A B} (f : A -> option B) (g : A -> B) (l : list A) :
  (forall a, In a l -> f a = Some (g a)) ->
  Py.collect f l = Some (map g l).
Proof.
  induction l as [|a l IH]; intros H; [reflexivity|].
  cbn [Py.collect map]. rewrite (H a) by now left.
  rewrite IH by (intros; apply H; now right). reflexivity.
Qed.

Lemma in_range (n : nat) (z : Z) :
  In z (Py.range n) <-> 0 <= z < Z.of_nat n.
Proof.
  unfold Py.range. rewrite in_map_iff. split.
  - intros (k & <- & Hk). apply in_seq in Hk. lia.
  - intros Hz. exists (Z.to_nat z). split; [lia|]. apply in_seq. lia.
Qed.

Lemma index_in_bounds {A} (l : list A) (i : Z) :
  0 <= i < Z.of_nat (List.length l) ->
  exists a, Py.index l i = Some a /\ nth_error l (Z.to_nat i) = Some a.
Proof.
  intros Hi. unfold Py.index.
  rewrite (proj2 (Z.leb_le 0 i)), (proj2 (Z.ltb_lt i _)) by lia. cbn [andb].
  destruct (nth_error l (Z.to_nat i)) as [a|] eqn:E; [eauto|].
  apply nth_error_None in E. lia.
Qed.

Lemma firstn_nth_error {A} (n : nat) (l : list A) (d : A) :
  (n <= List.length l)%nat ->
  map (fun i => nth i l d) (seq 0 n) = firstn n l.
Proof.
  revert l. induction n as [|n IH]; intros l Hn; [reflexivity|].
  destruct l as [|a l]; [cbn in Hn; lia|].
  cbn [seq map firstn nth]. f_equal.
  rewrite <- seq_shift, map_map. apply IH. cbn in Hn. lia.
Qed.

Lemma firstn_add {A} (a b : nat) (l : list A) :
  firstn (a + b) l = (firstn a l ++ firstn b (skipn a l))%list.
Proof.
  revert l. induction a as [|a IH]; intros l; [reflexivity|].
  destruct l as [|x l]; [now destruct b|].
  cbn [Nat.add firstn skipn app]. now rewrite IH.
Qed.

Lemma concat_pages (buffer : list Z) (n : nat) :
  List.concat (map (fun k => page_bytes buffer (Z.of_nat k)) (seq 0 n))
  = firstn (n * 16) buffer.
Proof.
  induction n as [|n IH]; [reflexivity|].
  rewrite seq_S, map_app, concat_app, IH. cbn [map List.concat Nat.add].
  rewrite app_nil_r. unfold page_bytes.
  replace (Z.to_nat (Z.of_nat n * 16)) with (n * 16)%nat by lia.
  replace (S n * 16)%nat with (n * 16 + 16)%nat by lia.
  now rewrite firstn_add.
Qed.

Lemma page_row (buffer : list Z) (page : Z) :
  List.length buffer = 1024%nat ->
  0 <= page < 64 ->
  Py.collect (fun num => Py.index buffer (page * 16 + num)) (Py.range 16)
  = Some (page_bytes buffer page).
Proof.
  intros Hlen Hpage.
  rewrite (collect_map _
             (fun num => nth (Z.to_nat (page * 16 + num)) buffer 0)).
  - f_equal. unfold Py.range, page_bytes. rewrite map_map.
    rewrite <- (firstn_nth_error 16 _ 0)
      by (rewrite length_skipn; lia).
    apply map_ext. intros k. rewrite nth_skipn. f_equal. lia.
  - intros num Hnum. apply in_range in Hnum.
    destruct (index_in_bounds buffer (page * 16 + num)) as (a & -> & Hnth);
      [lia|].
    f_equal. symmetry. now apply nth_error_nth.
Qed.

Lemma show_page_shape (rotate : Z) (buffer : list Z) (page : Z) :
  List.length buffer = 1024%nat ->
  0 <= page < 64 ->
  exists lo hi,
    show_page rotate buffer page
    = Some (Cmd lo :: Cmd hi :: map Data (page_bytes buffer page))
    /\ 0 <= lo <= 15 /\ 16 <= hi <= 19
    /\ lo + 16 * (hi - 16) = if rotate =? 180 then page else 63 - page.
Proof.
  intros Hlen Hpage. unfold show_page. rewrite page_row by assumption.
  set (column := if rotate =? 180 then page else 63 - page).
  assert (Hcol : 0 <= column < 64) by (unfold column; destruct (_ =? _); lia).
  assert (Hlo : Z.land column 0x0F = column mod 16)
    by (change 0x0F with (Z.ones 4); now rewrite Z.land_ones).
  assert (Hhi : Z.shiftr column 4 = column / 16)
    by now rewrite Z.shiftr_div_pow2.
  do 2 eexists. split; [reflexivity|].
  rewrite Hlo, Hhi. clearbody column.
  Z.div_mod_to_equations. lia.
Qed.

(** X16. For each of the 64 pages of a full frame buffer, [show] writes
    two address commands, the low nibble of the column in 0x00..0x0F and
    its high nibble on 0x10, which together give back the column (the
    page itself when rotated by 180, 63 minus the page otherwise), and
    then the sixteen bytes of that page. *)
Theorem show_page_addresses_the_column
        (rotate : Z) (buffer : list Z) (page : Z) :
  List.length buffer = Z.to_nat buffer_size ->
  0 <= page < 64 ->
  exists lo hi,
    show_page rotate buffer page
    = Some (Cmd lo :: Cmd hi :: map Data (page_bytes buffer page))
    /\ 0 <= lo <= 15 /\ 16 <= hi <= 19
    /\ lo + 16 * (hi - 16) = if rotate =? 180 then page else 63 - page.
Proof. exact (show_page_shape rotate buffer page). Qed.

Lemma data_bytes_data (l : list Z) : data_bytes (map Data l) = l.
Proof.
  unfold data_bytes. induction l as [|x l IH]; [reflexivity|].
  cbn [map flat_map app]. now rewrite IH.
Qed.

Lemma command_bytes_data (l : list Z) : command_bytes (map Data l) = [].
Proof.
  unfold command_bytes. induction l as [|x l IH]; [reflexivity|].
  cbn [map flat_map app]. now rewrite IH.
Qed.

Lemma show_pages_of (rotate : Z) (buffer : list Z) (l : list Z) :
  List.length buffer = 1024%nat ->
  (forall page, In page l -> 0 <= page < 64) ->
  exists pages,
    Py.collect (show_page rotate buffer) l = Some pages
    /\ data_bytes (List.concat pages)
       = List.concat (map (page_bytes buffer) l)
    /\ List.length (List.concat pages) = (18 * List.length l)%nat
    /\ forall b, In b (command_bytes (List.concat pages)) -> 0 <= b <= 19.
Proof.
  intros Hlen. induction l as [|page l IH]; intros Hl.
  - exists []. cbn. repeat split; tauto.
  - destruct IH as (pages & Hc & Hd & Hn & Hb);
      [intros; apply Hl; now right|].
    destruct (show_page_shape rotate buffer page Hlen) as
      (lo & hi & Hp & Hlo & Hhi & _); [apply Hl; now left|].
    eexists. cbn [Py.collect]. rewrite Hp, Hc. split; [reflexivity|].
    cbn [List.concat map]. unfold data_bytes, command_bytes in *.
    rewrite !flat_map_app. cbn [flat_map app].
    fold (data_bytes (map Data (page_bytes buffer page))).
    fold (command_bytes (map Data (page_bytes buffer page))).
    rewrite data_bytes_data, command_bytes_data, Hd.
    split; [reflexivity|]. split.
    + cbn [List.length]. rewrite length_app, length_map, Hn.
      unfold page_bytes. rewrite length_firstn, length_skipn.
      assert (0 <= page < 64) by (apply Hl; now left). lia.
    + intros b [<- | [<- | Hin]]; [lia | lia |]. now apply Hb.
Qed.

(** X17. [show] on a frame buffer of the size [__init__] allocates never
    reads outside it: it writes the page command, then for each of the 64
    pages two address commands and sixteen data bytes, 1153 transfers in
    all; the data bytes are the buffer, byte for byte and in order, and
    every command fits a byte. *)
Theorem show_streams_the_frame_buffer (rotate : Z) (buffer : list Z) :
  List.length buffer = Z.to_nat buffer_size ->
  exists stream,
    show rotate buffer = Some stream
    /\ data_bytes stream = buffer
    /\ List.length stream = 1153%nat
    /\ forall b, In b (command_bytes stream) -> 0 <= b <= 255.
Proof.
  intros Hlen. change (Z.to_nat buffer_size) with 1024%nat in Hlen.
  destruct (show_pages_of rotate buffer (Py.range 64) Hlen)
    as (pages & Hc & Hd & Hn & Hb).
  { intros page Hin. apply in_range in Hin. lia. }
  unfold show. rewrite Hc. eexists. split; [reflexivity|].
  split; [|split].
  - change (data_bytes (Cmd 0xB0 :: List.concat pages))
      with (data_bytes (List.concat pages)).
    rewrite Hd. unfold Py.range. rewrite map_map.
    rewrite (concat_pages buffer 64). apply firstn_all2. lia.
  - cbn [List.length]. rewrite Hn. reflexivity.
  - intros b [<- | Hin]; [lia|]. apply Hb in Hin. lia.
Qed.

End Panel.

Lemma show_page_witness :
  exists lo hi,
    OLED_1inch3.show_page 0 (repeat 0 1024) 5
    = Some (OLED_1inch3.Cmd lo :: OLED_1inch3.Cmd hi
              :: map OLED_1inch3.Data (page_bytes (repeat 0 1024) 5))
    /\ 0 <= lo <= 15 /\ 16 <= hi <= 19
    /\ lo + 16 * (hi - 16) = if 0 =? 180 then 5 else 63 - 5.
Proof.
  apply (show_page_addresses_the_column 0 (repeat 0 1024) 5);
    [reflexivity | lia].
Defined.

Lemma show_streams_witness :
  exists stream,
    OLED_1inch3.show 0 (repeat 255 1024) = Some stream
    /\ data_bytes stream = repeat 255 1024
    /\ List.length stream = 1153%nat
    /\ forall b, In b (command_bytes stream) -> 0 <= b <= 255.
Proof.
  apply (show_streams_the_frame_buffer 0 (repeat 255 1024)). reflexivity.
Defined.

(** ** The screensaver sprite *)

Section Sprite.

Import Screensaver.

Lemma bounce_speed (d r : Z) : speed (bounce d r).
Proof.
  unfold speed, bounce.
  destruct (Z.eqb_spec (Z.max (-2) (Z.min 2 (- d + r))) 0); lia.
Qed.

Lemma update_in_range (rx ry : Z) (s : Screensaver.t) :
  sprite_in_range s ->
  exists s', update rx ry s = Some s'
             /\ sprite_in_range s'
             /\ current_frame s' = 1 - current_frame s.
Proof.
  intros (Hframe & Hx & Hy & Hdx & Hdy).
  assert (Hidx : exists frame w,
             Py.index frames (current_frame s) = Some frame
             /\ longest frame * 8 = w /\ (w = 32 \/ w = 40)
             /\ Z.of_nat (List.length frame) * 8 = 16
             /\ (current_frame s + 1) mod Z.of_nat (List.length frames)
                = 1 - current_frame s).
  { destruct Hframe as [-> | ->]; do 2 eexists;
      (split; [reflexivity|]); (split; [reflexivity|]);
      split; auto. }
  destruct Hidx as (frame & w & Hi & Hw & Hw' & Hh & Hnext).
  unfold update. rewrite Hi, Hw, Hh, Hnext.
  eexists. split; [reflexivity|].
  unfold sprite_in_range. cbn [current_frame x y dx dy].
  split; [|reflexivity].
  split; [lia|]. split; [lia|]. split; [lia|].
  split; (destruct (_ || _); [apply bounce_speed | assumption]).
Qed.

(** X18. The sprite of the screensaver starts in range and every
    [update], whatever the random directions, keeps it there: the frames
    alternate, the position stays within 0..96 by 0..48, and the speed
    on each axis stays one or two pixels, never zero. *)
Theorem screensaver_sprite_stays_in_range :
  sprite_in_range init
  /\ forall rx ry s,
       sprite_in_range s ->
       exists s', update rx ry s = Some s'
                  /\ sprite_in_range s'
                  /\ current_frame s' = 1 - current_frame s.
Proof.
  split; [unfold sprite_in_range, speed; cbn; lia|].
  intros rx ry s. apply update_in_range.
Qed.

Lemma screensaver_sprite_witness :
  exists s', update 1 (-1) init = Some s'
             /\ sprite_in_range s'
             /\ current_frame s' = 1 - current_frame init.
Proof.
  apply (proj2 screensaver_sprite_stays_in_range 1 (-1) init).
  apply (proj1 screensaver_sprite_stays_in_range).
Defined.

End Sprite.

(** ** The status command *)

Section Status.

Import Commands.

(** X19. For a tick count that is not negative, the hours, minutes and
    seconds [ctop] prints add up to the whole seconds of the count, with
    minutes and seconds below 60.  [ctop] raises exactly when free and
    allocated memory add up to zero, and returns ten lines otherwise. *)
Theorem ctop_uptime_adds_up (ms : Z) (m : Machine) :
  0 <= ms ->
  (let '(hours, mins, secs) := uptime ms in
   0 <= hours /\ 0 <= mins < 60 /\ 0 <= secs < 60
   /\ (hours * 60 + mins) * 60 + secs = ms / 1000)
  /\ (ctop ms m = None <-> mem_free m + mem_alloc m = 0)
  /\ (forall lines, ctop ms m = Some lines -> List.length lines = 10%nat).
Proof.
  intros Hms. split; [|split].
  - unfold uptime. Z.div_mod_to_equations. lia.
  - unfold ctop. destruct (uptime ms) as [[h mi] se].
    destruct (Z.eqb_spec (mem_free m + mem_alloc m) 0); split;
      congruence.
  - intros lines. unfold ctop. destruct (uptime ms) as [[h mi] se].
    destruct (_ =? _); [discriminate|]. intros H. now inversion H.
Qed.

Lemma ctop_uptime_witness :
  0 <= 1 /\ 0 <= 2 < 60 /\ 0 <= 3 < 60
  /\ (1 * 60 + 2) * 60 + 3 = 3723456 / 1000.
Proof.
  apply (proj1 (ctop_uptime_adds_up 3723456
                  {| unique_id_hex := "e6614"; freq := 125000000;
                     temp := "N/A"; mem_free := 100; mem_alloc := 50 |}
                  ltac:(lia))).
Defined.

End Status.

(** ** The main loop *)

Section Loop.

Import CraneFlyOS MainLoop.

Variable w : World.
Variable m : Commands.Machine.

Lemma execute_file_keeps_idle (filepath : string)
      (s s' : SubprocessManager.Proc) (result : list string) :
  proc_idle s ->
  SubprocessManager.execute_file (run w) filepath s = (Returns result, s') ->
  proc_idle s'.
Proof.
  intros Hidle Hex.
  destruct (Py.endswith filepath ".py") eqn:Hpy.
  - rewrite (execute_file_cleanup _ _ _ _ _ Hpy Hex). reflexivity.
  - unfold SubprocessManager.execute_file in Hex. rewrite Hpy in Hex.
    cbn [negb] in Hex. inversion Hex. subst. exact Hidle.
Qed.

Lemma browser_change_consistent (o : CraneFlyOS.t) (b : FileBrowser.t) :
  os_consistent o -> well_formed b -> os_consistent (with_browser o b).
Proof.
  intros (Hidle & _ & Hscroll & Hmenu) Hwf.
  split; [exact Hidle|]. split; [exact Hwf|]. split; assumption.
Qed.

Lemma mode_change_consistent (o : CraneFlyOS.t) (md : Mode) :
  os_consistent o -> os_consistent (with_mode o md).
Proof. intros H. exact H. Qed.

Lemma output_consistent (o : CraneFlyOS.t) (lines : list string) :
  os_consistent o -> os_consistent (with_output o lines).
Proof.
  intros (Hidle & Hwf & _ & Hmenu).
  split; [exact Hidle|]. split; [exact Hwf|]. split; [|exact Hmenu].
  unfold output_scroll_in_range. cbn [scroll_offset with_output]. lia.
Qed.

Lemma handle_cbin_input_consistent (a : ButtonHandler.Action)
      (o o' : CraneFlyOS.t) :
  os_consistent o ->
  handle_cbin_input w a o = Returns o' ->
  os_consistent o'.
Proof.
  intros Hos. pose proof Hos as (Hidle & Hwf & Hscroll & Hmenu).
  unfold handle_cbin_input. destruct a.
  - intros H. returned H.
    apply browser_change_consistent, next_item_well_formed; assumption.
  - pose proof (enter_selected_well_formed (listdir w) _ Hwf) as Hwf'.
    destruct (FileBrowser.enter_selected (listdir w) (file_browser o))
      as [[[|c rest]|] b]; cbn [snd] in Hwf'.
    + intros H. returned H. now apply browser_change_consistent.
    + unfold execute_file. cbn [proc with_browser].
      destruct (SubprocessManager.execute_file (run w) (String c rest)
                  (proc o)) as [[result| |] s'] eqn:Hex; try discriminate.
      intros H. returned H.
      split; [exact (execute_file_keeps_idle _ _ _ _ Hidle Hex)|].
      split; [exact Hwf'|]. split; [|exact Hmenu].
      unfold output_scroll_in_range. cbn [scroll_offset]. lia.
    + intros H. returned H. now apply browser_change_consistent.
  - intros H. returned H.
    apply browser_change_consistent, scroll_down_well_formed; assumption.
  - intros H. returned H.
    apply browser_change_consistent, scroll_up_well_formed; assumption.
  - intros H. returned H. exact Hos.
  - discriminate.
Qed.

Lemma handle_output_input_consistent (a : ButtonHandler.Action)
      (o o' : CraneFlyOS.t) :
  os_consistent o ->
  handle_output_input a o = Returns o' ->
  os_consistent o'.
Proof.
  intros Hos. pose proof Hos as (Hidle & Hwf & Hscroll & Hmenu).
  unfold output_scroll_in_range in Hscroll.
  destruct a; cbn [handle_output_input]; intros H; try discriminate;
    returned H; try exact Hos;
    (split; [exact Hidle|]; split; [exact Hwf|]; split; [|exact Hmenu]);
    unfold output_scroll_in_range; cbn [scroll_offset output_lines with_scroll];
    lia.
Qed.

Lemma execute_command_consistent (now : Z) (cmd : string)
      (o o' : CraneFlyOS.t) :
  os_consistent o ->
  execute_command w m now cmd o = Returns o' ->
  os_consistent o'.
Proof.
  intros Hos. unfold execute_command.
  destruct (String.eqb cmd "cfetch");
    [intros H; returned H; now apply output_consistent|].
  destruct (String.eqb cmd "ctop").
  { destruct (Commands.ctop _ m); [|discriminate].
    intros H; returned H; now apply output_consistent. }
  destruct (String.eqb cmd "cbin").
  { intros H. returned H. apply mode_change_consistent.
    apply browser_change_consistent; [assumption|].
    apply refresh_items_well_formed. }
  destruct (String.eqb cmd "reboot"); [discriminate|].
  intros H; returned H; now apply output_consistent.
Qed.

Lemma handle_menu_input_consistent (now : Z) (a : ButtonHandler.Action)
      (o o' : CraneFlyOS.t) :
  os_consistent o ->
  handle_menu_input w m now a o = Returns o' ->
  os_consistent o'.
Proof.
  intros Hos. pose proof Hos as (Hidle & Hwf & Hscroll & Hitems & Hsel).
  unfold handle_menu_input.
  destruct a; try (intros H; returned H; exact Hos); try discriminate.
  - unfold MenuSystem.next_item. rewrite Hitems. cbn [MenuSystem.init
      MenuSystem.menu_items List.length].
    intros H. returned H.
    split; [exact Hidle|]. split; [exact Hwf|]. split; [exact Hscroll|].
    split; [reflexivity|]. cbn [the_menu with_menu MenuSystem.selected_index].
    pose proof (Z.mod_pos_bound (MenuSystem.selected_index (the_menu o) + 1) 4).
    cbn in *. lia.
  - destruct (MenuSystem.get_selected (the_menu o)); [|discriminate].
    now apply execute_command_consistent.
Qed.

End Loop.

Section LoopTurns.

Import CraneFlyOS MainLoop.

Variable w : World.
Variable m : Commands.Machine.

Lemma dispatch_returns (now : Z) (a : ButtonHandler.Action)
      (s s' : MainLoop.t) :
  dispatch w m now a s = Returns s' ->
  screensaver s' = screensaver s
  /\ screensaver_active s' = screensaver_active s
  /\ last_activity_time s' = last_activity_time s
  /\ match mode (os s) with
     | menu => handle_menu_input w m now a (os s) = Returns (os s')
     | output => handle_output_input a (os s) = Returns (os s')
     | cbin => handle_cbin_input w a (os s) = Returns (os s')
     end.
Proof.
  unfold dispatch, with_os.
  destruct (mode (os s));
    match goal with
    | |- context [match ?h with _ => _ end] => destruct h
    end; try discriminate; intros H; returned H; auto.
Qed.

Lemma dispatch_consistent (now : Z) (a : ButtonHandler.Action)
      (s s' : MainLoop.t) :
  screensaver_active s = false ->
  os_consistent (os s) ->
  sprite_in_range (screensaver s) ->
  dispatch w m now a s = Returns s' ->
  consistent s'.
Proof.
  intros Hoff Hos Hsprite H.
  apply dispatch_returns in H as (Hsv & Hact & _ & H).
  split; [rewrite Hact, Hoff; discriminate|].
  split; [|now rewrite Hsv].
  destruct (mode (os s)).
  - now apply (handle_menu_input_consistent w m now a (os s)).
  - now apply (handle_output_input_consistent a (os s)).
  - now apply (handle_cbin_input_consistent w a (os s)).
Qed.

Lemma check_screensaver_consistent (now : Z) (s : MainLoop.t) :
  consistent s -> consistent (check_screensaver now s).
Proof.
  intros Hc. pose proof Hc as (Hact & Hos & Hsprite). unfold check_screensaver.
  destruct (mode (os s)) eqn:Hmode; try exact Hc.
  destruct (screensaver_active s); cbn [negb]; try exact Hc.
  destruct (_ >=? _); [|exact Hc].
  split; [intros _; exact Hmode | split; assumption].
Qed.

(** X20. The state [__init__] builds is consistent, and every turn of
    the main loop that returns leaves it so, as does a late
    [request_exit()] of a monitor thread that outlived its script: the
    screensaver shows only in menu mode; no script is marked running; the
    file browser is well formed; the scroll offset of the output view
    lies between 0 and the last full window; the menu holds its four
    commands with one of them selected; the sprite is in range.  The exit
    flag is no part of it: the late write raises it, and a turn that runs
    no script leaves it raised. *)
Theorem main_loop_keeps_the_state_consistent :
  (forall listdir now, consistent (MainLoop.init listdir now))
  /\ (forall fuel p rx ry now s s',
        consistent s ->
        iteration fuel p w m rx ry now s = Some (Returns s') ->
        consistent s')
  /\ (forall s,
        consistent s ->
        consistent (late_request_exit s)
        /\ SubprocessManager.should_exit (proc (os (late_request_exit s)))
           = true
        /\ forall fuel p rx ry now,
             ButtonHandler.pressed1 p now = false ->
             ButtonHandler.pressed2 p now = false ->
             exists s',
               iteration fuel p w m rx ry now (late_request_exit s)
               = Some (Returns s')
               /\ SubprocessManager.should_exit (proc (os s')) = true).
Proof.
  split; [|split].
  - intros listdir now. split; [discriminate|]. split.
    + split; [reflexivity|].
      split; [apply refresh_items_well_formed|].
      split; [unfold output_scroll_in_range; cbn; lia|].
      split; [reflexivity | cbn; lia].
    + unfold sprite_in_range, speed. cbn. lia.
  - intros fuel p rx ry now s s' Hc. unfold iteration.
    apply (check_screensaver_consistent now) in Hc.
    set (s1 := check_screensaver now s) in *.
    destruct (ButtonHandler.get_input fuel p now) as [[[a|] t1]|];
      [| |discriminate].
    + cbn [screensaver_active reset_screensaver_timer].
      intros H. injection H as H.
      destruct Hc as (_ & Hos & Hsprite).
      now apply (dispatch_consistent t1 a (reset_screensaver_timer t1 s1)).
    + destruct Hc as (Hact & Hos & Hsprite).
      destruct (screensaver_active s1) eqn:Eact.
      * destruct (update_in_range rx ry _ Hsprite) as (sv & -> & Hsv & _).
        intros H. returned H.
        split; [intros _; now apply Hact|]. split; assumption.
      * intros H. returned H.
        split; [rewrite Eact; discriminate | split; assumption].
  - intros s Hc. split; [|split].
    + destruct Hc as (Hact & (Hidle & Hwf & Hscroll & Hmenu) & Hsprite).
      split; [exact Hact|]. split; [|exact Hsprite].
      split; [exact Hidle|]. split; [exact Hwf|]. split; assumption.
    + reflexivity.
    + intros fuel p rx ry now H1 H2. unfold iteration.
      rewrite (get_input_idle p fuel now H1 H2).
      set (s0 := late_request_exit s).
      assert (Hsame : os (check_screensaver now s0) = os s0
                      /\ screensaver (check_screensaver now s0)
                         = screensaver s).
      { unfold check_screensaver. destruct (mode (os s0)); auto.
        destruct (negb (screensaver_active s0)); auto.
        destruct (_ >=? _); auto. }
      destruct Hsame as [Hos Hsv].
      destruct (screensaver_active (check_screensaver now s0)).
      * rewrite Hsv.
        destruct (update_in_range rx ry (screensaver s)) as (sv & -> & _);
          [apply Hc|].
        eexists. split; [reflexivity|]. cbn [os]. now rewrite Hos.
      * eexists. split; [reflexivity|]. now rewrite Hos.
Qed.

Lemma iteration_gesture (fuel : nat) (p : ButtonHandler.Pins)
      (rx ry now t1 : Z) (a : ButtonHandler.Action) (s : MainLoop.t) :
  ButtonHandler.get_input fuel p now = Some (Some a, t1) ->
  iteration fuel p w m rx ry now s
  = Some (dispatch w m t1 a (reset_screensaver_timer t1 s)).
Proof.
  intros G. unfold iteration. rewrite G.
  cbn [screensaver_active reset_screensaver_timer].
  do 2 f_equal. unfold reset_screensaver_timer, check_screensaver.
  destruct (mode (os s)); try reflexivity.
  destruct (negb (screensaver_active s)); try reflexivity.
  destruct (_ >=? _); reflexivity.
Qed.

(** X21. A gesture always reaches the handler of the current mode, also
    when it wakes the screensaver: the turn is the dispatch of the
    gesture on the state whose inactivity timer was restarted at the
    instant the decoder returned, and when the handler returns the
    screensaver is off. *)
Theorem gesture_is_dispatched_and_restarts_the_timer
        (fuel : nat) (p : ButtonHandler.Pins) (rx ry now t1 : Z)
        (a : ButtonHandler.Action) (s : MainLoop.t) :
  ButtonHandler.get_input fuel p now = Some (Some a, t1) ->
  iteration fuel p w m rx ry now s
  = Some (dispatch w m t1 a (reset_screensaver_timer t1 s))
  /\ forall s',
       dispatch w m t1 a (reset_screensaver_timer t1 s) = Returns s' ->
       screensaver_active s' = false
       /\ last_activity_time s' = Time.ticks_ms t1.
Proof.
  intros G. split.
  - now apply iteration_gesture.
  - intros s' H. apply dispatch_returns in H as (_ & -> & -> & _).
    split; reflexivity.
Qed.

(** X22. A both-buttons hold resets the machine in every mode, whether
    or not the screensaver is showing. *)
Theorem both_long_resets_in_every_mode
        (fuel : nat) (p : ButtonHandler.Pins) (rx ry now t1 : Z)
        (s : MainLoop.t) :
  ButtonHandler.get_input fuel p now
  = Some (Some ButtonHandler.both_long, t1) ->
  iteration fuel p w m rx ry now s = Some Resets.
Proof.
  intros G. rewrite (iteration_gesture _ _ _ _ _ _ _ _ G). f_equal.
  unfold dispatch. cbn [os reset_screensaver_timer].
  destruct (mode (os s)); reflexivity.
Qed.

(** X23. A turn that finds no button down leaves the OS object and the
    inactivity timer alone.  With the timer started at clock time [last],
    less than half a tick period ago, the screensaver is on after the
    turn exactly when it was on before, or the mode is the menu and 30
    seconds have passed since [last]. *)
Theorem idle_turn_starts_the_screensaver_after_30_s
        (fuel : nat) (p : ButtonHandler.Pins) (rx ry now last : Z)
        (s : MainLoop.t) :
  ButtonHandler.pressed1 p now = false ->
  ButtonHandler.pressed2 p now = false ->
  sprite_in_range (screensaver s) ->
  last_activity_time s = Time.ticks_ms last ->
  0 <= now - last < Time.TICKS_PERIOD / 2 ->
  exists s',
    iteration fuel p w m rx ry now s = Some (Returns s')
    /\ os s' = os s
    /\ last_activity_time s' = last_activity_time s
    /\ (screensaver_active s' = true
        <-> screensaver_active s = true
            \/ (mode (os s) = menu /\ screensaver_timeout <= now - last)).
Proof.
  intros H1 H2 Hsprite Hlast Hnow. unfold iteration.
  rewrite (get_input_idle p fuel now H1 H2).
  assert (Hel : Time.ticks_diff (Time.ticks_ms now) (last_activity_time s)
                = now - last).
  { rewrite Hlast. replace now with (last + (now - last)) at 1 by lia.
    apply ticks_diff_elapsed. lia. }
  unfold check_screensaver. rewrite Hel.
  destruct (mode (os s)) eqn:Hmode;
    destruct (screensaver_active s) eqn:Hact; cbn [negb];
    try destruct (Z.geb_spec (now - last) screensaver_timeout);
    cbn [screensaver_active screensaver os last_activity_time];
    try rewrite Hact;
    try (destruct (update_in_range rx ry _ Hsprite) as (sv & -> & _));
    eexists; (split; [reflexivity|]);
    cbn [screensaver_active os last_activity_time]; rewrite ?Hact;
    (split; [reflexivity|]); (split; [reflexivity|]);
    split; intros; auto; try discriminate;
    repeat match goal with
           | H : _ \/ _ |- _ => destruct H
           | H : _ /\ _ |- _ => destruct H
           end; try discriminate; try lia.
Qed.

End LoopTurns.

Section Witnesses.

Import FileBrowser.

Lemma browser_well_formed_witness :
  well_formed (init Samples.card)
  /\ well_formed (next_item Samples.many_files)
  /\ well_formed (scroll_down Samples.many_files)
  /\ exists it, get_selected_item Samples.many_files = Some it.
Proof.
  destruct (browser_stays_well_formed Samples.card) as (Hinit & _ & Hops).
  assert (Hwf : well_formed Samples.many_files)
    by (unfold well_formed, max_scroll; cbn; lia).
  destruct (Hops Samples.many_files Hwf) as (Hn & Hd & _ & _ & Hsel).
  repeat split; try assumption; try apply Hn; try apply Hd.
  apply Hsel. discriminate.
Defined.

Lemma enter_directory_then_parent_witness :
  current_path
    (snd (enter_selected Samples.card Samples.at_root_on_tools))
  = abs_path ([] ++ ["tools"])
  /\ get_selected_item
       (snd (enter_selected Samples.card Samples.at_root_on_tools))
     = Some {| name := ".."; type := parent; path := abs_path [] |}
  /\ current_path
       (snd (enter_selected Samples.card
               (snd (enter_selected Samples.card Samples.at_root_on_tools))))
     = current_path Samples.at_root_on_tools.
Proof.
  apply (enter_directory_then_parent_leads_back
           Samples.card Samples.card Samples.card Samples.at_root_on_tools
           {| name := "tools"; type := dir; path := "/tools" |}
           [] ["blink.py"; "main.py"]);
    try reflexivity; [constructor | split; [discriminate | reflexivity]].
Defined.

Lemma enter_selected_result_witness :
  Samples.three_files = Samples.three_files
  /\ exists it, get_selected_item Samples.three_files = Some it
                /\ type it = file /\ path it = "/b.py".
Proof.
  apply (proj1 (enter_selected_returns_path_only_for_files
                  Samples.card Samples.three_files)
           "/b.py" Samples.three_files).
  reflexivity.
Defined.

Lemma scrolling_witness :
  scroll_offset (scroll_down Samples.many_files)
  = scroll_offset Samples.many_files + 1
  /\ scroll_up (scroll_down Samples.many_files) = Samples.many_files.
Proof.
  apply (scrolling_is_clamped_and_undoes Samples.many_files).
  - unfold well_formed, max_scroll. cbn. lia.
  - unfold max_scroll. cbn. lia.
Defined.

Lemma next_item_window_witness :
  selected_index (next_item Samples.many_files)
  = selected_index Samples.many_files + 1
  /\ (selection_visible Samples.many_files ->
        scroll_offset (next_item Samples.many_files)
        = if selected_index Samples.many_files + 1
             <? scroll_offset Samples.many_files + Display.max_lines
          then scroll_offset Samples.many_files
          else scroll_offset Samples.many_files + 1).
Proof.
  apply (next_item_moves_window_no_further_than_needed Samples.many_files).
  - unfold well_formed, max_scroll. cbn. lia.
  - discriminate.
  - cbn. lia.
Defined.

Lemma show_marks_witness :
  exists line,
    nth_error (get_display_lines Samples.many_files)
      (Z.to_nat (selected_index Samples.many_files)) = Some line
    /\ filter indented (show Samples.many_files)
       = [ {| Display.text := Py.slice 0 (Z.to_nat Display.max_chars) line;
              Display.x := 10;
              Display.y := (selected_index Samples.many_files
                            - scroll_offset Samples.many_files)
                           * Display.line_height |} ]
    /\ In (selection_mark (selected_index Samples.many_files
                           - scroll_offset Samples.many_files))
          (show Samples.many_files).
Proof.
  apply (show_marks_the_selected_item Samples.many_files).
  - unfold well_formed, max_scroll. cbn. lia.
  - discriminate.
  - unfold selection_visible. cbn. lia.
Defined.

End Witnesses.

Section LoopWitnesses.

Import MainLoop.

Lemma main_loop_consistent_witness :
  consistent Samples.booted
  /\ consistent Samples.after_tap
  /\ consistent (late_request_exit Samples.after_tap)
  /\ SubprocessManager.should_exit
       (CraneFlyOS.proc (os (late_request_exit Samples.after_tap))) = true.
Proof.
  destruct (main_loop_keeps_the_state_consistent Samples.world Samples.board)
    as (Hinit & Hturn & Hlate).
  assert (Htap : consistent Samples.after_tap).
  { apply (Hturn 1%nat Samples.glitch 0 0 0 Samples.booted Samples.after_tap
             (Hinit _ _)).
    reflexivity. }
  split; [apply Hinit|]. split; [exact Htap|].
  destruct (Hlate _ Htap) as (Hc & Hflag & _). split; assumption.
Defined.

Lemma gesture_is_dispatched_witness :
  iteration 1 Samples.glitch Samples.world Samples.board 0 0 0 Samples.booted
  = Some (dispatch Samples.world Samples.board 50 ButtonHandler.btn1_short
            (reset_screensaver_timer 50 Samples.booted)).
Proof.
  apply (gesture_is_dispatched_and_restarts_the_timer
           Samples.world Samples.board 1%nat Samples.glitch 0 0 0 50
           ButtonHandler.btn1_short Samples.booted).
  reflexivity.
Defined.

Lemma both_long_resets_witness :
  iteration 200 Samples.one_let_go_early Samples.world Samples.board 0 0 0
    Samples.booted
  = Some Resets.
Proof.
  apply (both_long_resets_in_every_mode
           Samples.world Samples.board 200%nat Samples.one_let_go_early
           0 0 0 1000
           Samples.booted).
  vm_compute. reflexivity.
Defined.

Lemma idle_turn_witness :
  exists s',
    iteration 0 Samples.handover Samples.world Samples.board 0 0 40000
      Samples.booted
    = Some (Returns s')
    /\ os s' = os Samples.booted
    /\ last_activity_time s' = last_activity_time Samples.booted
    /\ (screensaver_active s' = true
        <-> screensaver_active Samples.booted = true
            \/ (CraneFlyOS.mode (os Samples.booted) = CraneFlyOS.menu
                /\ screensaver_timeout <= 40000 - 0)).
Proof.
  apply (idle_turn_starts_the_screensaver_after_30_s
           Samples.world Samples.board 0%nat Samples.handover 0 0 40000 0
           Samples.booted);
    try reflexivity.
  - unfold sprite_in_range, speed. cbn. lia.
  - cbn. lia.
Defined.

End LoopWitnesses.

(** ** The output view and the menu *)

Section OutputAndMenu.

Import CraneFlyOS.

Variable w : World.
Variable m : Commands.Machine.

(** X24. While the scroll offset of the output view is in range, which
    the scroll gestures keep it, [show_output] draws a full window: six
    lines when the output has at least six, all of them otherwise, and no
    selection mark.  A tap of either button returns to the menu and
    leaves every other field as it was. *)
Theorem output_view_is_always_full (o : CraneFlyOS.t) :
  output_scroll_in_range o ->
  List.length (show_output o)
  = Nat.min 6 (List.length (output_lines o))
  /\ filter indented (show_output o) = []
  /\ (forall a o',
        handle_output_input a o = Returns o' ->
        output_scroll_in_range o'
        /\ output_lines o' = output_lines o
        /\ the_menu o' = the_menu o
        /\ file_browser o' = file_browser o
        /\ (a = ButtonHandler.btn1_short \/ a = ButtonHandler.btn2_short ->
            mode o' = menu /\ scroll_offset o' = scroll_offset o)).
Proof.
  unfold output_scroll_in_range, Display.max_lines. intros Hscroll.
  split; [|split].
  - unfold show_output. rewrite draw_calls_rows.
    destruct (draw_rows_unmarked (scroll_offset o) (-1)
                (firstn (Z.to_nat Display.max_lines)
                   (skipn (Z.to_nat (scroll_offset o)) (output_lines o))) 0)
      as [_ ->]; [lia|].
    rewrite length_firstn, length_skipn. unfold Display.max_lines. lia.
  - unfold show_output. rewrite draw_calls_rows.
    apply draw_rows_unmarked. lia.
  - intros a o'. unfold Display.max_lines.
    destruct a; cbn [handle_output_input]; intros H; try discriminate;
      returned H; cbn [scroll_offset output_lines the_menu file_browser mode
                       with_scroll with_mode];
      unfold Display.max_lines;
      repeat split; try lia; try reflexivity;
      match goal with
      | E : _ \/ _ |- _ => destruct E; discriminate
      end.
Qed.

Lemma output_view_witness :
  List.length
    (show_output (with_output (MainLoop.os Samples.booted)
                    (Commands.cfetch Samples.board)))
  = Nat.min 6
      (List.length
         (output_lines
            (with_output (MainLoop.os Samples.booted)
               (Commands.cfetch Samples.board)))).
Proof.
  apply (output_view_is_always_full
           (with_output (MainLoop.os Samples.booted)
              (Commands.cfetch Samples.board))).
  unfold output_scroll_in_range. cbn. lia.
Defined.

(** X25. With the menu in range, "next" never raises and moves the
    selection to the next of the four commands, from the last to the
    first; "select" runs the selected command and never the "Unknown"
    answer: [cfetch] and [ctop] switch to the output view at its top with
    their lines, [cbin] to the file browser with a fresh listing of its
    current path, [reboot] resets the machine; the only exception is the
    division of [ctop] when no memory is reported at all. *)
Theorem menu_runs_the_selected_command (now : Z) (o : CraneFlyOS.t) :
  menu_in_range (the_menu o) ->
  (exists menu',
      handle_menu_input w m now ButtonHandler.btn1_short o
      = Returns (with_menu o menu')
      /\ MenuSystem.selected_index menu'
         = (MenuSystem.selected_index (the_menu o) + 1) mod 4
      /\ MenuSystem.menu_items menu' = MenuSystem.menu_items (the_menu o))
  /\ match handle_menu_input w m now ButtonHandler.btn2_short o with
     | Returns o' =>
         (MenuSystem.selected_index (the_menu o) = 0
          /\ o' = with_output o (Commands.cfetch m))
         \/ (MenuSystem.selected_index (the_menu o) = 1
             /\ exists lines,
                  Commands.ctop (Time.ticks_ms now) m = Some lines
                  /\ o' = with_output o lines)
         \/ (MenuSystem.selected_index (the_menu o) = 2
             /\ mode o' = cbin
             /\ file_browser o'
                = FileBrowser.refresh_items (listdir w) (file_browser o))
     | Resets => MenuSystem.selected_index (the_menu o) = 3
     | Propagates =>
         MenuSystem.selected_index (the_menu o) = 1
         /\ Commands.mem_free m + Commands.mem_alloc m = 0
     end.
Proof.
  intros (Hitems & Hsel). split.
  - unfold handle_menu_input, MenuSystem.next_item. rewrite Hitems.
    cbn [MenuSystem.init MenuSystem.menu_items List.length].
    eexists. split; [reflexivity|]. split; reflexivity.
  - unfold handle_menu_input, MenuSystem.get_selected. rewrite Hitems.
    assert (Hcase : MenuSystem.selected_index (the_menu o) = 0
                    \/ MenuSystem.selected_index (the_menu o) = 1
                    \/ MenuSystem.selected_index (the_menu o) = 2
                    \/ MenuSystem.selected_index (the_menu o) = 3) by lia.
    destruct Hcase as [E | [E | [E | E]]]; rewrite E;
      cbn [Py.index MenuSystem.init MenuSystem.menu_items List.length
           Z.of_nat Z.leb Z.ltb Z.compare Pos.compare Pos.compare_cont andb
           Z.to_nat Pos.to_nat Pos.iter_op Nat.add nth_error];
      unfold execute_command; cbn [String.eqb Ascii.eqb Bool.eqb].
    + left. auto.
    + destruct (Commands.ctop (Time.ticks_ms now) m) as [lines|] eqn:C.
      * right. left. eauto.
      * split; [reflexivity|].
        unfold Commands.ctop in C.
        destruct (Commands.uptime _) as [[h mi] se].
        destruct (Z.eqb_spec (Commands.mem_free m + Commands.mem_alloc m) 0);
          [assumption | discriminate].
    + right. right. auto.
    + reflexivity.
Qed.

End OutputAndMenu.

Lemma menu_runs_witness :
  (exists menu',
      CraneFlyOS.handle_menu_input Samples.world Samples.board 0
        ButtonHandler.btn1_short
        (MainLoop.os Samples.booted)
      = Returns (CraneFlyOS.with_menu (MainLoop.os Samples.booted) menu')
      /\ MenuSystem.selected_index menu'
         = (MenuSystem.selected_index
              (CraneFlyOS.the_menu (MainLoop.os Samples.booted)) + 1)
             mod 4
      /\ MenuSystem.menu_items menu'
         = MenuSystem.menu_items
             (CraneFlyOS.the_menu (MainLoop.os Samples.booted))).
Proof.
  assert (Hmenu : menu_in_range
                    (CraneFlyOS.the_menu (MainLoop.os Samples.booted)))
    by (split; [reflexivity | vm_compute; split; [discriminate | reflexivity]]).
  apply (proj1 (menu_runs_the_selected_command
                  Samples.world Samples.board 0 (MainLoop.os Samples.booted)
                  Hmenu)).
Defined.

